(** * RASCAL-ECC-GIS dashboard: the ingestion and decision core of [app.py]

    A shallow embedding of the three format parsers ([parse_txt],
    [parse_csv], [parse_xml]) and of the protective-action engine
    ([recommend_protective_actions]) of [src/app.py], together with the
    Python built-ins they rest on ([str.strip], [str.split], [in],
    [float]) and a small model of the pandas [DataFrame] objects they
    build and mutate; and of their callers: the generator of simulated
    data ([generate_random_rascal_data]), the upload panel, the copy that
    the map and the decision panel hand to the engine, the data table and
    the login and logout of the session.

    Conventions.
    - A Python [str] is a [string]; a character is a code point below 256.
    - A Python [float] is a binary64 value, a [spec_float] with precision
      53 and maximal exponent 1024.
    - Python objects that are mutated and passed around (the data frames)
      live in a store indexed by object identity. *)

From Stdlib Require Import ZArith QArith Qpower Lqa String Ascii List Bool Lia.
From Stdlib Require Import Floats.SpecFloat.
From Stdlib Require DecimalString.
From stdpp Require Import gmap strings list.

Local Open Scope string_scope.
Local Open Scope list_scope.

(** ** Python values, exceptions and results *)

Inductive pyval :=
  | VNone
  | VStr (s : string)
  | VInt (z : Z)
  | VFloat (f : spec_float).

Inductive exn :=
  | ValueError
  | TypeError
  | KeyError (key : string)
  | IndexError
  | OverflowError
  | ParseError.

Inductive result (A : Type) :=
  | Ok (a : A)
  | Raise (e : exn).
Arguments Ok {A} a.
Arguments Raise {A} e.

(** ** String built-ins *)

Module PyStr.

Definition code (c : ascii) : N := N_of_ascii c.

(** [str.isspace] on one character, for the code points below 256:
    TAB, LF, VT, FF, CR, FS, GS, RS, US, SPACE, NEL and NBSP. *)
Definition isspace (c : ascii) : bool :=
  let n := code c in
  ((9 <=? n) && (n <=? 13) || (28 <=? n) && (n <=? 32)
   || (n =? 133) || (n =? 160))%N.

Definition isdigit (c : ascii) : bool :=
  ((48 <=? code c) && (code c <=? 57))%N.

Definition digit_val (c : ascii) : Z := Z.of_N (code c) - 48.

Section Strip.
Variable sp : ascii -> bool.

Fixpoint lstrip_by (s : string) : string :=
  match s with
  | String c s' => if sp c then lstrip_by s' else s
  | EmptyString => EmptyString
  end.

Fixpoint rstrip_by (s : string) : string :=
  match s with
  | String c s' =>
      match rstrip_by s' with
      | EmptyString => if sp c then EmptyString else String c EmptyString
      | r => String c r
      end
  | EmptyString => EmptyString
  end.

Definition strip_by (s : string) : string := rstrip_by (lstrip_by s).
End Strip.

(** [s.strip()] *)
Definition strip : string -> string := strip_by isspace.

(** [sub in s] *)
Fixpoint contains (sub s : string) : bool :=
  String.prefix sub s
  || match s with
     | String _ s' => contains sub s'
     | EmptyString => false
     end.

(** [s.startswith(p)] *)
Definition startswith (s p : string) : bool := String.prefix p s.

(** [s.split(sep)] for a non-empty separator: the pieces between the
    non-overlapping occurrences of [sep], found from the left.
    [split_from sep skip s] returns the piece being read and the pieces
    after it; [skip] counts the characters of a separator occurrence
    that remain to be passed over. *)
Fixpoint split_from (sep : string) (skip : nat) (s : string)
  : string * list string :=
  match s with
  | EmptyString => (EmptyString, [])
  | String c s' =>
      match skip with
      | S k => split_from sep k s'
      | O =>
          if String.prefix sep s
          then (EmptyString,
                let (p, ps) := split_from sep (String.length sep - 1) s' in
                p :: ps)
          else let (p, ps) := split_from sep 0 s' in (String c p, ps)
      end
  end.

Definition split (s sep : string) : list string :=
  let (p, ps) := split_from sep 0 s in p :: ps.

End PyStr.

(** ** The [float] built-in on strings *)

Module PyFloat.
Import PyStr.

Definition prec : Z := 53.
Definition emax : Z := 1024.

(** Whitespace that [float] removes at both ends: the ASCII white space
    of the C locale, and the non-ASCII spaces (NEL, NBSP), which it first
    rewrites to a blank. *)
Definition isspace_c (c : ascii) : bool :=
  let n := code c in
  ((9 <=? n) && (n <=? 13) || (n =? 32) || (n =? 133) || (n =? 160))%N.

(** Digit-group underscores: one underscore is allowed between two
    digits and nowhere else; they are dropped before the number is read. *)
Fixpoint drop_underscores (prev : ascii) (s : string) : option string :=
  match s with
  | EmptyString =>
      if Ascii.eqb prev "_" then None else Some EmptyString
  | String c s' =>
      if Ascii.eqb c "_"
      then if isdigit prev then drop_underscores c s' else None
      else if Ascii.eqb prev "_" && negb (isdigit c) then None
           else option_map (String c) (drop_underscores c s')
  end.

(** [read_digits s acc n]: the longest run of decimal digits at the
    front of [s], accumulated into [acc]; also its length and the rest. *)
Fixpoint read_digits (s : string) (acc : Z) (n : nat) : Z * nat * string :=
  match s with
  | String c s' =>
      if isdigit c then read_digits s' (10 * acc + digit_val c)%Z (S n)
      else (acc, n, s)
  | EmptyString => (acc, n, s)
  end.

Definition read_sign (s : string) : bool * string :=
  match s with
  | String "-" t => (true, t)
  | String "+" t => (false, t)
  | _ => (false, s)
  end.

(** A decimal numeral [digits [. digits] [(e|E) [sign] digits]] with at
    least one mantissa digit, read as the pair (D, E) standing for
    D * 10^E.  The whole string has to be consumed. *)
Definition parse_decimal (s : string) : option (Z * Z) :=
  let '(i, ni, s1) := read_digits s 0%Z 0%nat in
  let '(d, nf, s2) :=
    match s1 with
    | String "." s1' => read_digits s1' i 0%nat
    | _ => (i, 0%nat, s1)
    end in
  if (ni + nf =? 0)%nat then None
  else
    match s2 with
    | EmptyString => Some (d, (- Z.of_nat nf)%Z)
    | String c s3 =>
        if Ascii.eqb c "e" || Ascii.eqb c "E" then
          let '(neg, s4) := read_sign s3 in
          let '(x, nx, s5) := read_digits s4 0%Z 0%nat in
          if (nx =? 0)%nat then None
          else
            match s5 with
            | EmptyString =>
                Some (d, ((if neg then - x else x) - Z.of_nat nf)%Z)
            | _ => None
            end
        else None
    end.

(** Round the positive rational [num / den] to the nearest binary64
    value, ties to even; overflow gives an infinity and underflow a
    subnormal or a zero. *)
Definition round_ratio (neg : bool) (num den : Z) : spec_float :=
  let '(q, e, l) := SFdiv_core_binary prec emax num 0 den 0 in
  binary_round_aux prec emax neg q e l.

Definition of_decimal (neg : bool) (d e : Z) : spec_float :=
  if (d =? 0)%Z then S754_zero neg
  else if (0 <=? e)%Z then round_ratio neg (d * 10 ^ e) 1
       else round_ratio neg d (10 ^ (- e)).

Definition lower (c : ascii) : ascii :=
  if ((65 <=? code c) && (code c <=? 90))%N
  then ascii_of_N (code c + 32) else c.

Fixpoint lower_string (s : string) : string :=
  match s with
  | String c s' => String (lower c) (lower_string s')
  | EmptyString => EmptyString
  end.

(** [inf], [infinity] and [nan], in any letter case. *)
Definition parse_inf_nan (neg : bool) (s : string) : option spec_float :=
  let l := lower_string s in
  if String.eqb l "inf" || String.eqb l "infinity"
  then Some (S754_infinity neg)
  else if String.eqb l "nan" then Some S754_nan else None.

(** [float(s)] for a string [s]: the digit-group underscores are
    checked and dropped, the white space at both ends is removed, and what
    remains has to be a signed decimal numeral, an infinity or a NaN.
    [None] stands for [ValueError]. *)
Definition of_string (s : string) : option spec_float :=
  match drop_underscores zero s with
  | None => None
  | Some t =>
      let '(neg, u) := read_sign (strip_by isspace_c t) in
      match parse_decimal u with
      | Some (d, e) => Some (of_decimal neg d e)
      | None => parse_inf_nan neg u
      end
  end.

End PyFloat.

(** [float(v)]: a string is parsed, a float is returned as it is, an
    integer is rounded to the nearest float unless it is too large, and
    [None] is a [TypeError]. *)
Definition py_float (v : pyval) : result spec_float :=
  match v with
  | VStr s =>
      match PyFloat.of_string s with
      | Some f => Ok f
      | None => Raise ValueError
      end
  | VFloat f => Ok f
  | VInt z =>
      if (z =? 0)%Z then Ok (S754_zero false)
      else
        match PyFloat.round_ratio (z <? 0)%Z (Z.abs z) 1 with
        | S754_infinity _ => Raise OverflowError
        | f => Ok f
        end
  | VNone => Raise TypeError
  end.

(** ** Data frames and the object store *)

(** A pandas [DataFrame] with the default integer index: the number of
    rows and the columns in order, each a label with one value per row.
    The operations below are those of pandas on a frame whose labels are
    pairwise distinct ([Frame.wf]); on a label that occurs twice pandas
    selects and assigns all the columns that carry it, which is outside
    this model, and the properties are stated for frames with distinct
    labels. *)
Record DataFrame := mkDataFrame {
  df_len : nat;
  df_columns : list (string * list pyval)
}.

Module Frame.

(** [df.empty]: some axis has length zero. *)
Definition empty (d : DataFrame) : bool :=
  (df_len d =? 0)%nat
  || match df_columns d with [] => true | _ => false end.

Fixpoint lookup_column (key : string) (cols : list (string * list pyval))
  : option (list pyval) :=
  match cols with
  | [] => None
  | (k, c) :: cols' =>
      if String.eqb k key then Some c else lookup_column key cols'
  end.

(** [df[key]], for a label that occurs at most once. *)
Definition getitem (d : DataFrame) (key : string) : result (list pyval) :=
  match lookup_column key (df_columns d) with
  | Some c => Ok c
  | None => Raise (KeyError key)
  end.

(** Assignment to a column label that occurs at most once: an existing
    column is replaced where it stands, a new one is added last. *)
Fixpoint set_column (key : string) (c : list pyval)
  (cols : list (string * list pyval)) : list (string * list pyval) :=
  match cols with
  | [] => [(key, c)]
  | (k, c0) :: cols' =>
      if String.eqb k key then (k, c) :: cols'
      else (k, c0) :: set_column key c cols'
  end.

(** [df[key] = column] for a column computed from [df] itself. *)
Definition setitem (d : DataFrame) (key : string) (c : list pyval)
  : DataFrame :=
  mkDataFrame (df_len d) (set_column key c (df_columns d)).

(** [df[key] = v] for a scalar [v], repeated on every row. *)
Definition setitem_scalar (d : DataFrame) (key : string) (v : pyval)
  : DataFrame :=
  setitem d key (repeat v (df_len d)).

(** [df.columns = [f(col) for col in df.columns]] *)
Definition rename_columns (f : string -> string) (d : DataFrame)
  : DataFrame :=
  mkDataFrame (df_len d)
    (List.map (fun kc => (f (fst kc), snd kc)) (df_columns d)).

(** [Series.apply(f)]: [f] on every value in order; the first
    exception ends the call. *)
Fixpoint apply (f : pyval -> result pyval) (c : list pyval)
  : result (list pyval) :=
  match c with
  | [] => Ok []
  | v :: c' =>
      match f v with
      | Raise e => Raise e
      | Ok w =>
          match apply f c' with
          | Raise e => Raise e
          | Ok ws => Ok (w :: ws)
          end
      end
  end.

(** [df.columns] *)
Definition labels (d : DataFrame) : list string :=
  List.map fst (df_columns d).

(** The labels are distinct and every column has one value per row. *)
Definition wf (d : DataFrame) : Prop :=
  List.NoDup (labels d)
  /\ Forall (fun kc => length (snd kc) = df_len d) (df_columns d).

(** The value of record [i] under the label [key]. *)
Definition cell (d : DataFrame) (key : string) (i : nat) : option pyval :=
  match lookup_column key (df_columns d) with
  | Some c => c !! i
  | None => None
  end.

End Frame.

(** One zone as the parsers build it: the dict with the six keys
    ['Zone'], ['Dose (mSv)'], ['Radionuclide'], ['Radius (km)'],
    ['Latitude'], ['Longitude']. *)
Record zone_row := mkZoneRow {
  zr_zone : pyval;
  zr_dose : spec_float;
  zr_radionuclide : pyval;
  zr_radius : spec_float;
  zr_latitude : spec_float;
  zr_longitude : spec_float
}.

(** [pd.DataFrame(data)] for a list of such dicts: no rows give a frame
    without columns. *)
Definition frame_of_rows (data : list zone_row) : DataFrame :=
  match data with
  | [] => mkDataFrame 0 []
  | _ =>
      mkDataFrame (length data)
        [ ("Zone", List.map zr_zone data);
          ("Dose (mSv)", List.map (fun r => VFloat (zr_dose r)) data);
          ("Radionuclide", List.map zr_radionuclide data);
          ("Radius (km)", List.map (fun r => VFloat (zr_radius r)) data);
          ("Latitude", List.map (fun r => VFloat (zr_latitude r)) data);
          ("Longitude", List.map (fun r => VFloat (zr_longitude r)) data) ]
  end.

(** Messages handed to [st.warning], with the values they interpolate. *)
Inductive warning :=
  | WarnTxtMalformed (line : string)
  | WarnTxtColumns (line : string)
  | WarnXmlZone (tag : string) (e : exn).

(** Object identities of data frames. *)
Definition loc := nat.

Record world := mkWorld {
  heap : gmap loc DataFrame;
  warnings : list warning
}.

(** Computations that read and write the store, emit warnings and may
    raise. *)
Definition py (A : Type) : Type := world -> result A * world.

Definition ret {A} (a : A) : py A := fun w => (Ok a, w).

Definition bind {A B} (m : py A) (k : A -> py B) : py B :=
  fun w =>
    match m w with
    | (Ok a, w') => k a w'
    | (Raise e, w') => (Raise e, w')
    end.

Definition raise {A} (e : exn) : py A := fun w => (Raise e, w).

Definition lift {A} (r : result A) : py A := fun w => (r, w).

Notation "'let*' x ':=' m 'in' k" := (bind m (fun x => k))
  (at level 10, x name, m at level 100, k at level 200).
Notation "'do' m 'then' k" := (bind m (fun _ => k))
  (at level 10, m at level 100, k at level 200).

(** [st.warning(...)] *)
Definition st_warning (m : warning) : py unit :=
  fun w => (Ok tt, mkWorld (heap w) (warnings w ++ [m])).

(** A new data frame object. *)
Definition alloc (d : DataFrame) : py loc :=
  fun w =>
    let l := fresh (dom (heap w)) in
    (Ok l, mkWorld (<[l := d]> (heap w)) (warnings w)).

(** The object at [l].  A reference held by the program always denotes an
    object; the error branch stands for a reference that denotes none. *)
Definition load (l : loc) : py DataFrame :=
  fun w =>
    match heap w !! l with
    | Some d => (Ok d, w)
    | None => (Raise (KeyError "<no such object>"), w)
    end.

(** In-place update of the object at [l]. *)
Definition modify (l : loc) (f : DataFrame -> DataFrame) : py unit :=
  fun w =>
    match heap w !! l with
    | Some d => (Ok tt, mkWorld (<[l := f d]> (heap w)) (warnings w))
    | None => (Raise (KeyError "<no such object>"), w)
    end.

(** A [for] loop that threads a local value through its body. *)
Fixpoint for_each {A S} (l : list A) (body : S -> A -> py S) (s : S)
  : py S :=
  match l with
  | [] => ret s
  | a :: l' => bind (body s a) (for_each l' body)
  end.

(** ** Format parsers *)

Definition nl : string := String (ascii_of_nat 10) EmptyString.

(** [l[i]] on a list *)
Definition list_getitem {A} (l : list A) (i : nat) : result A :=
  match l !! i with
  | Some a => Ok a
  | None => Raise IndexError
  end.

Definition rbind {A B} (r : result A) (k : A -> result B) : result B :=
  match r with
  | Ok a => k a
  | Raise e => Raise e
  end.

(** *** [parse_txt] *)

Definition txt_lines (file_content : string) : list string :=
  PyStr.split (PyStr.strip file_content) nl.

Definition is_header_line (line : string) : bool :=
  PyStr.contains ":" line.

Definition is_data_line (line : string) : bool :=
  PyStr.contains ";" line && negb (PyStr.startswith line "Zone;").

(** The body of the loop over the header lines; the state is the pair of
    locals [incident_name], [timestamp]. *)
Definition header_step (st : string * string) (h_line : string)
  : result (string * string) :=
  let (incident_name, timestamp) := st in
  if PyStr.contains "Incident:" h_line then
    rbind (list_getitem (PyStr.split h_line "Incident:") 1)
      (fun v => Ok (PyStr.strip v, timestamp))
  else if PyStr.contains "Timestamp:" h_line then
    rbind (list_getitem (PyStr.split h_line "Timestamp:") 1)
      (fun v => Ok (incident_name, PyStr.strip v))
  else Ok st.

Fixpoint scan_headers (st : string * string) (header_lines : list string)
  : result (string * string) :=
  match header_lines with
  | [] => Ok st
  | h_line :: rest =>
      rbind (header_step st h_line) (fun st' => scan_headers st' rest)
  end.

(** The dict built from the six fields of a data line. *)
Definition txt_row (parts : list string) : result zone_row :=
  rbind (list_getitem parts 0) (fun p0 =>
  rbind (list_getitem parts 1) (fun p1 =>
  rbind (py_float (VStr (PyStr.strip p1))) (fun dose =>
  rbind (list_getitem parts 2) (fun p2 =>
  rbind (list_getitem parts 3) (fun p3 =>
  rbind (py_float (VStr (PyStr.strip p3))) (fun radius =>
  rbind (list_getitem parts 4) (fun p4 =>
  rbind (py_float (VStr (PyStr.strip p4))) (fun latitude =>
  rbind (list_getitem parts 5) (fun p5 =>
  rbind (py_float (VStr (PyStr.strip p5))) (fun longitude =>
  Ok (mkZoneRow (VStr (PyStr.strip p0)) dose (VStr (PyStr.strip p2))
        radius latitude longitude))))))))))).

(** The body of the loop over the data lines; the state is the local
    list [data]. *)
Definition txt_data_step (data : list zone_row) (line : string)
  : py (list zone_row) :=
  let parts := PyStr.split line ";" in
  if (length parts =? 6)%nat then
    match txt_row parts with
    | Ok r => ret (data ++ [r])
    | Raise ValueError =>
        do st_warning (WarnTxtMalformed line) then ret data
    | Raise e => raise e
    end
  else
    do st_warning (WarnTxtColumns line) then ret data.

Definition parse_txt (file_content : string) : py loc :=
  let lines := txt_lines file_content in
  let header_lines := List.filter is_header_line lines in
  let data_lines := List.filter is_data_line lines in
  let* hdr := lift (scan_headers ("", "") header_lines) in
  let* data :=
    match data_lines with
    | [] => ret []
    | _ => for_each data_lines txt_data_step []
    end in
  let incident_name := VStr (fst hdr) in
  let timestamp := VStr (snd hdr) in
  let* df := alloc (frame_of_rows data) in
  do modify df (fun d => Frame.setitem_scalar d "Incident" incident_name) then
  do modify df (fun d => Frame.setitem_scalar d "Timestamp" timestamp) then
  ret df.

(** *** [parse_xml] *)

(** An element of the tree that [ET.fromstring] returns: its tag, its
    attributes and its child elements in document order. *)
#[warnings="-register-all"]
Inductive element :=
  | Element (tag : string) (attrib : gmap string string)
      (children : list element).

Module ET.

Definition tag (e : element) : string :=
  match e with Element t _ _ => t end.

Definition children (e : element) : list element :=
  match e with Element _ _ cs => cs end.

(** [e.get(key)]: the attribute value, or [None]. *)
Definition get (e : element) (key : string) : pyval :=
  match e with
  | Element _ a _ =>
      match a !! key with
      | Some v => VStr v
      | None => VNone
      end
  end.

(** [e.find(t)]: the first child with tag [t]. *)
Definition find (e : element) (t : string) : option element :=
  List.find (fun c => String.eqb (tag c) t) (children e).

(** [e.iter()]: the element and all its descendants in document order. *)
Fixpoint iter (e : element) : list element :=
  match e with
  | Element _ _ cs => e :: List.flat_map iter cs
  end.

(** [e.findall('.//' + t)]: the descendants of [e] with tag [t], in
    document order; [e] itself is not among them. *)
Definition findall_descendants (e : element) (t : string) : list element :=
  List.filter (fun c => String.eqb (tag c) t)
    (List.flat_map iter (children e)).

End ET.

(** The dict built from the attributes of a [Zone] element. *)
Definition xml_row (zone_elem : element) : result zone_row :=
  let name := ET.get zone_elem "name" in
  rbind (py_float (ET.get zone_elem "dose_mSv")) (fun dose =>
  let radionuclide := ET.get zone_elem "radionuclide" in
  rbind (py_float (ET.get zone_elem "radius_km")) (fun radius =>
  rbind (py_float (ET.get zone_elem "latitude")) (fun latitude =>
  rbind (py_float (ET.get zone_elem "longitude")) (fun longitude =>
  Ok (mkZoneRow name dose radionuclide radius latitude longitude))))).

Definition xml_zone_step (data : list zone_row) (zone_elem : element)
  : py (list zone_row) :=
  match xml_row zone_elem with
  | Ok r => ret (data ++ [r])
  | Raise TypeError =>
      do st_warning (WarnXmlZone (ET.tag zone_elem) TypeError) then ret data
  | Raise ValueError =>
      do st_warning (WarnXmlZone (ET.tag zone_elem) ValueError) then ret data
  | Raise e => raise e
  end.

(** [parse_xml] from the point where the document has been read. *)
Definition parse_xml_root (root : element) : py loc :=
  let incident_elem := ET.find root "Incident" in
  let incident_name :=
    match incident_elem with
    | Some i => ET.get i "name"
    | None => VStr "N/A"
    end in
  let timestamp :=
    match incident_elem with
    | Some i => ET.get i "timestamp"
    | None => VStr "N/A"
    end in
  let* data :=
    for_each (ET.findall_descendants root "Zone") xml_zone_step [] in
  let* df := alloc (frame_of_rows data) in
  do modify df (fun d => Frame.setitem_scalar d "Incident" incident_name) then
  do modify df (fun d => Frame.setitem_scalar d "Timestamp" timestamp) then
  ret df.

(** The two library decoders are taken as given: [fromstring] is
    [xml.etree.ElementTree.fromstring] and [read_csv] is
    [pandas.read_csv] on an in-memory text; either may fail as a whole. *)
Section Decoders.

Variable fromstring : string -> result element.
Variable read_csv : string -> result DataFrame.

Definition parse_xml (file_content : string) : py loc :=
  let* root := lift (fromstring file_content) in
  parse_xml_root root.

(** *** [parse_csv] *)
Definition parse_csv (file_content : string) : py loc :=
  let* d := lift (read_csv file_content) in
  let* df := alloc d in
  do modify df (Frame.rename_columns PyStr.strip) then
  ret df.

End Decoders.

(** ** Protective-action engine *)

Definition EVACUATE_THRESHOLD : spec_float :=
  S754_finite false 5629499534213120 (-49).
Definition SHELTER_THRESHOLD : spec_float :=
  S754_finite false 5629499534213120 (-50).
Definition MONITOR_THRESHOLD : spec_float :=
  S754_finite false 4503599627370496 (-52).

(** Exact comparison of an integer with a float, as Python does it. *)
Definition Zcompare_float (z : Z) (f : spec_float) : option comparison :=
  match f with
  | S754_nan => None
  | S754_infinity s => Some (if s then Gt else Lt)
  | S754_zero _ => Some (z ?= 0)%Z
  | S754_finite s m e =>
      let v := cond_Zopp s (Zpos m) in
      if (0 <=? e)%Z then Some (z ?= v * 2 ^ e)%Z
      else Some (z * 2 ^ (- e) ?= v)%Z
  end.

(** [v >= t] for a float [t]: numbers compare by value, anything else
    is a [TypeError]. *)
Definition py_ge (v : pyval) (t : spec_float) : result bool :=
  match v with
  | VFloat f => Ok (SFleb t f)
  | VInt z =>
      Ok match Zcompare_float z t with
         | Some (Gt | Eq) => true
         | _ => false
         end
  | VStr _ | VNone => Raise TypeError
  end.

(** [v == s] for a string [s] *)
Definition py_eq_str (v : pyval) (s : string) : bool :=
  match v with
  | VStr t => String.eqb t s
  | _ => false
  end.

Definition get_action (dose : pyval) : result pyval :=
  rbind (py_ge dose EVACUATE_THRESHOLD) (fun b =>
  if b then Ok (VStr "Evacuate")
  else
    rbind (py_ge dose SHELTER_THRESHOLD) (fun b =>
    if b then Ok (VStr "Shelter-in-Place")
    else
      rbind (py_ge dose MONITOR_THRESHOLD) (fun b =>
      if b then Ok (VStr "Monitor & Advise")
      else Ok (VStr "No Immediate Action")))).

Definition get_color (action : pyval) : pyval :=
  if py_eq_str action "Evacuate" then VStr "red"
  else if py_eq_str action "Shelter-in-Place" then VStr "orange"
  else if py_eq_str action "Monitor & Advise" then VStr "yellow"
  else VStr "green".

Definition recommend_protective_actions (df : loc) : py loc :=
  let* d := load df in
  if Frame.empty d then ret df
  else
    let* dose := lift (Frame.getitem d "Dose (mSv)") in
    let* actions := lift (Frame.apply get_action dose) in
    do modify df (fun d => Frame.setitem d "Recommended Action" actions) then
    let* d' := load df in
    let* recommended := lift (Frame.getitem d' "Recommended Action") in
    let* colors :=
      lift (Frame.apply (fun a => Ok (get_color a)) recommended) in
    do modify df (fun d => Frame.setitem d "Action Color" colors) then
    ret df.

(** ** A plain reading of [pandas.read_csv] *)

Module Csv.
Import PyStr PyFloat.

(** The cell texts that the library reads as a missing value. *)
Definition na_values : list string :=
  [""; "#N/A"; "#N/A N/A"; "#NA"; "-1.#IND"; "-1.#QNAN"; "-NaN"; "-nan";
   "1.#IND"; "1.#QNAN"; "<NA>"; "N/A"; "NA"; "NULL"; "NaN"; "None"; "n/a";
   "nan"; "null"].

Definition is_na (s : string) : bool := existsb (String.eqb s) na_values.

(** An optionally signed run of decimal digits. *)
Definition read_int (s : string) : option Z :=
  let '(neg, t) := read_sign s in
  let '(v, n, rest) := read_digits t 0%Z 0%nat in
  if (n =? 0)%nat then None
  else
    match rest with
    | EmptyString => Some (if neg then (- v)%Z else v)
    | _ => None
    end.

Definition read_float (s : string) : option spec_float :=
  if is_na s then Some S754_nan
  else if contains "_" s then None else of_string s.

Fixpoint all_some {A} (l : list (option A)) : option (list A) :=
  match l with
  | [] => Some []
  | Some a :: l' => option_map (cons a) (all_some l')
  | None :: _ => None
  end.

(** The values of one column: integers when every cell is an integer,
    floats when every cell is a number or missing, and otherwise the cell
    texts themselves, a missing cell being the float NaN. *)
Definition infer_column (cells : list string) : list pyval :=
  match all_some (List.map read_int cells) with
  | Some zs => List.map VInt zs
  | None =>
      match all_some (List.map read_float cells) with
      | Some fs => List.map VFloat fs
      | None =>
          List.map (fun s => if is_na s then VFloat S754_nan else VStr s)
            cells
      end
  end.

Definition cr : ascii := ascii_of_nat 13.

(** A line without the carriage return that may end it. *)
Definition chomp (line : string) : string :=
  rstrip_by (fun c => Ascii.eqb c cr) line.

Definition is_blank (line : string) : bool :=
  match lstrip_by (fun c => Ascii.eqb c " " || Ascii.eqb c "009") line with
  | EmptyString => true
  | _ => false
  end.

(** Field [i] of a row; a row that is too short is filled with missing
    cells. *)
Definition field (i : nat) (row : list string) : string :=
  match row !! i with
  | Some s => s
  | None => EmptyString
  end.

(** The table read from comma-separated text without quotes: the first
    non-blank line names the columns and every later non-blank line is a
    row.  A row with more fields than there are columns, and a text
    without any line, are parse errors.  Quoting, Boolean and date
    columns, repeated or empty column names and an implicit index column
    are outside this reading. *)
Definition read_csv_plain (text : string) : result DataFrame :=
  let lines :=
    List.filter (fun l => negb (is_blank l))
      (List.map chomp (split text nl)) in
  match List.map (fun l => split l ",") lines with
  | [] => Raise ParseError
  | header :: rows =>
      if forallb (fun r => (length r <=? length header)%nat) rows then
        Ok (mkDataFrame (length rows)
              (imap (fun i name =>
                       (name, infer_column (List.map (field i) rows)))
                 header))
      else Raise ParseError
  end.

End Csv.

(** * Vocabulary of the properties *)

(** ** What the parser loops contribute *)

(** The frame of the TXT and XML parsers: the rows, then the incident
    and the time stamp repeated on every row. *)
Definition with_headers (data : list zone_row) (i t : pyval) : DataFrame :=
  Frame.setitem_scalar
    (Frame.setitem_scalar (frame_of_rows data) "Incident" i) "Timestamp" t.

(** What one data line adds to [data]: its row, when it has six fields
    and the four numbers can be read. *)
Definition txt_line_row (line : string) : option zone_row :=
  let parts := PyStr.split line ";" in
  if (length parts =? 6)%nat then
    match txt_row parts with
    | Ok r => Some r
    | Raise _ => None
    end
  else None.

(** The warning one data line causes, if any. *)
Definition txt_line_warning (line : string) : option warning :=
  let parts := PyStr.split line ";" in
  if (length parts =? 6)%nat then
    match txt_row parts with
    | Ok _ => None
    | Raise _ => Some (WarnTxtMalformed line)
    end
  else Some (WarnTxtColumns line).

(** The frame [parse_txt] leaves in the store, given the header values. *)
Definition txt_frame (hdr : string * string) (data_lines : list string)
  : DataFrame :=
  with_headers (omap txt_line_row data_lines)
    (VStr (fst hdr)) (VStr (snd hdr)).

(** What one [Zone] element adds to [data]. *)
Definition xml_elem_row (zone_elem : element) : option zone_row :=
  match xml_row zone_elem with
  | Ok r => Some r
  | Raise _ => None
  end.

(** The warning one [Zone] element causes, if any. *)
Definition xml_elem_warning (zone_elem : element) : option warning :=
  match xml_row zone_elem with
  | Ok _ => None
  | Raise e => Some (WarnXmlZone (ET.tag zone_elem) e)
  end.

Definition xml_incident (root : element) : pyval :=
  match ET.find root "Incident" with
  | Some i => ET.get i "name"
  | None => VStr "N/A"
  end.

Definition xml_timestamp (root : element) : pyval :=
  match ET.find root "Incident" with
  | Some i => ET.get i "timestamp"
  | None => VStr "N/A"
  end.

(** The frame [parse_xml] leaves in the store. *)
Definition xml_frame (root : element) : DataFrame :=
  with_headers (omap xml_elem_row (ET.findall_descendants root "Zone"))
    (xml_incident root) (xml_timestamp root).

(** ** Strings *)

(** [s[n:]] *)
Fixpoint string_drop (n : nat) (s : string) : string :=
  match n, s with
  | S k, String _ s' => string_drop k s'
  | _, _ => s
  end.

(** ** Well-formed lines and elements *)

(** A header line assigns the time stamp when it has the key
    "Timestamp:" and not the key "Incident:". *)
Definition sets_timestamp (l : string) : bool :=
  negb (PyStr.contains "Incident:" l) && PyStr.contains "Timestamp:" l.

(** Field [i] of a split line reads as a number: [float(parts[i].strip())]
    returns. *)
Definition reads_number (parts : list string) (i : nat) : bool :=
  match parts !! i with
  | Some p =>
      match PyFloat.of_string (PyStr.strip p) with
      | Some _ => true
      | None => false
      end
  | None => false
  end.

(** A data line is well formed when it splits into exactly six fields and
    the dose, radius, latitude and longitude fields read as numbers. *)
Definition txt_well_formed (line : string) : bool :=
  let parts := PyStr.split line ";" in
  (length parts =? 6)%nat
  && reads_number parts 1 && reads_number parts 3
  && reads_number parts 4 && reads_number parts 5.

(** The four numeric attributes of a [Zone] element all read as numbers. *)
Definition xml_numbers_read (z : element) : bool :=
  match py_float (ET.get z "dose_mSv"), py_float (ET.get z "radius_km"),
        py_float (ET.get z "latitude"), py_float (ET.get z "longitude") with
  | Ok _, Ok _, Ok _, Ok _ => true
  | _, _, _, _ => false
  end.

(** ** Numbers and their values *)

(** A dose is numeric when it is an integer or a float. *)
Definition numeric (v : pyval) : bool :=
  match v with
  | VInt _ | VFloat _ => true
  | VStr _ | VNone => false
  end.

(** [v < t] for a float [t], the strict comparison the ranges of the
    ladder are stated with. *)
Definition py_lt (v : pyval) (t : spec_float) : result bool :=
  match v with
  | VFloat f => Ok (SFltb f t)
  | VInt z =>
      Ok match Zcompare_float z t with
         | Some Lt => true
         | _ => false
         end
  | VStr _ | VNone => Raise TypeError
  end.

Definition actions : list string :=
  ["Evacuate"; "Shelter-in-Place"; "Monitor & Advise"; "No Immediate Action"].

(** The rational number a float stands for: plus or minus m * 2^e; the
    infinities and NaN stand for none. *)
Definition float_value (f : spec_float) : option Q :=
  match f with
  | S754_zero _ => Some 0%Q
  | S754_finite s m e => Some (inject_Z (cond_Zopp s (Zpos m)) * 2 ^ e)%Q
  | S754_infinity _ | S754_nan => None
  end.

Definition number_value (v : pyval) : option Q :=
  match v with
  | VInt z => Some (inject_Z z)
  | VFloat f => float_value f
  | VStr _ | VNone => None
  end.

(** A float is a binary64 value when its mantissa and exponent are in the
    canonical form of the format; every Python float is. *)
Definition valid_number (v : pyval) : bool :=
  match v with
  | VInt _ => true
  | VFloat f => valid_binary PyFloat.prec PyFloat.emax f
  | VStr _ | VNone => false
  end.

Definition is_finite (f : spec_float) : bool :=
  match f with
  | S754_zero _ | S754_finite _ _ _ => true
  | S754_infinity _ | S754_nan => false
  end.

(** The value of a binary64 float counted in units of 2^-1074, the
    smallest positive value of the format: an integer. *)
Definition scaled (f : spec_float) : Z :=
  match f with
  | S754_finite s m e => (cond_Zopp s (Zpos m) * 2 ^ (e + 1074))%Z
  | _ => 0%Z
  end.

Definition unit_value : Q := (2 ^ (-1074))%Q.

(** The thresholds with the rationals they stand for. *)
Definition thresholds : list (spec_float * Q) :=
  [(EVACUATE_THRESHOLD, 10%Q); (SHELTER_THRESHOLD, 5%Q);
   (MONITOR_THRESHOLD, 1%Q)].

(** ** Record sets *)

(** The frame has a dose column and every dose in it is a number. *)
Definition numeric_dose (d : DataFrame) : Prop :=
  exists dose,
    Frame.lookup_column "Dose (mSv)" (df_columns d) = Some dose
    /\ Forall (fun v => numeric v = true) dose.

(** A canonical record set with well-formed numeric doses: a well-formed
    frame that, unless it is empty, has a numeric dose column. *)
Definition canonical (d : DataFrame) : Prop :=
  Frame.wf d /\ (Frame.empty d = false -> numeric_dose d).

(** The frame after the engine has written its two columns. *)
Definition engine_frame (d : DataFrame) (acts : list pyval) : DataFrame :=
  Frame.setitem (Frame.setitem d "Recommended Action" acts)
    "Action Color" (List.map get_color acts).

(** All records of the frame carry the same value under [key]. *)
Definition uniform_column (d : DataFrame) (key : string) : Prop :=
  exists v, forall k, (k < df_len d)%nat -> Frame.cell d key k = Some v.

(** The record set is empty, or its records share one incident and one
    time stamp. *)
Definition one_incident (d : DataFrame) : Prop :=
  df_len d = 0%nat
  \/ (uniform_column d "Incident" /\ uniform_column d "Timestamp").

(** Record [k] of the frame holds the six values of the row [r]. *)
Definition carries (d : DataFrame) (k : nat) (r : zone_row) : Prop :=
  Frame.cell d "Zone" k = Some (zr_zone r)
  /\ Frame.cell d "Dose (mSv)" k = Some (VFloat (zr_dose r))
  /\ Frame.cell d "Radionuclide" k = Some (zr_radionuclide r)
  /\ Frame.cell d "Radius (km)" k = Some (VFloat (zr_radius r))
  /\ Frame.cell d "Latitude" k = Some (VFloat (zr_latitude r))
  /\ Frame.cell d "Longitude" k = Some (VFloat (zr_longitude r)).

(** The records of the frame are the rows [rows], in that order. *)
Definition rows_in_order (d : DataFrame) (rows : list zone_row) : Prop :=
  df_len d = length rows
  /\ forall k r, rows !! k = Some r -> carries d k r.

(** ** Sample inputs *)

(** The empty world: no objects, no warnings yet. *)
Definition world0 : world := mkWorld ∅ [].

(** The scenario input of the TXT format. *)
Definition scenario1_txt : string :=
  "Incident: Test1" ++ nl ++ "Timestamp: 2024-01-01 00:00:00" ++ nl
  ++ "Zone;Dose (mSv);Radionuclide;Radius (km);Latitude;Longitude" ++ nl
  ++ "Zone A;12.5;I-131;5.0;-33.586;18.402".

(** The float that the text "12.5" denotes: 7036874417766400 * 2^-49,
    that is 25/2. *)
Definition dose_12_5 : spec_float := S754_finite false 7036874417766400 (-49).

(** A store with one record set of one zone. *)
Definition one_zone_frame : DataFrame :=
  frame_of_rows
    [mkZoneRow (VStr "Zone A") dose_12_5
       (VStr "I-131") (S754_finite false 5629499534213120 (-50))
       (S754_finite true 4726809283902046 (-47))
       (S754_finite false 5179702521429492 (-48))].

Definition one_zone_world : world := mkWorld {[ 0%nat := one_zone_frame ]} [].

(** A [Zone] element without a [name]: the five other attributes are
    present and the four numbers are well formed. *)
Definition zone_without_name : element :=
  Element "Zone"
    (list_to_map
       [("dose_mSv", "12.5"); ("radionuclide", "I-131");
        ("radius_km", "5.0"); ("latitude", "-33.586");
        ("longitude", "18.402")])
    [].

(** A [Zone] element without a [dose_mSv]. *)
Definition zone_without_dose : element :=
  Element "Zone"
    (list_to_map
       [("name", "Zone B"); ("radionuclide", "Cs-137");
        ("radius_km", "2.0"); ("latitude", "-33.59");
        ("longitude", "18.41")])
    [].

Definition doc_zone_without_name : element :=
  Element "RascalData" ∅
    [Element "Incident"
       (list_to_map [("name", "Test1"); ("timestamp", "2024-01-01 00:00:00")])
       [];
     zone_without_name].

(** A document with one zone and no [Incident] element. *)
Definition doc_without_incident : element :=
  Element "RascalData" ∅
    [Element "Zone"
       (list_to_map
          [("name", "Zone A"); ("dose_mSv", "12.5");
           ("radionuclide", "I-131"); ("radius_km", "5.0");
           ("latitude", "-33.586"); ("longitude", "18.402")])
       []].

(** Two header lines with the key "Timestamp:", the second of which
    also has the key "Incident:", and one data line. *)
Definition txt_two_timestamps : string :=
  "Timestamp: T1" ++ nl ++ "Timestamp: T2 Incident: X" ++ nl
  ++ "Zone A;12.5;I-131;5.0;-33.586;18.402".

(** A CSV text with two zones that name different incidents. *)
Definition csv_two_incidents : string :=
  "Zone,Dose (mSv),Radionuclide,Radius (km),Latitude,Longitude,Incident,Timestamp"
  ++ nl
  ++ "Zone A,12.5,I-131,5.0,-33.586,18.402,Alpha,2024-01-01 00:00:00"
  ++ nl
  ++ "Zone B,3.0,Cs-137,2.0,-33.59,18.41,Beta,2024-02-02 00:00:00".

(** * The callers of the parsers and of the engine *)

(** ** More of the data-frame interface *)

(** [df.copy()]: a new object with the contents of [df]. *)
Definition df_copy (df : loc) : py loc :=
  let* d := load df in
  alloc d.

(** [df[keys]] for a list of labels, on a frame whose labels are
    pairwise distinct: the named columns in the order asked for.  A label
    that the frame does not have is a [KeyError]; the exception is given
    the first such label. *)
Fixpoint select_columns (keys : list string)
  (cols : list (string * list pyval)) : result (list (string * list pyval)) :=
  match keys with
  | [] => Ok []
  | k :: keys' =>
      match Frame.lookup_column k cols with
      | None => Raise (KeyError k)
      | Some c =>
          rbind (select_columns keys' cols) (fun r => Ok ((k, c) :: r))
      end
  end.

Definition df_select (d : DataFrame) (keys : list string)
  : result DataFrame :=
  rbind (select_columns keys (df_columns d))
    (fun cols => Ok (mkDataFrame (df_len d) cols)).

(** ** The map and the decision panel *)

(** [recommend_protective_actions(st.session_state['parsed_data'].copy())],
    the call of both panels. *)
Definition recommended_view (parsed_data : loc) : py loc :=
  let* c := df_copy parsed_data in
  recommend_protective_actions c.

(** ** The data table *)

Definition TABLE_COLUMNS : list string :=
  ["Zone"; "Dose (mSv)"; "Radionuclide"; "Radius (km)"; "Latitude";
   "Longitude"; "Incident"; "Timestamp"].

(** The frame handed to [st.dataframe]. *)
Definition table_view (parsed_data : loc) : py DataFrame :=
  let* d := load parsed_data in
  lift (df_select d TABLE_COLUMNS).

(** ** Vocabulary of the further properties *)

(** The rank of an action on the ladder; anything that is not one of the
    three protective actions ranks lowest. *)
Definition severity (a : pyval) : nat :=
  if py_eq_str a "Evacuate" then 3
  else if py_eq_str a "Shelter-in-Place" then 2
  else if py_eq_str a "Monitor & Advise" then 1
  else 0.

(** A frame without the column the engine reads. *)
Definition frame_without_dose : DataFrame :=
  mkDataFrame 1 [("Zone", [VStr "Zone A"])].

Definition world_without_dose : world :=
  mkWorld {[ 0%nat := frame_without_dose ]} [].

(** A text with a comment line between the header and the data, and the
    same text without it. *)
Definition txt_with_comment : string :=
  "Incident: Test1" ++ nl ++ "operator note" ++ nl
  ++ "Zone A;12.5;I-131;5.0;-33.586;18.402".

Definition txt_without_comment : string :=
  "Incident: Test1" ++ nl ++ "Zone A;12.5;I-131;5.0;-33.586;18.402".

(** A text whose only data line has a dose that is not a number. *)
Definition txt_no_record : string :=
  "Incident: Test1" ++ nl ++ "Zone A;high;I-131;5.0;-33.586;18.402".

(** A document with two [Incident] elements, the first without a time
    stamp. *)
Definition doc_two_incidents : element :=
  Element "RascalData" ∅
    [Element "Incident" (list_to_map [("name", "First")]) [];
     Element "Incident"
       (list_to_map [("name", "Second"); ("timestamp", "2024-01-01")]) []].

(** A CSV text whose column names are written with blanks around them. *)
Definition csv_padded_names : string :=
  " Zone , Dose (mSv) " ++ nl ++ "Zone A,12.5".

(** ** Line endings *)

(** A line as a file with Windows line endings has it: with a carriage
    return at its end. *)
Definition with_cr (line : string) : string :=
  line ++ String Csv.cr EmptyString.

(** Two lines that are the same up to such a carriage return. *)
Definition same_up_to_cr (l l' : string) : Prop :=
  l' = l \/ l' = with_cr l.

(** A text with Unix line endings and the same text with Windows ones. *)
Definition txt_unix : string :=
  "Incident: Test1" ++ nl ++ "Zone A;12.5;I-131;5.0;-33.586;18.402" ++ nl
  ++ "Zone B;3.0;Cs-137;2.0;-33.59;18.41".

Definition txt_windows : string :=
  with_cr "Incident: Test1" ++ nl
  ++ with_cr "Zone A;12.5;I-131;5.0;-33.586;18.402" ++ nl
  ++ "Zone B;3.0;Cs-137;2.0;-33.59;18.41".

(** ** [generate_random_rascal_data] *)

(** [str(n)] for an integer *)
Definition str_of_int (n : Z) : string :=
  DecimalString.NilZero.string_of_int (Z.to_int n).

(** One simulated zone: the dict with the eight keys, in the order in
    which the source writes them. *)
Record sim_row := mkSimRow {
  sr_zone : string;
  sr_dose : spec_float;
  sr_radionuclide : string;
  sr_radius : spec_float;
  sr_incident : string;
  sr_timestamp : string;
  sr_latitude : spec_float;
  sr_longitude : spec_float
}.

(** [pd.DataFrame(data)] for a list of such dicts. *)
Definition frame_of_sim_rows (data : list sim_row) : DataFrame :=
  match data with
  | [] => mkDataFrame 0 []
  | _ =>
      mkDataFrame (length data)
        [ ("Zone", List.map (fun r => VStr (sr_zone r)) data);
          ("Dose (mSv)", List.map (fun r => VFloat (sr_dose r)) data);
          ("Radionuclide", List.map (fun r => VStr (sr_radionuclide r)) data);
          ("Radius (km)", List.map (fun r => VFloat (sr_radius r)) data);
          ("Incident", List.map (fun r => VStr (sr_incident r)) data);
          ("Timestamp", List.map (fun r => VStr (sr_timestamp r)) data);
          ("Latitude", List.map (fun r => VFloat (sr_latitude r)) data);
          ("Longitude", List.map (fun r => VFloat (sr_longitude r)) data) ]
  end.

Definition radionuclides : list string :=
  ["I-131"; "Cs-137"; "Sr-90"; "Co-60"; "Pu-239"].

(** The float literals of the generator: 0.5, 25.0, 1.0, 20.0, 0.02 and
    the coordinates -33.586, 18.402. *)
Definition DOSE_LOW : spec_float := S754_finite false 4503599627370496 (-53).
Definition DOSE_HIGH : spec_float := S754_finite false 7036874417766400 (-48).
Definition RADIUS_LOW : spec_float := S754_finite false 4503599627370496 (-52).
Definition RADIUS_HIGH : spec_float :=
  S754_finite false 5629499534213120 (-48).
Definition OFFSET : spec_float := S754_finite false 5764607523034235 (-58).
Definition base_lat : spec_float := S754_finite true 4726809283902046 (-47).
Definition base_lon : spec_float := S754_finite false 5179702521429492 (-48).

(** [f"Zone {chr(65 + i)}"], for the code points below 256. *)
Definition zone_name (i : nat) : string :=
  ("Zone " ++ String (ascii_of_nat (65 + i)) EmptyString)%string.

(** The random source, the clock and [round] are taken as given.  A draw
    takes the state of the source and returns the value drawn with the
    next state; [minutes_ago k] is the formatted time [k] minutes before
    the call. *)
Section Generator.

Variable rng : Type.
Variable randint : Z -> Z -> rng -> Z * rng.
Variable uniform : spec_float -> spec_float -> rng -> spec_float * rng.
Variable choice : list string -> rng -> string * rng.
Variable py_round : spec_float -> Z -> spec_float.
Variable minutes_ago : Z -> string.

(** The loop [for i in range(num_zones)], from [i] on, [n] rounds. *)
Fixpoint generate_zones (incident_name timestamp : string) (i n : nat)
  (g : rng) : list sim_row * rng :=
  match n with
  | O => ([], g)
  | S n' =>
      let zone := zone_name i in
      let (dose, g1) := uniform DOSE_LOW DOSE_HIGH g in
      let dose_mSv := py_round dose 2 in
      let (radionuclide, g2) := choice radionuclides g1 in
      let (radius, g3) := uniform RADIUS_LOW RADIUS_HIGH g2 in
      let radius_km := py_round radius 1 in
      let (lat_offset, g4) := uniform (SFopp OFFSET) OFFSET g3 in
      let (lon_offset, g5) := uniform (SFopp OFFSET) OFFSET g4 in
      let latitude :=
        py_round (SFadd PyFloat.prec PyFloat.emax base_lat lat_offset) 4 in
      let longitude :=
        py_round (SFadd PyFloat.prec PyFloat.emax base_lon lon_offset) 4 in
      let (rest, g') := generate_zones incident_name timestamp (S i) n' g5 in
      (mkSimRow zone dose_mSv radionuclide radius_km incident_name
         timestamp latitude longitude :: rest, g')
  end.

Definition generate_random_rascal_data (num_zones : nat) (g : rng)
  : py loc * rng :=
  let (k, g1) := randint 100 999 g in
  let incident_name := ("Random Incident " ++ str_of_int k)%string in
  let (m, g2) := randint 1 60 g1 in
  let timestamp := minutes_ago m in
  let (data, g3) := generate_zones incident_name timestamp 0 num_zones g2 in
  (alloc (frame_of_sim_rows data), g3).

End Generator.

(** The number of zones when the caller gives none. *)
Definition default_num_zones : nat := 3.

(** Record [k] of the frame holds the eight values of the simulated
    zone [r]. *)
Definition carries_sim (d : DataFrame) (k : nat) (r : sim_row) : Prop :=
  Frame.cell d "Zone" k = Some (VStr (sr_zone r))
  /\ Frame.cell d "Dose (mSv)" k = Some (VFloat (sr_dose r))
  /\ Frame.cell d "Radionuclide" k = Some (VStr (sr_radionuclide r))
  /\ Frame.cell d "Radius (km)" k = Some (VFloat (sr_radius r))
  /\ Frame.cell d "Incident" k = Some (VStr (sr_incident r))
  /\ Frame.cell d "Timestamp" k = Some (VStr (sr_timestamp r))
  /\ Frame.cell d "Latitude" k = Some (VFloat (sr_latitude r))
  /\ Frame.cell d "Longitude" k = Some (VFloat (sr_longitude r)).

(** A random source that always draws the lower bound and the first
    choice, with a clock that stands still. *)
Definition low_randint (a b : Z) (g : unit) : Z * unit := (a, g).
Definition low_uniform (a b : spec_float) (g : unit) : spec_float * unit :=
  (a, g).
Definition first_choice (l : list string) (g : unit) : string * unit :=
  (List.hd EmptyString l, g).
Definition no_round (x : spec_float) (ndigits : Z) : spec_float := x.
Definition fixed_clock (k : Z) : string := "2024-01-01 00:00:00".

(** ** The upload panel *)

(** [s.endswith(suffix)] *)
Definition endswith (s suffix : string) : bool :=
  (String.length suffix <=? String.length s)%nat
  && String.eqb
       (string_drop (String.length s - String.length suffix) s) suffix.

(** [try: m except Exception as e: handler(e)]; what [m] did to the store
    before it raised stays done. *)
Definition try_except {A} (m : py A) (handler : exn -> py A) : py A :=
  fun w =>
    match m w with
    | (Ok a, w') => (Ok a, w')
    | (Raise e, w') => handler e w'
    end.

(** Messages handed to [st.error] by the upload panel. *)
Inductive error_message :=
  | ErrUnsupportedFileType
  | ErrProcessingFile (e : exn).

(** What the panel leaves behind: the object that
    [st.session_state['parsed_data']] names afterwards, the errors shown
    and whether [st.rerun()] was called. *)
Record upload_outcome := mkUploadOutcome {
  uo_parsed_data : loc;
  uo_errors : list error_message;
  uo_rerun : bool
}.

Section Upload.

Variable fromstring : string -> result element.
Variable read_csv : string -> result DataFrame.

(** [DataFrame.equals] is taken as given, as the two decoders are. *)
Variable equals : DataFrame -> DataFrame -> bool.

(** The choice of the parser by the file name; [current_parsed_data] is
    the frame the local variable names before the choice. *)
Definition upload_dispatch (name file_content : string)
  (current_parsed_data : loc) : py (loc * list error_message) :=
  if endswith name ".txt" then
    let* df := parse_txt file_content in ret (df, [])
  else if endswith name ".csv" then
    let* df := parse_csv read_csv file_content in ret (df, [])
  else if endswith name ".xml" then
    let* df := parse_xml fromstring file_content in ret (df, [])
  else ret (current_parsed_data, [ErrUnsupportedFileType]).

(** The branch of the panel for an uploaded file from the statement
    after the decoding on (from [current_parsed_data = pd.DataFrame()] to
    the end of the [except] clause), for a file with the given name whose
    bytes have been decoded to [file_content]; [parsed_data] is the object
    the session names. *)
Definition process_upload (name file_content : string) (parsed_data : loc)
  : py upload_outcome :=
  let* current0 := alloc (mkDataFrame 0 []) in
  try_except
    (let* ce := upload_dispatch name file_content current0 in
     let* current := load (fst ce) in
     if negb (Frame.empty current) then
       let* stored := load parsed_data in
       if negb (equals current stored)
       then ret (mkUploadOutcome (fst ce) (snd ce) true)
       else ret (mkUploadOutcome parsed_data (snd ce) false)
     else ret (mkUploadOutcome parsed_data (snd ce) false))
    (fun e =>
       let* cleared := alloc (mkDataFrame 0 []) in
       ret (mkUploadOutcome cleared [ErrProcessingFile e] true)).

(** [bytes.decode("utf-8")] is taken as given; [None] stands for the
    [UnicodeDecodeError] it raises on bytes that are not valid UTF-8. *)
Variable decode_utf8 : list Byte.byte -> option string.

(** The whole branch of the panel for an uploaded file with the given
    name and bytes.  The decoding comes before the [try]: its
    [UnicodeDecodeError], which is a [ValueError], is not caught. *)
Definition upload_panel (name : string) (raw : list Byte.byte)
  (parsed_data : loc) : py upload_outcome :=
  match decode_utf8 raw with
  | Some file_content => process_upload name file_content parsed_data
  | None => raise ValueError
  end.

End Upload.

(** A decoder for texts of ASCII characters: a byte from 128 on is
    refused. *)
Fixpoint decode_ascii (raw : list Byte.byte) : option string :=
  match raw with
  | [] => Some EmptyString
  | b :: raw' =>
      if (Byte.to_N b <? 128)%N
      then option_map (String (ascii_of_byte b)) (decode_ascii raw')
      else None
  end.

(** A decoder that rejects every document. *)
Definition failing_fromstring (text : string) : result element :=
  Raise ParseError.

(** Frames compared value by value, a NaN being equal to a NaN in the
    same place: a reading of [DataFrame.equals] for frames whose columns
    hold values of one kind. *)
Definition is_nan (f : spec_float) : bool :=
  match f with
  | S754_nan => true
  | _ => false
  end.

Definition pyval_eqb (a b : pyval) : bool :=
  match a, b with
  | VNone, VNone => true
  | VStr s, VStr t => String.eqb s t
  | VInt x, VInt y => (x =? y)%Z
  | VFloat x, VFloat y => SFeqb x y || (is_nan x && is_nan y)
  | _, _ => false
  end.

Fixpoint column_eqb (c1 c2 : list pyval) : bool :=
  match c1, c2 with
  | [], [] => true
  | a :: c1', b :: c2' => pyval_eqb a b && column_eqb c1' c2'
  | _, _ => false
  end.

Fixpoint columns_eqb (cs1 cs2 : list (string * list pyval)) : bool :=
  match cs1, cs2 with
  | [], [] => true
  | (k1, c1) :: cs1', (k2, c2) :: cs2' =>
      String.eqb k1 k2 && column_eqb c1 c2 && columns_eqb cs1' cs2'
  | _, _ => false
  end.

Definition frame_eqb (d1 d2 : DataFrame) : bool :=
  (df_len d1 =? df_len d2)%nat && columns_eqb (df_columns d1) (df_columns d2).

(** A session that holds no data yet: the object of [pd.DataFrame()]. *)
Definition empty_session_world : world :=
  mkWorld {[ 0%nat := mkDataFrame 0 [] ]} [].

(** ** The session across the runs of the script *)





Section Page.

Variable fromstring : string -> result element.
Variable read_csv : string -> result DataFrame.
Variable equals : DataFrame -> DataFrame -> bool.
Variable decode_utf8 : list Byte.byte -> option string.
Variable rng : Type.
Variable randint : Z -> Z -> rng -> Z * rng.
Variable uniform : spec_float -> spec_float -> rng -> spec_float * rng.
Variable choice : list string -> rng -> string * rng.
Variable py_round : spec_float -> Z -> spec_float.
Variable minutes_ago : Z -> string.



End Page.



(** ** Elements below an element *)

(** [x] is below [e] in the tree: a child of [e], or below a child. *)
Inductive descendant : element -> element -> Prop :=
  | descendant_child (e c : element) :
      In c (ET.children e) -> descendant c e
  | descendant_deeper (e c x : element) :
      In c (ET.children e) -> descendant x c -> descendant x e.

(** A document whose zone lies two levels below the root, inside a
    [Zones] element. *)
Definition doc_nested_zone : element :=
  Element "RascalData" ∅
    [Element "Zones" ∅
       [Element "Zone"
          (list_to_map
             [("name", "Zone A"); ("dose_mSv", "12.5");
              ("radionuclide", "I-131"); ("radius_km", "5.0");
              ("latitude", "-33.586"); ("longitude", "18.402")])
          []]].

(** * Properties *)

(** ** Strings *)

Lemma prefix_nonempty_nil (sep : string) :
  sep <> EmptyString -> String.prefix sep EmptyString = false.
Proof. destruct sep; [congruence | reflexivity]. Qed.

(** A string that contains the separator splits into at least two
    pieces, so that piece number 1 exists. *)
Lemma split_from_contains (sep : string) :
  sep <> EmptyString ->
  forall s, PyStr.contains sep s = true ->
  snd (PyStr.split_from sep 0 s) <> [].
Proof.
  intros Hsep s; induction s as [|c s IH]; intros Hc.
  - cbn [PyStr.contains] in Hc.
    rewrite (prefix_nonempty_nil _ Hsep) in Hc. discriminate.
  - cbn [PyStr.contains] in Hc. cbn [PyStr.split_from].
    destruct (String.prefix sep (String c s)) eqn:Hp.
    + cbn [snd]. clear IH.
      destruct (PyStr.split_from sep (String.length sep - 1) s). discriminate.
    + cbn [orb] in Hc. specialize (IH Hc).
      destruct (PyStr.split_from sep 0 s) as [p ps]. exact IH.
Qed.

Lemma split_contains_second (sep s : string) :
  sep <> EmptyString -> PyStr.contains sep s = true ->
  exists v, PyStr.split s sep !! 1%nat = Some v.
Proof.
  intros Hsep Hc. pose proof (split_from_contains sep Hsep s Hc) as H.
  unfold PyStr.split. destruct (PyStr.split_from sep 0 s) as [p ps].
  cbn [snd] in H. destruct ps as [|q ps]; [congruence|].
  exists q. reflexivity.
Qed.

Lemma list_getitem_split (sep s : string) :
  sep <> EmptyString -> PyStr.contains sep s = true ->
  exists v, PyStr.split s sep !! 1%nat = Some v
            /\ list_getitem (PyStr.split s sep) 1 = Ok v.
Proof.
  intros Hsep Hc. destruct (split_contains_second sep s Hsep Hc) as [v Hv].
  exists v. split; [exact Hv|]. unfold list_getitem. rewrite Hv. reflexivity.
Qed.

Local Open Scope string_scope.

Lemma append_cons (c : ascii) (s t : string) :
  String c s ++ t = String c (s ++ t).
Proof. reflexivity. Qed.

Lemma append_nil (t : string) : "" ++ t = t.
Proof. reflexivity. Qed.

Lemma prefix_split (p s : string) :
  String.prefix p s = true -> s = p ++ string_drop (String.length p) s.
Proof.
  revert s. induction p as [|a p IH]; intros s.
  - intros _. destruct s; reflexivity.
  - destruct s as [|b s]; cbn; [discriminate|].
    destruct (Ascii.ascii_dec a b) as [->|]; [|discriminate].
    intros H. rewrite append_cons. cbn. f_equal. apply IH. exact H.
Qed.

Lemma prefix_app (p t : string) : String.prefix p (p ++ t) = true.
Proof.
  induction p as [|a p IH]; [destruct t; reflexivity|].
  rewrite append_cons. cbn.
  destruct (Ascii.ascii_dec a a); [exact IH | contradiction].
Qed.

Lemma concat_cons_char (sep : string) (c : ascii) (p : string)
    (ps : list string) :
  String.concat sep (String c p :: ps) = String c (String.concat sep (p :: ps)).
Proof. destruct ps; reflexivity. Qed.

(** Joining the pieces with the separator gives the string back. *)
Lemma split_from_join (sep : string) :
  sep <> EmptyString ->
  forall s skip,
    String.concat sep
      (fst (PyStr.split_from sep skip s) :: snd (PyStr.split_from sep skip s))
    = string_drop skip s.
Proof.
  intros Hsep s. induction s as [|c s IH]; intros skip.
  - destruct skip; reflexivity.
  - cbn [PyStr.split_from]. destruct skip as [|k].
    + destruct (String.prefix sep (String c s)) eqn:Hp.
      * cbn [fst snd string_drop].
        specialize (IH (String.length sep - 1)).
        destruct (PyStr.split_from sep (String.length sep - 1) s) as [p ps].
        cbn [fst snd] in IH.
        change (String.concat sep ("" :: p :: ps))
          with ("" ++ sep ++ String.concat sep (p :: ps)).
        rewrite IH, append_nil.
        pose proof (prefix_split _ _ Hp) as E.
        destruct sep as [|a sep']; [congruence|].
        cbn [String.length string_drop] in *.
        replace (S (String.length sep') - 1) with (String.length sep')
          by lia.
        symmetry. exact E.
      * specialize (IH 0). destruct (PyStr.split_from sep 0 s) as [p ps].
        cbn [fst snd] in *. rewrite concat_cons_char, IH.
        destruct s; reflexivity.
    + cbn [string_drop]. apply IH.
Qed.

Lemma split_join (s sep : string) :
  sep <> EmptyString -> String.concat sep (PyStr.split s sep) = s.
Proof.
  intros Hsep. unfold PyStr.split.
  pose proof (split_from_join sep Hsep s 0) as H.
  destruct (PyStr.split_from sep 0 s) as [p ps]. cbn [fst snd] in H.
  rewrite H. destruct s; reflexivity.
Qed.

(** [sub in s] holds exactly when [s] is some text, then [sub], then some
    text. *)
Lemma contains_spec (sub s : string) :
  PyStr.contains sub s = true <-> exists a b, s = a ++ sub ++ b.
Proof.
  split.
  - induction s as [|c s IH]; cbn [PyStr.contains].
    + rewrite orb_false_r. intros H.
      exists "", (string_drop (String.length sub) "").
      exact (prefix_split _ _ H).
    + intros H. apply orb_true_iff in H as [H|H].
      * exists "", (string_drop (String.length sub) (String c s)).
        exact (prefix_split _ _ H).
      * destruct (IH H) as (a & b & ->). exists (String c a), b. reflexivity.
  - intros (a & b & ->). induction a as [|c a IH].
    + rewrite append_nil.
      destruct (sub ++ b) eqn:E; cbn [PyStr.contains];
        rewrite <- E, prefix_app; reflexivity.
    + rewrite append_cons. cbn [PyStr.contains]. rewrite IH.
      apply orb_true_r.
Qed.

Local Open Scope list_scope.

(** ** The header scan of [parse_txt] *)

Lemma header_step_ok (st : string * string) (h_line : string) :
  exists st', header_step st h_line = Ok st'.
Proof.
  destruct st as [i t]. unfold header_step.
  destruct (PyStr.contains "Incident:" h_line) eqn:Hi.
  - destruct (list_getitem_split "Incident:" h_line) as (v & _ & Hv);
      [discriminate | exact Hi |].
    rewrite Hv. cbn. eauto.
  - destruct (PyStr.contains "Timestamp:" h_line) eqn:Ht.
    + destruct (list_getitem_split "Timestamp:" h_line) as (v & _ & Hv);
        [discriminate | exact Ht |].
      rewrite Hv. cbn. eauto.
    + eauto.
Qed.

Lemma scan_headers_ok (ls : list string) :
  forall st, exists st', scan_headers st ls = Ok st'.
Proof.
  induction ls as [|l ls IH]; intros st; cbn [scan_headers].
  - eauto.
  - destruct (header_step_ok st l) as [st1 H1]. rewrite H1. cbn. apply IH.
Qed.

Lemma scan_headers_app (ls1 ls2 : list string) :
  forall st st1,
    scan_headers st ls1 = Ok st1 ->
    scan_headers st (ls1 ++ ls2) = scan_headers st1 ls2.
Proof.
  induction ls1 as [|l ls1 IH]; intros st st1 H; cbn [scan_headers app] in *.
  - congruence.
  - destruct (header_step st l) as [st'|e]; cbn in *; [|discriminate].
    eapply IH; eauto.
Qed.

(** Lines without the key leave the incident name as it is. *)
Lemma scan_headers_keep_incident (ls : list string) :
  Forall (fun l => PyStr.contains "Incident:" l = false) ls ->
  forall i t i' t',
    scan_headers (i, t) ls = Ok (i', t') -> i' = i.
Proof.
  induction 1 as [|l ls Hl _ IH]; intros i t i' t' H; cbn [scan_headers] in H.
  - congruence.
  - unfold header_step in H. rewrite Hl in H.
    destruct (PyStr.contains "Timestamp:" l).
    + destruct (list_getitem _ _) as [v|e]; cbn in H; [|discriminate].
      eapply IH; eauto.
    + cbn in H. eapply IH; eauto.
Qed.

Lemma scan_headers_keep_timestamp (ls : list string) :
  Forall (fun l => sets_timestamp l = false) ls ->
  forall i t i' t',
    scan_headers (i, t) ls = Ok (i', t') -> t' = t.
Proof.
  induction 1 as [|l ls Hl _ IH]; intros i t i' t' H; cbn [scan_headers] in H.
  - congruence.
  - unfold header_step in H. unfold sets_timestamp in Hl.
    destruct (PyStr.contains "Incident:" l).
    + destruct (list_getitem _ _) as [v|e]; cbn in H; [|discriminate].
      eapply IH; eauto.
    + cbn in Hl. rewrite Hl in H. cbn in H. eapply IH; eauto.
Qed.

(** ** The store *)

Lemma world_eta (w : world) : mkWorld (heap w) (warnings w) = w.
Proof. destruct w; reflexivity. Qed.

Lemma bind_ok {A B} (m : py A) (k : A -> py B) (w w' : world) (a : A) :
  m w = (Ok a, w') -> bind m k w = k a w'.
Proof. intros H. unfold bind. rewrite H. reflexivity. Qed.

Lemma bind_raise {A B} (m : py A) (k : A -> py B) (w w' : world) (e : exn) :
  m w = (Raise e, w') -> bind m k w = (Raise e, w').
Proof. intros H. unfold bind. rewrite H. reflexivity. Qed.

Lemma modify_ok (l : loc) (f : DataFrame -> DataFrame) (w : world)
    (d : DataFrame) :
  heap w !! l = Some d ->
  modify l f w = (Ok tt, mkWorld (<[l := f d]> (heap w)) (warnings w)).
Proof. intros H. unfold modify. rewrite H. reflexivity. Qed.

Lemma load_ok (l : loc) (w : world) (d : DataFrame) :
  heap w !! l = Some d -> load l w = (Ok d, w).
Proof. intros H. unfold load. rewrite H. reflexivity. Qed.

(** A new object does not alias any object of the store. *)
Lemma alloc_fresh (w : world) :
  heap w !! fresh (dom (heap w)) = None.
Proof. apply not_elem_of_dom. apply is_fresh. Qed.

(** Allocation followed by two in-place updates. *)
Lemma alloc_modify2 (d : DataFrame) (f g : DataFrame -> DataFrame)
    (w : world) :
  (let* df := alloc d in
   do modify df f then do modify df g then ret df) w
  = (Ok (fresh (dom (heap w))),
     mkWorld (<[fresh (dom (heap w)) := g (f d)]> (heap w)) (warnings w)).
Proof.
  unfold bind at 1. unfold alloc. set (l := fresh (dom (heap w))).
  erewrite bind_ok; [|apply modify_ok; cbn; apply lookup_insert_eq].
  erewrite bind_ok; [|apply modify_ok; cbn; apply lookup_insert_eq].
  cbn. unfold ret. rewrite !insert_insert_eq. reflexivity.
Qed.

(** ** The data loop of [parse_txt] *)

Arguments PyFloat.of_string : simpl never.
Arguments PyStr.strip : simpl never.
Arguments PyStr.split : simpl never.

Lemma py_float_str_raises (s : string) (e : exn) :
  py_float (VStr s) = Raise e -> e = ValueError.
Proof.
  cbn. destruct (PyFloat.of_string s); intros H; congruence.
Qed.

(** With six fields in hand, building the row can only fail on a number. *)
Lemma txt_row_raises (parts : list string) (e : exn) :
  length parts = 6%nat -> txt_row parts = Raise e -> e = ValueError.
Proof.
  intros Hlen.
  do 6 (destruct parts as [|? parts]; [discriminate Hlen|]).
  destruct parts; [|discriminate Hlen]. clear Hlen.
  unfold txt_row, list_getitem. cbn [lookup list_lookup rbind].
  repeat match goal with
  | |- context [py_float (VStr ?x)] =>
      let H := fresh "H" in
      destruct (py_float (VStr x)) eqn:H; cbn [rbind];
      [| apply py_float_str_raises in H; congruence]
  end.
  discriminate.
Qed.

Lemma txt_data_step_run (data : list zone_row) (line : string) (w : world) :
  txt_data_step data line w
  = (Ok (data ++ option_list (txt_line_row line)),
     mkWorld (heap w) (warnings w ++ option_list (txt_line_warning line))).
Proof.
  unfold txt_data_step, txt_line_row, txt_line_warning.
  destruct (length (PyStr.split line ";") =? 6)%nat eqn:Hlen.
  - apply Nat.eqb_eq in Hlen.
    destruct (txt_row (PyStr.split line ";")) as [r|e] eqn:Hr.
    + cbn. unfold ret. rewrite app_nil_r, world_eta. reflexivity.
    + rewrite (txt_row_raises _ _ Hlen Hr). cbn. rewrite app_nil_r.
      reflexivity.
  - cbn. rewrite app_nil_r. reflexivity.
Qed.

Lemma txt_data_loop_run (ls : list string) :
  forall data w,
    for_each ls txt_data_step data w
    = (Ok (data ++ omap txt_line_row ls),
       mkWorld (heap w) (warnings w ++ omap txt_line_warning ls)).
Proof.
  induction ls as [|l ls IH]; intros data w; cbn [for_each].
  - cbn. unfold ret. rewrite !app_nil_r, world_eta. reflexivity.
  - erewrite bind_ok; [|apply txt_data_step_run].
    rewrite IH. cbn [heap warnings omap list_omap].
    destruct (txt_line_row l), (txt_line_warning l); cbn [option_list];
      rewrite <- ?app_assoc, ?app_nil_r; reflexivity.
Qed.

(** [parse_txt] always returns: it allocates one new frame and emits one
    warning per rejected data line. *)
Lemma parse_txt_run (file_content : string) (w : world) :
  exists hdr,
    scan_headers ("", "")
      (List.filter is_header_line (txt_lines file_content)) = Ok hdr
    /\ parse_txt file_content w
       = (Ok (fresh (dom (heap w))),
          mkWorld
            (<[fresh (dom (heap w)) :=
                 txt_frame hdr
                   (List.filter is_data_line (txt_lines file_content))]>
               (heap w))
            (warnings w
             ++ omap txt_line_warning
                  (List.filter is_data_line (txt_lines file_content)))).
Proof.
  destruct (scan_headers_ok
              (List.filter is_header_line (txt_lines file_content)) ("", ""))
    as [hdr Hhdr].
  exists hdr. split; [exact Hhdr|].
  unfold parse_txt. rewrite Hhdr.
  set (dl := List.filter is_data_line (txt_lines file_content)).
  unfold bind at 1. unfold lift.
  erewrite bind_ok.
  2:{ instantiate
        (1 := mkWorld (heap w) (warnings w ++ omap txt_line_warning dl)).
      instantiate (1 := omap txt_line_row dl).
      destruct dl as [|l dl'] eqn:Hdl.
      - cbn. unfold ret. rewrite app_nil_r, world_eta. reflexivity.
      - rewrite txt_data_loop_run. reflexivity. }
  rewrite alloc_modify2. reflexivity.
Qed.

(** ** Data lines: one record or one warning *)

Lemma txt_row_well_formed (parts : list string) :
  length parts = 6%nat ->
  match txt_row parts with
  | Ok _ =>
      reads_number parts 1 && reads_number parts 3
      && reads_number parts 4 && reads_number parts 5 = true
  | Raise _ =>
      reads_number parts 1 && reads_number parts 3
      && reads_number parts 4 && reads_number parts 5 = false
  end.
Proof.
  intros Hlen.
  do 6 (destruct parts as [|? parts]; [discriminate Hlen|]).
  destruct parts; [|discriminate Hlen]. clear Hlen.
  unfold txt_row, list_getitem, reads_number, py_float.
  cbn [lookup list_lookup rbind].
  repeat match goal with
  | |- context [PyFloat.of_string ?x] =>
      destruct (PyFloat.of_string x); cbn [rbind andb]; try reflexivity
  end.
Qed.

Lemma txt_line_well_formed (line : string) :
  txt_well_formed line = true ->
  (exists r, txt_line_row line = Some r) /\ txt_line_warning line = None.
Proof.
  unfold txt_well_formed, txt_line_row, txt_line_warning.
  destruct (length (PyStr.split line ";") =? 6)%nat eqn:Hlen;
    [|discriminate].
  apply Nat.eqb_eq in Hlen.
  pose proof (txt_row_well_formed _ Hlen) as H.
  rewrite <- !andb_assoc. cbn [andb]. rewrite !andb_assoc. intros Hwf.
  destruct (txt_row (PyStr.split line ";")) as [r|e]; [eauto | congruence].
Qed.

Lemma txt_line_ill_formed (line : string) :
  txt_well_formed line = false ->
  txt_line_row line = None /\ exists m, txt_line_warning line = Some m.
Proof.
  unfold txt_well_formed, txt_line_row, txt_line_warning.
  destruct (length (PyStr.split line ";") =? 6)%nat eqn:Hlen;
    [|eauto].
  apply Nat.eqb_eq in Hlen.
  pose proof (txt_row_well_formed _ Hlen) as H.
  rewrite <- !andb_assoc. cbn [andb]. rewrite !andb_assoc. intros Hwf.
  destruct (txt_row (PyStr.split line ";")) as [r|e]; [congruence | eauto].
Qed.

(** The record of a well-formed data line holds its six fields, the text
    fields trimmed and the numeric fields read by [float]. *)
Lemma txt_line_row_fields (line : string) (r : zone_row) :
  txt_line_row line = Some r ->
  exists p0 p1 p2 p3 p4 p5,
    PyStr.split line ";" = [p0; p1; p2; p3; p4; p5]
    /\ zr_zone r = VStr (PyStr.strip p0)
    /\ PyFloat.of_string (PyStr.strip p1) = Some (zr_dose r)
    /\ zr_radionuclide r = VStr (PyStr.strip p2)
    /\ PyFloat.of_string (PyStr.strip p3) = Some (zr_radius r)
    /\ PyFloat.of_string (PyStr.strip p4) = Some (zr_latitude r)
    /\ PyFloat.of_string (PyStr.strip p5) = Some (zr_longitude r).
Proof.
  unfold txt_line_row.
  destruct (length (PyStr.split line ";") =? 6)%nat eqn:Hlen;
    [|discriminate].
  apply Nat.eqb_eq in Hlen.
  destruct (PyStr.split line ";") as [|p0 [|p1 [|p2 [|p3 [|p4 [|p5 [|]]]]]]];
    try discriminate Hlen.
  unfold txt_row, list_getitem, py_float. cbn [lookup list_lookup rbind].
  destruct (PyFloat.of_string (PyStr.strip p1)) eqn:E1; [|discriminate].
  destruct (PyFloat.of_string (PyStr.strip p3)) eqn:E3; [|discriminate].
  destruct (PyFloat.of_string (PyStr.strip p4)) eqn:E4; [|discriminate].
  destruct (PyFloat.of_string (PyStr.strip p5)) eqn:E5; [|discriminate].
  cbn [rbind]. intros [= <-]. exists p0, p1, p2, p3, p4, p5.
  repeat split; assumption.
Qed.

Lemma txt_rows_count (ls : list string) :
  length (omap txt_line_row ls) = length (List.filter txt_well_formed ls).
Proof.
  induction ls as [|l ls IH]; [reflexivity|].
  cbn [omap list_omap List.filter].
  destruct (txt_well_formed l) eqn:Hwf.
  - destruct (txt_line_well_formed l Hwf) as [[r Hr] _]. rewrite Hr.
    cbn. congruence.
  - destruct (txt_line_ill_formed l Hwf) as [Hr _]. rewrite Hr. exact IH.
Qed.

Lemma txt_warnings_count (ls : list string) :
  length (omap txt_line_warning ls)
  = length (List.filter (fun l => negb (txt_well_formed l)) ls).
Proof.
  induction ls as [|l ls IH]; [reflexivity|].
  cbn [omap list_omap List.filter].
  destruct (txt_well_formed l) eqn:Hwf; cbn [negb].
  - destruct (txt_line_well_formed l Hwf) as [_ Hm]. rewrite Hm. exact IH.
  - destruct (txt_line_ill_formed l Hwf) as [_ [m Hm]]. rewrite Hm.
    cbn. congruence.
Qed.

Lemma frame_of_rows_len (data : list zone_row) :
  df_len (frame_of_rows data) = length data.
Proof. destruct data; reflexivity. Qed.

Lemma txt_frame_len (hdr : string * string) (ls : list string) :
  df_len (txt_frame hdr ls) = length (omap txt_line_row ls).
Proof. unfold txt_frame. cbn. apply frame_of_rows_len. Qed.

(** C4. In the data loop of the TXT parser, a data line (one that has a
    semicolon and does not start with "Zone;") that splits on ";" into
    exactly six fields whose four numeric fields read as numbers appends
    exactly one record and reports nothing; any other data line appends no
    record and reports exactly one warning.  Accordingly, wherever the
    line stands in a file, the parser returns, and the line accounts for
    exactly one record of the frame and no warning in the first case, for
    no record and exactly one warning in the second. *)
Theorem txt_line_one_record_or_one_warning (line : string) :
  is_data_line line = true ->
  (forall data w,
     if txt_well_formed line
     then exists r,
            txt_data_step data line w = (Ok (data ++ [r]), w)
     else exists m,
            txt_data_step data line w
            = (Ok data, mkWorld (heap w) (warnings w ++ [m])))
  /\ (forall file_content before after w,
        txt_lines file_content = before ++ line :: after ->
        let records ls :=
          length (List.filter txt_well_formed (List.filter is_data_line ls)) in
        let rejects ls :=
          length (List.filter (fun l => negb (txt_well_formed l))
                    (List.filter is_data_line ls)) in
        exists df d ws,
          parse_txt file_content w
          = (Ok df, mkWorld (<[df := d]> (heap w)) (warnings w ++ ws))
          /\ df_len d
             = (records before + (if txt_well_formed line then 1 else 0)
                + records after)%nat
          /\ length ws
             = (rejects before + (if txt_well_formed line then 0 else 1)
                + rejects after)%nat).
Proof.
  intros Hdata. split.
  - intros data w. rewrite txt_data_step_run.
    destruct (txt_well_formed line) eqn:Hwf.
    + destruct (txt_line_well_formed line Hwf) as [[r Hr] Hm].
      exists r. rewrite Hr, Hm. cbn. rewrite app_nil_r, world_eta.
      reflexivity.
    + destruct (txt_line_ill_formed line Hwf) as [Hr [m Hm]].
      exists m. rewrite Hr, Hm. cbn. rewrite app_nil_r. reflexivity.
  - intros file_content before after w Hlines records rejects.
    destruct (parse_txt_run file_content w) as (hdr & _ & Hrun).
    rewrite Hlines in Hrun.
    eexists _, _, _. split; [exact Hrun|].
    rewrite txt_frame_len, txt_rows_count, txt_warnings_count.
    rewrite List.filter_app. cbn [List.filter]. rewrite Hdata.
    rewrite !List.filter_app. cbn [List.filter].
    unfold records, rejects.
    destruct (txt_well_formed line); cbn [negb];
      rewrite !length_app; cbn [length]; lia.
Qed.

(** ** The zone loop of [parse_xml] *)

(** [float] on an attribute value, a string or [None], can only fail
    with one of the two exceptions that the zone loop handles. *)
Lemma py_float_get_raises (z : element) (key : string) (e : exn) :
  py_float (ET.get z key) = Raise e -> e = TypeError \/ e = ValueError.
Proof.
  destruct z as [t a cs]. cbn [ET.get]. destruct (a !! key) as [s|]; cbn.
  - destruct (PyFloat.of_string s); intros [= <-]. right; reflexivity.
  - intros [= <-]. left; reflexivity.
Qed.

Lemma xml_row_raises (zone_elem : element) (e : exn) :
  xml_row zone_elem = Raise e -> e = TypeError \/ e = ValueError.
Proof.
  unfold xml_row.
  repeat match goal with
  | |- context [py_float ?v] =>
      let H := fresh "H" in
      destruct (py_float v) eqn:H; cbn [rbind];
      [| intros [= <-]; exact (py_float_get_raises _ _ _ H)]
  end.
  discriminate.
Qed.

Lemma xml_zone_step_run (data : list zone_row) (z : element) (w : world) :
  xml_zone_step data z w
  = (Ok (data ++ option_list (xml_elem_row z)),
     mkWorld (heap w) (warnings w ++ option_list (xml_elem_warning z))).
Proof.
  unfold xml_zone_step, xml_elem_row, xml_elem_warning.
  destruct (xml_row z) as [r|e] eqn:Hr.
  - cbn. unfold ret. rewrite app_nil_r, world_eta. reflexivity.
  - destruct (xml_row_raises _ _ Hr) as [-> | ->];
      cbn; rewrite app_nil_r; reflexivity.
Qed.

Lemma xml_zone_loop_run (zs : list element) :
  forall data w,
    for_each zs xml_zone_step data w
    = (Ok (data ++ omap xml_elem_row zs),
       mkWorld (heap w) (warnings w ++ omap xml_elem_warning zs)).
Proof.
  induction zs as [|z zs IH]; intros data w; cbn [for_each].
  - cbn. unfold ret. rewrite !app_nil_r, world_eta. reflexivity.
  - erewrite bind_ok; [|apply xml_zone_step_run].
    rewrite IH. cbn [heap warnings omap list_omap].
    destruct (xml_elem_row z), (xml_elem_warning z); cbn [option_list];
      rewrite <- ?app_assoc, ?app_nil_r; reflexivity.
Qed.

(** [parse_xml] on a document that was read always returns: it allocates
    one new frame and emits one warning per rejected [Zone] element. *)
Lemma parse_xml_root_run (root : element) (w : world) :
  parse_xml_root root w
  = (Ok (fresh (dom (heap w))),
     mkWorld (<[fresh (dom (heap w)) := xml_frame root]> (heap w))
       (warnings w
        ++ omap xml_elem_warning (ET.findall_descendants root "Zone"))).
Proof.
  unfold parse_xml_root.
  erewrite bind_ok; [|apply xml_zone_loop_run].
  rewrite alloc_modify2. reflexivity.
Qed.

(** A [Zone] element is kept exactly when its four numeric attributes are
    present and read as numbers; [name] and [radionuclide] play no part. *)
Lemma xml_elem_kept (z : element) :
  xml_numbers_read z = true ->
  (exists r, xml_elem_row z = Some r
             /\ zr_zone r = ET.get z "name"
             /\ zr_radionuclide r = ET.get z "radionuclide")
  /\ xml_elem_warning z = None.
Proof.
  unfold xml_numbers_read, xml_elem_row, xml_elem_warning, xml_row.
  destruct (py_float (ET.get z "dose_mSv")); [|discriminate].
  destruct (py_float (ET.get z "radius_km")); [|discriminate].
  destruct (py_float (ET.get z "latitude")); [|discriminate].
  destruct (py_float (ET.get z "longitude")); [|discriminate].
  cbn. eauto.
Qed.

Lemma xml_elem_skipped (z : element) :
  xml_numbers_read z = false ->
  xml_elem_row z = None
  /\ exists e, xml_elem_warning z = Some (WarnXmlZone (ET.tag z) e).
Proof.
  unfold xml_numbers_read, xml_elem_row, xml_elem_warning, xml_row.
  destruct (py_float (ET.get z "dose_mSv")); cbn [rbind]; [|eauto].
  destruct (py_float (ET.get z "radius_km")); cbn [rbind]; [|eauto].
  destruct (py_float (ET.get z "latitude")); cbn [rbind]; [|eauto].
  destruct (py_float (ET.get z "longitude")); cbn [rbind]; [|eauto].
  discriminate.
Qed.

Lemma xml_rows_count (zs : list element) :
  length (omap xml_elem_row zs) = length (List.filter xml_numbers_read zs).
Proof.
  induction zs as [|z zs IH]; [reflexivity|].
  cbn [omap list_omap List.filter].
  destruct (xml_numbers_read z) eqn:Hz.
  - destruct (xml_elem_kept z Hz) as [(r & Hr & _) _]. rewrite Hr.
    cbn. congruence.
  - destruct (xml_elem_skipped z Hz) as [Hr _]. rewrite Hr. exact IH.
Qed.

Lemma xml_warnings_count (zs : list element) :
  length (omap xml_elem_warning zs)
  = length (List.filter (fun z => negb (xml_numbers_read z)) zs).
Proof.
  induction zs as [|z zs IH]; [reflexivity|].
  cbn [omap list_omap List.filter].
  destruct (xml_numbers_read z) eqn:Hz; cbn [negb].
  - destruct (xml_elem_kept z Hz) as [_ Hm]. rewrite Hm. exact IH.
  - destruct (xml_elem_skipped z Hz) as [_ [e Hm]]. rewrite Hm.
    cbn. congruence.
Qed.

(** The zone loop never stops early: every [Zone] element whose four
    numbers read gives one record, every other one gives one warning. *)
Lemma parse_xml_root_counts (root : element) (w : world) :
  exists df d ws,
    parse_xml_root root w
    = (Ok df, mkWorld (<[df := d]> (heap w)) (warnings w ++ ws))
    /\ df_len d
       = length (List.filter xml_numbers_read
                   (ET.findall_descendants root "Zone"))
    /\ length ws
       = length (List.filter (fun z => negb (xml_numbers_read z))
                   (ET.findall_descendants root "Zone")).
Proof.
  eexists _, _, _. rewrite parse_xml_root_run. split; [reflexivity|].
  split; [|apply xml_warnings_count].
  unfold xml_frame, with_headers. cbn [df_len Frame.setitem_scalar
    Frame.setitem]. rewrite frame_of_rows_len. apply xml_rows_count.
Qed.

(** C5, at the failing input. A [Zone] element that lacks its [name]
    attribute is not skipped: the parser reports no warning and the frame
    has one record, whose zone is [None].  A [Zone] element that lacks its
    [dose_mSv] attribute is skipped with one warning, as the claim says. *)
Theorem xml_zone_without_name_is_kept :
  (exists df d,
     parse_xml_root doc_zone_without_name world0
     = (Ok df, mkWorld (<[df := d]> ∅) [])
     /\ df_len d = 1%nat
     /\ Frame.cell d "Zone" 0 = Some VNone
     /\ Frame.cell d "Dose (mSv)" 0 = Some (VFloat dose_12_5))
  /\ ET.get zone_without_name "name" = VNone
  /\ xml_zone_step [] zone_without_dose world0
     = (Ok [], mkWorld ∅ [WarnXmlZone "Zone" TypeError]).
Proof.
  split; [|split; reflexivity].
  eexists _, _. rewrite parse_xml_root_run. split; [reflexivity|].
  vm_compute. auto.
Qed.

(** ** Columns *)

Lemma lookup_set_column_eq (key : string) (c : list pyval)
    (cols : list (string * list pyval)) :
  Frame.lookup_column key (Frame.set_column key c cols) = Some c.
Proof.
  induction cols as [|[k c0] cols IH]; cbn.
  - rewrite String.eqb_refl. reflexivity.
  - destruct (String.eqb k key) eqn:E; cbn; rewrite E; [reflexivity|exact IH].
Qed.

Lemma lookup_set_column_ne (key key' : string) (c : list pyval)
    (cols : list (string * list pyval)) :
  key' <> key ->
  Frame.lookup_column key' (Frame.set_column key c cols)
  = Frame.lookup_column key' cols.
Proof.
  intros Hne. induction cols as [|[k c0] cols IH]; cbn.
  - destruct (String.eqb key key') eqn:E; [|reflexivity].
    apply String.eqb_eq in E. congruence.
  - destruct (String.eqb k key) eqn:E; cbn.
    + apply String.eqb_eq in E. subst k.
      destruct (String.eqb key key') eqn:E'; [|reflexivity].
      apply String.eqb_eq in E'. congruence.
    + rewrite IH. reflexivity.
Qed.

Lemma set_column_labels_in (key x : string) (c : list pyval)
    (cols : list (string * list pyval)) :
  In x (List.map fst (Frame.set_column key c cols)) ->
  x = key \/ In x (List.map fst cols).
Proof.
  induction cols as [|[k c0] cols IH]; cbn.
  - intros [<-|[]]. left; reflexivity.
  - destruct (String.eqb k key); cbn; intros [<-|H]; auto.
    destruct (IH H); auto.
Qed.

Lemma set_column_NoDup (key : string) (c : list pyval)
    (cols : list (string * list pyval)) :
  List.NoDup (List.map fst cols) ->
  List.NoDup (List.map fst (Frame.set_column key c cols)).
Proof.
  induction cols as [|[k c0] cols IH]; cbn; intros Hnd.
  - constructor; [intros [] | constructor].
  - apply List.NoDup_cons_iff in Hnd as [Hk Hnd].
    destruct (String.eqb_spec k key) as [->|Hne]; cbn.
    + apply List.NoDup_cons_iff. split; assumption.
    + apply List.NoDup_cons_iff. split; [|apply IH; exact Hnd].
      intros Hin. apply set_column_labels_in in Hin as [->|Hin];
        [congruence | contradiction].
Qed.

Lemma set_column_lengths (key : string) (c : list pyval) (n : nat)
    (cols : list (string * list pyval)) :
  Forall (fun kc => length (snd kc) = n) cols -> length c = n ->
  Forall (fun kc => length (snd kc) = n) (Frame.set_column key c cols).
Proof.
  intros Hwf Hc. induction Hwf as [|[k c0] cols Hk Hcols IH]; cbn.
  - constructor; [exact Hc | constructor].
  - destruct (String.eqb k key); constructor; cbn; auto.
Qed.

Lemma set_column_wf (key : string) (c : list pyval) (d : DataFrame) :
  Frame.wf d -> length c = df_len d -> Frame.wf (Frame.setitem d key c).
Proof.
  unfold Frame.wf, Frame.labels, Frame.setitem. cbn [df_len df_columns].
  intros [Hnd Hlen] Hc. split.
  - apply set_column_NoDup. exact Hnd.
  - apply set_column_lengths; assumption.
Qed.

Lemma lookup_column_wf (key : string) (c : list pyval) (d : DataFrame) :
  Frame.wf d -> Frame.lookup_column key (df_columns d) = Some c ->
  length c = df_len d.
Proof.
  unfold Frame.wf. intros [_ Hwf].
  induction Hwf as [|[k c0] cols Hk _ IH]; cbn; [discriminate|].
  destruct (String.eqb k key); [|exact IH]. intros [= <-]. exact Hk.
Qed.

Lemma apply_total (f : pyval -> pyval) (c : list pyval) :
  Frame.apply (fun v => Ok (f v)) c = Ok (List.map f c).
Proof.
  induction c as [|v c IH]; cbn; [reflexivity|]. rewrite IH. reflexivity.
Qed.

Lemma apply_length (f : pyval -> result pyval) (c : list pyval) :
  forall r, Frame.apply f c = Ok r -> length r = length c.
Proof.
  induction c as [|v c IH]; cbn; intros r.
  - intros [= <-]. reflexivity.
  - destruct (f v); [|discriminate].
    destruct (Frame.apply f c); [|discriminate].
    intros [= <-]. cbn. f_equal. apply IH. reflexivity.
Qed.

(** ** The dose ladder *)

Lemma SFcompare_antisym (x y : spec_float) (c : comparison) :
  SFcompare x y = Some c -> SFcompare y x = Some (CompOpp c).
Proof.
  destruct x as [sx|sx| |sx mx ex], y as [sy|sy| |sy my ey]; cbn;
    try discriminate; intros [= <-];
    try (destruct sx; reflexivity); try (destruct sy; reflexivity);
    try (destruct sx, sy; reflexivity).
  destruct sx, sy; try reflexivity;
    rewrite (Z.compare_antisym ex ey);
    destruct (ex ?= ey)%Z; cbn; try reflexivity;
    rewrite <- (Pos.compare_cont_antisym _ _ Eq);
    reflexivity.
Qed.

Lemma SFltb_not_leb (x y : spec_float) :
  SFltb x y = true -> SFleb y x = false.
Proof.
  unfold SFltb, SFleb. destruct (SFcompare x y) as [[]|] eqn:H;
    try discriminate.
  rewrite (SFcompare_antisym _ _ _ H). reflexivity.
Qed.

Ltac compare_cases :=
  repeat match goal with
  | H : context [Pos.compare_cont Eq ?a ?b] |- _ =>
      change (Pos.compare_cont Eq a b) with (Pos.compare a b) in H
  | |- context [Pos.compare_cont Eq ?a ?b] =>
      change (Pos.compare_cont Eq a b) with (Pos.compare a b)
  | H : context [(?a ?= ?b)%Z] |- _ => destruct (Z.compare_spec a b)
  | |- context [(?a ?= ?b)%Z] => destruct (Z.compare_spec a b)
  | H : context [(?a ?= ?b)%positive] |- _ => destruct (Pos.compare_spec a b)
  | |- context [(?a ?= ?b)%positive] => destruct (Pos.compare_spec a b)
  end.

(** Evaluate the powers of two with closed exponents. *)
Ltac eval_pow2 :=
  repeat match goal with
  | |- context [(2 ^ ?e)%Z] =>
      let v := eval vm_compute in (2 ^ e)%Z in
      change (2 ^ e)%Z with v in *
  | H : context [(2 ^ ?e)%Z] |- _ =>
      let v := eval vm_compute in (2 ^ e)%Z in
      change (2 ^ e)%Z with v in *
  end.

Lemma SFcompare_Lt_trans (x y z : spec_float) :
  SFcompare x y = Some Lt -> SFcompare y z = Some Lt ->
  SFcompare x z = Some Lt.
Proof.
  destruct x as [sx|sx| |sx mx ex], y as [sy|sy| |sy my ey],
           z as [sz|sz| |sz mz ez]; cbn; try discriminate;
    try (destruct sx); try (destruct sy); try (destruct sz);
    cbn; try discriminate; try reflexivity;
    intros H1 H2; injection H1 as H1; injection H2 as H2; f_equal;
    compare_cases; cbn in *; try discriminate; try reflexivity; lia.
Qed.

Lemma SFltb_chain (x y z : spec_float) :
  SFltb x y = true -> SFltb y z = true -> SFleb z x = false.
Proof.
  unfold SFltb. intros H1 H2.
  destruct (SFcompare x y) as [[]|] eqn:E1; try discriminate.
  destruct (SFcompare y z) as [[]|] eqn:E2; try discriminate.
  apply SFltb_not_leb. unfold SFltb.
  rewrite (SFcompare_Lt_trans _ _ _ E1 E2). reflexivity.
Qed.

Lemma thresholds_ordered :
  SFltb MONITOR_THRESHOLD SHELTER_THRESHOLD = true
  /\ SFltb SHELTER_THRESHOLD EVACUATE_THRESHOLD = true
  /\ SFltb MONITOR_THRESHOLD EVACUATE_THRESHOLD = true.
Proof. repeat split. Qed.

(** The thresholds are the floats that the literals [10.0], [5.0] and
    [1.0] denote. *)
Lemma thresholds_literals :
  PyFloat.of_string "10.0" = Some EVACUATE_THRESHOLD
  /\ PyFloat.of_string "5.0" = Some SHELTER_THRESHOLD
  /\ PyFloat.of_string "1.0" = Some MONITOR_THRESHOLD.
Proof. repeat split. Qed.

(** Below a threshold means not at or above it, nor at or above a higher
    one. *)
Lemma py_lt_not_ge (d : pyval) (t : spec_float) :
  py_lt d t = Ok true -> py_ge d t = Ok false.
Proof.
  destruct d as [| |z|f]; cbn; try discriminate.
  - destruct (Zcompare_float z t) as [[]|]; try discriminate. reflexivity.
  - intros [= H]. rewrite (SFltb_not_leb _ _ H). reflexivity.
Qed.

Lemma Zcompare_float_chain (z : Z) (a b : spec_float) :
  (a = MONITOR_THRESHOLD /\ b = SHELTER_THRESHOLD)
  \/ (a = SHELTER_THRESHOLD /\ b = EVACUATE_THRESHOLD)
  \/ (a = MONITOR_THRESHOLD /\ b = EVACUATE_THRESHOLD) ->
  Zcompare_float z a = Some Lt -> Zcompare_float z b = Some Lt.
Proof.
  intros [[-> ->] | [[-> ->] | [-> ->]]]; cbn;
    intros [= H]; f_equal; rewrite Z.compare_lt_iff in *;
    eval_pow2; lia.
Qed.

Lemma py_lt_chain (d : pyval) (a b : spec_float) :
  (a = MONITOR_THRESHOLD /\ b = SHELTER_THRESHOLD)
  \/ (a = SHELTER_THRESHOLD /\ b = EVACUATE_THRESHOLD)
  \/ (a = MONITOR_THRESHOLD /\ b = EVACUATE_THRESHOLD) ->
  py_lt d a = Ok true -> py_ge d b = Ok false.
Proof.
  intros Hab. destruct d as [| |z|f]; cbn; try discriminate.
  - destruct (Zcompare_float z a) as [[]|] eqn:E; try discriminate.
    rewrite (Zcompare_float_chain z a b Hab E). reflexivity.
  - intros [= H]. erewrite SFltb_chain; [reflexivity | exact H |].
    destruct Hab as [[-> ->] | [[-> ->] | [-> ->]]]; reflexivity.
Qed.

(** ** Comparisons of floats are comparisons of their values *)

Local Open Scope Z_scope.

Lemma digits2_pos_bounds (m : positive) :
  2 ^ (Zpos (digits2_pos m) - 1) <= Zpos m < 2 ^ Zpos (digits2_pos m).
Proof.
  induction m as [m IH|m IH|]; cbn [digits2_pos].
  - rewrite Pos2Z.inj_succ.
    replace (Z.succ (Zpos (digits2_pos m)) - 1)
      with (Z.succ (Zpos (digits2_pos m) - 1)) by lia.
    rewrite !Z.pow_succ_r by lia. lia.
  - rewrite Pos2Z.inj_succ.
    replace (Z.succ (Zpos (digits2_pos m)) - 1)
      with (Z.succ (Zpos (digits2_pos m) - 1)) by lia.
    rewrite !Z.pow_succ_r by lia. lia.
  - cbn. lia.
Qed.

Lemma bounded_bounds (m : positive) (e : Z) :
  bounded PyFloat.prec PyFloat.emax m e = true ->
  -1074 <= e /\ Zpos m < 2 ^ 53 /\ (e = -1074 \/ 2 ^ 52 <= Zpos m).
Proof.
  unfold bounded, canonical_mantissa, fexp, emin, PyFloat.prec, PyFloat.emax.
  intros H. apply andb_true_iff in H as [H _]. apply Z.eqb_eq in H.
  pose proof (digits2_pos_bounds m) as [Hlo Hhi].
  set (d := Zpos (digits2_pos m)) in *.
  assert (Hd : 0 < d) by (unfold d; lia).
  assert (Hc : -1074 <= e /\ d <= 53 /\ (e = -1074 \/ d = 53)) by lia.
  destruct Hc as (He & Hd53 & Hor). split; [exact He|]. split.
  - eapply Z.lt_le_trans; [exact Hhi|]. apply Z.pow_le_mono_r; lia.
  - destruct Hor as [->|Hd']; [left; reflexivity|right].
    rewrite Hd' in Hlo. exact Hlo.
Qed.

Lemma pow2_step (a b : Z) : 0 <= a -> a < b -> 2 * 2 ^ a <= 2 ^ b.
Proof.
  intros Ha Hab. rewrite <- Z.pow_succ_r by lia. apply Z.pow_le_mono_r; lia.
Qed.

Lemma scaled_lt_of_exp (m1 m2 : positive) (e1 e2 : Z) :
  bounded PyFloat.prec PyFloat.emax m1 e1 = true ->
  bounded PyFloat.prec PyFloat.emax m2 e2 = true ->
  e1 < e2 ->
  Zpos m1 * 2 ^ (e1 + 1074) < Zpos m2 * 2 ^ (e2 + 1074).
Proof.
  intros H1 H2 He.
  apply bounded_bounds in H1 as (L1 & U1 & _).
  apply bounded_bounds in H2 as (L2 & _ & [->|N2]); [lia|].
  pose proof (pow2_step (e1 + 1074) (e2 + 1074) ltac:(lia) ltac:(lia)) as Hp.
  assert (0 < 2 ^ (e1 + 1074)) by (apply Z.pow_pos_nonneg; lia).
  change (2 ^ 53) with 9007199254740992 in U1.
  change (2 ^ 52) with 4503599627370496 in N2.
  nia.
Qed.

Lemma compare_cont_Eq (m1 m2 : positive) :
  Pos.compare_cont Eq m1 m2 = (Zpos m1 ?= Zpos m2).
Proof. reflexivity. Qed.

Lemma scaled_compare_pos (m1 m2 : positive) (e1 e2 : Z) :
  bounded PyFloat.prec PyFloat.emax m1 e1 = true ->
  bounded PyFloat.prec PyFloat.emax m2 e2 = true ->
  match e1 ?= e2 with
  | Lt => Lt
  | Gt => Gt
  | Eq => Pos.compare_cont Eq m1 m2
  end = (Zpos m1 * 2 ^ (e1 + 1074) ?= Zpos m2 * 2 ^ (e2 + 1074)).
Proof.
  intros H1 H2. destruct (Z.compare_spec e1 e2) as [->|He|He].
  - rewrite compare_cont_Eq.
    pose proof (bounded_bounds _ _ H2) as (L & _).
    assert (0 < 2 ^ (e2 + 1074)) by (apply Z.pow_pos_nonneg; lia).
    symmetry. destruct (Z.compare_spec (Zpos m1) (Zpos m2)) as [E|E|E].
    + rewrite E. apply Z.compare_refl.
    + apply Z.compare_lt_iff. nia.
    + apply Z.compare_gt_iff. nia.
  - symmetry. apply Z.compare_lt_iff. apply scaled_lt_of_exp; assumption.
  - symmetry. apply Z.compare_gt_iff. apply scaled_lt_of_exp; assumption.
Qed.

Lemma SFcompare_scaled (x y : spec_float) :
  valid_binary PyFloat.prec PyFloat.emax x = true ->
  valid_binary PyFloat.prec PyFloat.emax y = true ->
  is_finite x = true -> is_finite y = true ->
  SFcompare x y = Some (scaled x ?= scaled y).
Proof.
  destruct x as [sx|sx| |sx mx ex], y as [sy|sy| |sy my ey];
    cbn [valid_binary is_finite scaled SFcompare]; try discriminate;
    intros Vx Vy _ _.
  - reflexivity.
  - pose proof (bounded_bounds _ _ Vy) as (L & _).
    assert (0 < 2 ^ (ey + 1074)) by (apply Z.pow_pos_nonneg; lia).
    f_equal. symmetry. destruct sy; cbn [cond_Zopp].
    + apply Z.compare_gt_iff. nia.
    + apply Z.compare_lt_iff. nia.
  - pose proof (bounded_bounds _ _ Vx) as (L & _).
    assert (0 < 2 ^ (ex + 1074)) by (apply Z.pow_pos_nonneg; lia).
    f_equal. symmetry. destruct sx; cbn [cond_Zopp].
    + apply Z.compare_lt_iff. nia.
    + apply Z.compare_gt_iff. nia.
  - pose proof (bounded_bounds _ _ Vx) as (Lx & _).
    pose proof (bounded_bounds _ _ Vy) as (Ly & _).
    assert (0 < 2 ^ (ex + 1074)) by (apply Z.pow_pos_nonneg; lia).
    assert (0 < 2 ^ (ey + 1074)) by (apply Z.pow_pos_nonneg; lia).
    f_equal. destruct sx, sy; cbn [cond_Zopp].
    + rewrite Z.mul_opp_l, (Z.mul_opp_l (Zpos my)), Z.compare_opp.
      rewrite <- (scaled_compare_pos my mx ey ex Vy Vx).
      rewrite (Z.compare_antisym ey ex).
      destruct (ey ?= ex); cbn; try reflexivity.
      rewrite <- (Pos.compare_cont_antisym _ _ Eq). cbn.
      rewrite CompOpp_involutive. reflexivity.
    + symmetry. apply Z.compare_lt_iff. nia.
    + symmetry. apply Z.compare_gt_iff. nia.
    + apply scaled_compare_pos; assumption.
Qed.

Lemma unit_value_pos : (0 < unit_value)%Q.
Proof. apply Qpower_0_lt. reflexivity. Qed.

Lemma float_value_scaled (f : spec_float) (q : Q) :
  valid_binary PyFloat.prec PyFloat.emax f = true ->
  float_value f = Some q ->
  (q == inject_Z (scaled f) * unit_value)%Q.
Proof.
  destruct f as [s|s| |s m e]; cbn [float_value scaled valid_binary];
    try discriminate; intros V [= <-].
  - unfold unit_value. rewrite Qmult_0_l. reflexivity.
  - pose proof (bounded_bounds _ _ V) as (L & _).
    rewrite inject_Z_mult, Zpower_Qpower by lia.
    rewrite <- Qmult_assoc. unfold unit_value.
    rewrite <- Qpower_plus by discriminate.
    replace (e + 1074 + -1074) with e by lia. reflexivity.
Qed.

Lemma scaled_le_value (a b : Z) (qa qb : Q) :
  (qa == inject_Z a * unit_value)%Q -> (qb == inject_Z b * unit_value)%Q ->
  (a <=? b) = Qle_bool qa qb.
Proof.
  intros Ha Hb. rewrite Ha, Hb.
  apply eq_true_iff_eq. rewrite Z.leb_le, Qle_bool_iff.
  rewrite (Qmult_le_r _ _ _ unit_value_pos). rewrite Zle_Qle. reflexivity.
Qed.

Lemma is_finite_value (f : spec_float) (q : Q) :
  float_value f = Some q -> is_finite f = true.
Proof. destruct f; cbn; congruence. Qed.

Lemma SFleb_value (x y : spec_float) (qx qy : Q) :
  valid_binary PyFloat.prec PyFloat.emax x = true ->
  valid_binary PyFloat.prec PyFloat.emax y = true ->
  float_value x = Some qx -> float_value y = Some qy ->
  SFleb x y = Qle_bool qx qy.
Proof.
  intros Vx Vy Hx Hy. unfold SFleb.
  rewrite (SFcompare_scaled x y Vx Vy (is_finite_value _ _ Hx)
             (is_finite_value _ _ Hy)).
  rewrite <- (scaled_le_value (scaled x) (scaled y) qx qy
                (float_value_scaled _ _ Vx Hx) (float_value_scaled _ _ Vy Hy)).
  unfold Z.leb. destruct (scaled x ?= scaled y); reflexivity.
Qed.

Lemma SFltb_value (x y : spec_float) (qx qy : Q) :
  valid_binary PyFloat.prec PyFloat.emax x = true ->
  valid_binary PyFloat.prec PyFloat.emax y = true ->
  float_value x = Some qx -> float_value y = Some qy ->
  SFltb x y = negb (Qle_bool qy qx).
Proof.
  intros Vx Vy Hx Hy. unfold SFltb.
  rewrite (SFcompare_scaled x y Vx Vy (is_finite_value _ _ Hx)
             (is_finite_value _ _ Hy)).
  rewrite <- (scaled_le_value (scaled y) (scaled x) qy qx
                (float_value_scaled _ _ Vy Hy) (float_value_scaled _ _ Vx Hx)).
  unfold Z.leb. rewrite (Z.compare_antisym (scaled x) (scaled y)).
  destruct (scaled x ?= scaled y); reflexivity.
Qed.

Lemma thresholds_value (t : spec_float) (tq : Q) :
  In (t, tq) thresholds ->
  valid_binary PyFloat.prec PyFloat.emax t = true
  /\ exists q, float_value t = Some q /\ (q == tq)%Q.
Proof.
  intros [[= <- <-]|[[= <- <-]|[[= <- <-]|[]]]];
    (split; [reflexivity|]); eexists; (split; [reflexivity|]);
    vm_compute; reflexivity.
Qed.

Lemma Zcompare_float_value (z : Z) (t : spec_float) (tq : Q) :
  In (t, tq) thresholds ->
  Zcompare_float z t = Some (Qcompare (inject_Z z) tq).
Proof.
  intros [[= <- <-]|[[= <- <-]|[[= <- <-]|[]]]];
    cbn [Zcompare_float EVACUATE_THRESHOLD SHELTER_THRESHOLD
         MONITOR_THRESHOLD cond_Zopp Z.leb Z.compare];
    f_equal; unfold Qcompare; cbn [Qnum Qden inject_Z].
  - change 5629499534213120 with (10 * 2 ^ (- (-49))).
    rewrite <- Zmult_compare_compat_r by reflexivity.
    rewrite Z.mul_1_r. reflexivity.
  - change 5629499534213120 with (5 * 2 ^ (- (-50))).
    rewrite <- Zmult_compare_compat_r by reflexivity.
    rewrite Z.mul_1_r. reflexivity.
  - change 4503599627370496 with (1 * 2 ^ (- (-52))).
    rewrite <- Zmult_compare_compat_r by reflexivity.
    rewrite Z.mul_1_r. reflexivity.
Qed.

Lemma Qle_bool_compare (x y : Q) :
  Qle_bool x y = match Qcompare x y with Gt => false | _ => true end.
Proof.
  unfold Qle_bool, Qcompare, Z.leb. reflexivity.
Qed.

Lemma py_ge_value (d : pyval) (q : Q) (t : spec_float) (tq : Q) :
  In (t, tq) thresholds ->
  valid_number d = true -> number_value d = Some q ->
  py_ge d t = Ok (Qle_bool tq q)
  /\ py_lt d t = Ok (negb (Qle_bool tq q)).
Proof.
  intros Ht Vd Hq. destruct d as [| |z|f]; cbn in Vd, Hq; try discriminate.
  - injection Hq as <-. cbn [py_ge py_lt].
    rewrite (Zcompare_float_value z t tq Ht).
    rewrite Qle_bool_compare. rewrite <- (Qcompare_antisym (inject_Z z) tq).
    destruct (inject_Z z ?= tq)%Q; split; reflexivity.
  - destruct (thresholds_value t tq Ht) as (Vt & q0 & Hq0 & Eq0).
    cbn [py_ge py_lt].
    rewrite (SFleb_value t f q0 q Vt Vd Hq0 Hq).
    rewrite (SFltb_value f t q q0 Vd Vt Hq Hq0).
    rewrite Eq0. split; reflexivity.
Qed.

Local Close Scope Z_scope.

(** The ladder read on the value of the dose. *)
Lemma get_action_by_value (d : pyval) (q : Q) :
  valid_number d = true -> number_value d = Some q ->
  get_action d
  = Ok (VStr (if Qle_bool 10 q then "Evacuate"
              else if Qle_bool 5 q then "Shelter-in-Place"
              else if Qle_bool 1 q then "Monitor & Advise"
              else "No Immediate Action")).
Proof.
  intros Vd Hq. unfold get_action.
  destruct (py_ge_value d q EVACUATE_THRESHOLD 10 ltac:(cbn; tauto) Vd Hq)
    as [-> _].
  destruct (py_ge_value d q SHELTER_THRESHOLD 5 ltac:(cbn; tauto) Vd Hq)
    as [-> _].
  destruct (py_ge_value d q MONITOR_THRESHOLD 1 ltac:(cbn; tauto) Vd Hq)
    as [-> _].
  cbn [rbind].
  destruct (Qle_bool 10 q), (Qle_bool 5 q), (Qle_bool 1 q); reflexivity.
Qed.

Lemma get_action_numeric (d : pyval) :
  numeric d = true ->
  exists b1 b2 b3,
    py_ge d EVACUATE_THRESHOLD = Ok b1
    /\ py_ge d SHELTER_THRESHOLD = Ok b2
    /\ py_ge d MONITOR_THRESHOLD = Ok b3.
Proof.
  destruct d; cbn [numeric]; try discriminate; intros _;
    cbn [py_ge]; do 3 eexists; repeat split; reflexivity.
Qed.

(** ** Floats read from text are binary64 values *)

Local Open Scope Z_scope.

Lemma fexp_binary64 (x : Z) :
  fexp PyFloat.prec PyFloat.emax x = Z.max (x - 53) (-1074).
Proof. reflexivity. Qed.

(** The number of binary digits. *)
Lemma Zdigits2_nonneg (m : Z) : 0 <= Zdigits2 m.
Proof. destruct m; cbn; lia. Qed.

Lemma Zdigits2_bounds (m : Z) :
  0 < m -> 2 ^ (Zdigits2 m - 1) <= m < 2 ^ Zdigits2 m.
Proof.
  destruct m as [|p|p]; try lia. intros _. apply digits2_pos_bounds.
Qed.

Lemma Zdigits2_unique (m d : Z) :
  0 < m -> 2 ^ (d - 1) <= m < 2 ^ d -> Zdigits2 m = d.
Proof.
  intros Hm [Hlo Hhi]. pose proof (Zdigits2_bounds m Hm) as [Blo Bhi].
  pose proof (Zdigits2_nonneg m) as Hn.
  assert (0 < d).
  { destruct (Z.lt_ge_cases 0 d) as [|Hd]; [assumption|].
    assert (2 ^ d <= 2 ^ 0) by (destruct (Z.eq_dec d 0) as [->|];
      [lia | rewrite Z.pow_neg_r by lia; cbn; lia]).
    cbn in *. lia. }
  destruct (Z.lt_trichotomy (Zdigits2 m) d) as [Hlt|[Heq|Hgt]]; [|exact Heq|].
  - assert (2 ^ Zdigits2 m <= 2 ^ (d - 1)) by (apply Z.pow_le_mono_r; lia).
    lia.
  - assert (2 ^ d <= 2 ^ (Zdigits2 m - 1)) by (apply Z.pow_le_mono_r; lia).
    lia.
Qed.

Lemma Zdigits2_zero : Zdigits2 0 = 0.
Proof. reflexivity. Qed.

(** Shifting a mantissa to the right. *)
Lemma shr_1_m (mrs : shr_record) :
  0 <= shr_m mrs -> shr_m (shr_1 mrs) = shr_m mrs / 2.
Proof.
  destruct mrs as [m r s]. cbn [shr_m shr_1].
  destruct m as [|[p|p|]|p]; cbn [shr_m]; intros H; try lia.
  - reflexivity.
  - rewrite Pos2Z.inj_xI. apply Z.div_unique with 1; lia.
  - rewrite Pos2Z.inj_xO. apply Z.div_unique with 0; lia.
  - reflexivity.
Qed.

Lemma shr_1_nonneg (mrs : shr_record) :
  0 <= shr_m mrs -> 0 <= shr_m (shr_1 mrs).
Proof.
  intros H. rewrite shr_1_m by exact H. apply Z.div_pos; lia.
Qed.

Lemma iter_shr_1_m (p : positive) :
  forall mrs, 0 <= shr_m mrs ->
    shr_m (SpecFloat.iter_pos shr_1 p mrs) = shr_m mrs / 2 ^ Zpos p
    /\ 0 <= shr_m (SpecFloat.iter_pos shr_1 p mrs).
Proof.
  induction p as [p IH|p IH|]; intros mrs H; cbn [SpecFloat.iter_pos].
  - pose proof (shr_1_nonneg mrs H) as H1.
    destruct (IH (shr_1 mrs) H1) as [E2 H2].
    destruct (IH _ H2) as [E3 H3].
    split; [|exact H3]. rewrite E3, E2, shr_1_m by exact H.
    rewrite (Pos2Z.inj_xI p).
    replace (2 * Zpos p + 1) with (1 + Zpos p + Zpos p) by lia.
    assert (Hp : 0 < 2 ^ Zpos p) by (apply Z.pow_pos_nonneg; lia).
    rewrite !Z.pow_add_r by lia. change (2 ^ 1) with 2.
    rewrite !Z.div_div by nia.
    f_equal. ring.
  - destruct (IH mrs H) as [E2 H2].
    destruct (IH _ H2) as [E3 H3].
    split; [|exact H3]. rewrite E3, E2.
    rewrite (Pos2Z.inj_xO p).
    replace (2 * Zpos p) with (Zpos p + Zpos p) by lia.
    assert (Hp : 0 < 2 ^ Zpos p) by (apply Z.pow_pos_nonneg; lia).
    rewrite Z.pow_add_r by lia. rewrite Z.div_div by lia.
    reflexivity.
  - split; [|apply shr_1_nonneg; exact H].
    rewrite shr_1_m by exact H. reflexivity.
Qed.

Lemma shr_record_of_loc_m (m : Z) (l : location) :
  shr_m (shr_record_of_loc m l) = m.
Proof. destruct l as [|[]]; reflexivity. Qed.

Lemma pow2_pos (n : Z) : 0 <= n -> 0 < 2 ^ n.
Proof. intros. apply Z.pow_pos_nonneg; lia. Qed.

Lemma Zdigits2_mono (a b : Z) : 0 < a -> a <= b -> Zdigits2 a <= Zdigits2 b.
Proof.
  intros Ha Hab.
  pose proof (Zdigits2_bounds a Ha) as [Alo Ahi].
  pose proof (Zdigits2_bounds b ltac:(lia)) as [Blo Bhi].
  destruct (Z.le_gt_cases (Zdigits2 a) (Zdigits2 b)) as [|Hgt]; [assumption|].
  assert (2 ^ Zdigits2 b <= 2 ^ (Zdigits2 a - 1))
    by (apply Z.pow_le_mono_r; lia).
  lia.
Qed.

Lemma Zdigits2_div (m n : Z) :
  0 < m -> 0 <= n ->
  (m / 2 ^ n = 0 /\ Zdigits2 m <= n)
  \/ (0 < m / 2 ^ n /\ Zdigits2 (m / 2 ^ n) = Zdigits2 m - n).
Proof.
  intros Hm Hn. pose proof (Zdigits2_bounds m Hm) as [Lo Hi].
  pose proof (pow2_pos n Hn) as Hp.
  destruct (Z.le_gt_cases (Zdigits2 m) n) as [Hle|Hgt].
  - left. split; [|exact Hle]. apply Z.div_small. split; [lia|].
    eapply Z.lt_le_trans; [exact Hi|]. apply Z.pow_le_mono_r; lia.
  - right.
    assert (E1 : 2 ^ (Zdigits2 m - 1) = 2 ^ (Zdigits2 m - n - 1) * 2 ^ n).
    { rewrite <- Z.pow_add_r by lia. f_equal. lia. }
    assert (E2 : 2 ^ Zdigits2 m = 2 ^ (Zdigits2 m - n) * 2 ^ n).
    { rewrite <- Z.pow_add_r by lia. f_equal. lia. }
    assert (Lo' : 2 ^ (Zdigits2 m - n - 1) <= m / 2 ^ n).
    { apply Z.div_le_lower_bound; [exact Hp|]. lia. }
    assert (Hi' : m / 2 ^ n < 2 ^ (Zdigits2 m - n)).
    { apply Z.div_lt_upper_bound; [exact Hp|]. lia. }
    pose proof (pow2_pos (Zdigits2 m - n - 1) ltac:(lia)).
    split; [lia|]. apply Zdigits2_unique; [lia|].
    split; [exact Lo' | exact Hi'].
Qed.

(** What one normalising shift does. *)
Lemma shr_fexp_spec (m e : Z) (l : location) :
  0 <= m -> e <= fexp PyFloat.prec PyFloat.emax (Zdigits2 m + e) ->
  exists mrs,
    shr_fexp PyFloat.prec PyFloat.emax m e l
    = (mrs, fexp PyFloat.prec PyFloat.emax (Zdigits2 m + e))
    /\ shr_m mrs
       = m / 2 ^ (fexp PyFloat.prec PyFloat.emax (Zdigits2 m + e) - e).
Proof.
  intros Hm He. unfold shr_fexp, shr.
  destruct (fexp PyFloat.prec PyFloat.emax (Zdigits2 m + e) - e)
    as [|p|p] eqn:En; try lia.
  - eexists. split; [f_equal; lia|].
    rewrite shr_record_of_loc_m. cbn. symmetry. apply Z.div_1_r.
  - eexists. split; [f_equal; lia|].
    destruct (iter_shr_1_m p (shr_record_of_loc m l)) as [E _].
    + rewrite shr_record_of_loc_m. exact Hm.
    + rewrite E, shr_record_of_loc_m. reflexivity.
Qed.

(** After a normalising shift the mantissa is zero at the lowest
    exponent, or it is canonical. *)
Lemma shr_fexp_canonical (m e : Z) :
  0 <= m -> e <= fexp PyFloat.prec PyFloat.emax (Zdigits2 m + e) ->
  let e' := fexp PyFloat.prec PyFloat.emax (Zdigits2 m + e) in
  let m' := m / 2 ^ (e' - e) in
  0 <= m'
  /\ (m' = 0 \/ fexp PyFloat.prec PyFloat.emax (Zdigits2 m' + e') = e').
Proof.
  intros Hm He e' m'.
  assert (Ee : e' = fexp PyFloat.prec PyFloat.emax (Zdigits2 m + e))
    by reflexivity.
  assert (Em : m' = m / 2 ^ (e' - e)) by reflexivity.
  clearbody e' m'. rewrite <- Ee in He. rewrite Em.
  destruct (Z.eq_dec m 0) as [->|Hne].
  - rewrite Z.div_0_l by (pose proof (pow2_pos (e' - e)); lia).
    split; [lia | left; reflexivity].
  - destruct (Zdigits2_div m (e' - e) ltac:(lia) ltac:(lia))
      as [[Hz _]|[Hpos Hd]].
    + split; [lia | left; exact Hz].
    + split; [lia|]. right. rewrite Hd.
      replace (Zdigits2 m - (e' - e) + e') with (Zdigits2 m + e) by lia.
      symmetry. exact Ee.
Qed.

Lemma round_nearest_even_range (m : Z) (l : location) :
  round_nearest_even m l = m \/ round_nearest_even m l = m + 1.
Proof.
  destruct l as [|[]]; cbn; auto. destruct (Z.even m); auto.
Qed.

(** Rounding a mantissa that was cut at an exponent below its canonical
    one gives a binary64 value. *)
Lemma binary_round_aux_valid (sx : bool) (mx ex : Z) (lx : location) :
  0 <= mx -> ex <= fexp PyFloat.prec PyFloat.emax (Zdigits2 mx + ex) ->
  valid_binary PyFloat.prec PyFloat.emax
    (binary_round_aux PyFloat.prec PyFloat.emax sx mx ex lx) = true.
Proof.
  intros Hm He. unfold binary_round_aux.
  destruct (shr_fexp_spec mx ex lx Hm He) as (mrs1 & -> & Em1).
  destruct (shr_fexp_canonical mx ex Hm He) as (Hm1 & Hc1).
  rewrite <- Em1 in Hm1, Hc1.
  set (e1 := fexp PyFloat.prec PyFloat.emax (Zdigits2 mx + ex)) in *.
  set (m2 := round_nearest_even (shr_m mrs1) (loc_of_shr_record mrs1)).
  assert (Hm2 : 0 <= m2)
    by (destruct (round_nearest_even_range (shr_m mrs1)
                    (loc_of_shr_record mrs1)); fold m2 in H; lia).
  assert (He2 : e1 <= fexp PyFloat.prec PyFloat.emax (Zdigits2 m2 + e1)).
  { destruct Hc1 as [Hz|Hc].
    - assert (e1 = -1074).
      { unfold e1 in *. rewrite fexp_binary64 in *.
        destruct (Z.eq_dec mx 0) as [->|Hne]; [cbn in *; lia|].
        destruct (Zdigits2_div mx (Z.max (Zdigits2 mx + ex - 53) (-1074) - ex)
                    ltac:(lia) ltac:(lia)) as [[_ Hd]|[Hpos _]];
          [lia|].
        rewrite Em1 in Hz. lia. }
      rewrite fexp_binary64. lia.
    - rewrite <- Hc at 1. rewrite !fexp_binary64.
      assert (Zdigits2 (shr_m mrs1) <= Zdigits2 m2).
      { destruct (Z.eq_dec (shr_m mrs1) 0) as [E0|Hne].
        - rewrite E0. apply Zdigits2_nonneg.
        - apply Zdigits2_mono; [lia|].
          destruct (round_nearest_even_range (shr_m mrs1)
                      (loc_of_shr_record mrs1)); fold m2 in H; lia. }
      lia. }
  destruct (shr_fexp_spec m2 e1 loc_Exact Hm2 He2) as (mrs2 & -> & Em2).
  destruct (shr_fexp_canonical m2 e1 Hm2 He2) as (Hm3 & Hc3).
  rewrite <- Em2 in Hm3, Hc3.
  destruct (shr_m mrs2) as [|m|m] eqn:E3; [reflexivity| |lia].
  destruct (fexp PyFloat.prec PyFloat.emax (Zdigits2 m2 + e1)
            <=? PyFloat.emax - PyFloat.prec) eqn:Eb;
    [|reflexivity].
  cbn [valid_binary]. unfold bounded, canonical_mantissa.
  rewrite Eb, andb_true_r. apply Z.eqb_eq.
  destruct Hc3 as [|Hc3]; [discriminate|]. exact Hc3.
Qed.

Lemma round_ratio_valid (neg : bool) (num den : Z) :
  0 < num -> 0 < den ->
  valid_binary PyFloat.prec PyFloat.emax (PyFloat.round_ratio neg num den)
  = true.
Proof.
  intros Hnum Hden. unfold PyFloat.round_ratio, SFdiv_core_binary.
  rewrite !Z.add_0_r, Z.sub_0_r.
  set (d1 := Zdigits2 num). set (d2 := Zdigits2 den).
  set (e := Z.min (fexp PyFloat.prec PyFloat.emax (d1 - d2)) 0).
  assert (He : e = Z.min (Z.max (d1 - d2 - 53) (-1074)) 0) by reflexivity.
  clearbody e.
  set (m := match 0 - e with
            | 0 => num
            | Zpos _ => Z.shiftl num (0 - e)
            | Zneg _ => 0
            end).
  assert (Em : m = num * 2 ^ (- e)).
  { unfold m. destruct (0 - e) as [|p|p] eqn:Es; try lia.
    - replace (- e) with 0 by lia. lia.
    - rewrite Z.shiftl_mul_pow2 by lia. f_equal. f_equal. lia. }
  clearbody m.
  destruct (Z.div_eucl m den) as [q r] eqn:Ediv.
  assert (Eq : q = m / den) by (unfold Z.div; rewrite Ediv; reflexivity).
  pose proof (pow2_pos (- e) ltac:(lia)) as Hp.
  pose proof (Zdigits2_bounds num Hnum) as [Nlo Nhi]. fold d1 in Nlo, Nhi.
  pose proof (Zdigits2_bounds den Hden) as [Dlo Dhi]. fold d2 in Dlo, Dhi.
  assert (Hd1 : 0 < d1) by (unfold d1; destruct num; cbn; lia).
  assert (Hd2 : 0 < d2) by (unfold d2; destruct den; cbn; lia).
  assert (Hq : 0 <= q) by (rewrite Eq; apply Z.div_pos; nia).
  apply binary_round_aux_valid; [exact Hq|].
  rewrite fexp_binary64.
  destruct (Z.eq_dec q 0) as [Hq0|Hq0].
  - (* the quotient is zero only at the lowest exponent *)
    rewrite Hq0. cbn [Zdigits2].
    assert (Hlt : m < den).
    { destruct (Z.lt_ge_cases m den) as [|Hge]; [assumption|].
      assert (1 <= m / den) by (apply Z.div_le_lower_bound; lia). lia. }
    assert (Hs : d1 - 1 + - e < d2).
    { apply (Z.pow_lt_mono_r_iff 2); [lia | lia |].
      rewrite Z.pow_add_r by lia. nia. }
    lia.
  - (* otherwise the quotient has enough digits *)
    assert (Hk : d1 - d2 - e <= Zdigits2 q).
    { destruct (Z.le_gt_cases (d1 - d2 - e) 0) as [|Hk];
        [pose proof (Zdigits2_nonneg q); lia|].
      pose proof (Zdigits2_bounds q ltac:(lia)) as [_ Qhi].
      assert (Hlow : 2 ^ (d1 - d2 - e - 1) <= q).
      { rewrite Eq. apply Z.div_le_lower_bound; [exact Hden|].
        assert (E1 : 2 ^ (d1 - 1) * 2 ^ (- e)
                     = 2 ^ d2 * 2 ^ (d1 - d2 - e - 1)).
        { rewrite <- !Z.pow_add_r by lia. f_equal. lia. }
        pose proof (pow2_pos (d1 - d2 - e - 1) ltac:(lia)).
        nia. }
      assert (d1 - d2 - e - 1 < Zdigits2 q).
      { apply (Z.pow_lt_mono_r_iff 2); [lia | apply Zdigits2_nonneg | lia]. }
      lia. }
    lia.
Qed.

Lemma isdigit_val (c : ascii) :
  PyStr.isdigit c = true -> 0 <= PyStr.digit_val c.
Proof.
  unfold PyStr.isdigit, PyStr.digit_val. intros H.
  apply andb_true_iff in H as [H _]. apply N.leb_le in H. lia.
Qed.

Lemma read_digits_nonneg (s : string) :
  forall acc n, 0 <= acc -> 0 <= fst (fst (PyFloat.read_digits s acc n)).
Proof.
  induction s as [|c s IH]; intros acc n Hacc; cbn; [exact Hacc|].
  destruct (PyStr.isdigit c) eqn:Hc; [|exact Hacc].
  apply IH. pose proof (isdigit_val c Hc). lia.
Qed.

Lemma parse_decimal_nonneg (s : string) (d e : Z) :
  PyFloat.parse_decimal s = Some (d, e) -> 0 <= d.
Proof.
  unfold PyFloat.parse_decimal.
  pose proof (read_digits_nonneg s 0 0%nat ltac:(lia)) as H1.
  destruct (PyFloat.read_digits s 0 0%nat) as [[i ni] s1]. cbn [fst] in H1.
  assert (H2 : forall t, 0 <= fst (fst (PyFloat.read_digits t i 0%nat)))
    by (intros t; apply read_digits_nonneg; exact H1).
  destruct (match s1 with
            | String "." s1' => PyFloat.read_digits s1' i 0%nat
            | _ => (i, 0%nat, s1)
            end) as [[d' nf] s2] eqn:E.
  assert (Hd' : 0 <= d').
  { destruct s1 as [|c s1']; [injection E as <- _ _; exact H1|].
    destruct (Ascii.eqb_spec c ".") as [->|Hne].
    - specialize (H2 s1'). rewrite E in H2. exact H2.
    - assert (E' : (i, 0%nat, String c s1') = (d', nf, s2)).
      { rewrite <- E. destruct c as [[] [] [] [] [] [] [] []];
          try reflexivity. contradiction Hne. reflexivity. }
      injection E' as <- _ _. exact H1. }
  destruct (ni + nf =? 0)%nat; [discriminate|].
  destruct s2 as [|c s3]; [intros [= <- _]; exact Hd'|].
  destruct (Ascii.eqb c "e" || Ascii.eqb c "E"); [|discriminate].
  destruct (PyFloat.read_sign s3) as [neg s4].
  destruct (PyFloat.read_digits s4 0 0%nat) as [[x nx] s5].
  destruct (nx =? 0)%nat; [discriminate|].
  destruct s5; [intros [= <- _]; exact Hd' | discriminate].
Qed.

Lemma of_decimal_valid (neg : bool) (d e : Z) :
  0 <= d ->
  valid_binary PyFloat.prec PyFloat.emax (PyFloat.of_decimal neg d e) = true.
Proof.
  intros Hd. unfold PyFloat.of_decimal.
  destruct (Z.eqb_spec d 0) as [|Hne]; [reflexivity|].
  destruct (Z.leb_spec 0 e).
  - apply round_ratio_valid; [|lia].
    apply Z.mul_pos_pos; [lia | apply Z.pow_pos_nonneg; lia].
  - apply round_ratio_valid; [lia | apply Z.pow_pos_nonneg; lia].
Qed.

(** Every float that [float] reads from a string is a binary64 value. *)
Lemma of_string_valid (s : string) (f : spec_float) :
  PyFloat.of_string s = Some f ->
  valid_binary PyFloat.prec PyFloat.emax f = true.
Proof.
  unfold PyFloat.of_string.
  destruct (PyFloat.drop_underscores zero s) as [t|]; [|discriminate].
  destruct (PyFloat.read_sign _) as [neg u].
  destruct (PyFloat.parse_decimal u) as [[d e]|] eqn:Ep.
  - intros [= <-]. apply of_decimal_valid.
    exact (parse_decimal_nonneg _ _ _ Ep).
  - unfold PyFloat.parse_inf_nan.
    destruct (_ || _); [intros [= <-]; reflexivity|].
    destruct (String.eqb _ _); [intros [= <-]; reflexivity | discriminate].
Qed.

Local Close Scope Z_scope.

(** The numbers of a parsed row are binary64 values. *)
Lemma txt_line_row_valid (line : string) (r : zone_row) :
  txt_line_row line = Some r ->
  valid_number (VFloat (zr_dose r)) = true.
Proof.
  intros H. destruct (txt_line_row_fields line r H)
    as (p0 & p1 & p2 & p3 & p4 & p5 & _ & _ & Hd & _).
  exact (of_string_valid _ _ Hd).
Qed.

Lemma xml_elem_row_valid (z : element) (r : zone_row) :
  xml_elem_row z = Some r ->
  valid_number (VFloat (zr_dose r)) = true.
Proof.
  unfold xml_elem_row, xml_row.
  destruct (py_float (ET.get z "dose_mSv")) as [dose|] eqn:Hd;
    cbn [rbind]; [|discriminate].
  destruct (py_float (ET.get z "radius_km")); cbn [rbind]; [|discriminate].
  destruct (py_float (ET.get z "latitude")); cbn [rbind]; [|discriminate].
  destruct (py_float (ET.get z "longitude")); cbn [rbind]; [|discriminate].
  intros [= <-]. cbn [zr_dose valid_number].
  destruct z as [t attrs cs]. cbn [ET.get] in Hd.
  destruct (attrs !! "dose_mSv") as [s|]; [|discriminate Hd].
  cbn [py_float] in Hd.
  destruct (PyFloat.of_string s) as [f|] eqn:Hs; [|discriminate Hd].
  injection Hd as <-. exact (of_string_valid _ _ Hs).
Qed.

(** The action of a dose read from a data line, by the value of the dose. *)
Lemma txt_line_action_by_value (line : string) (r : zone_row) (q : Q) :
  txt_line_row line = Some r ->
  float_value (zr_dose r) = Some q ->
  get_action (VFloat (zr_dose r))
  = Ok (VStr (if Qle_bool 10 q then "Evacuate"
              else if Qle_bool 5 q then "Shelter-in-Place"
              else if Qle_bool 1 q then "Monitor & Advise"
              else "No Immediate Action")).
Proof.
  intros Hr Hq. apply get_action_by_value; [|exact Hq].
  exact (txt_line_row_valid line r Hr).
Qed.

Lemma ladder_by_comparisons (d : pyval) :
  numeric d = true ->
  exists a,
    get_action d = Ok (VStr a) /\ In a actions
    /\ (py_ge d EVACUATE_THRESHOLD = Ok true -> a = "Evacuate")
    /\ (py_ge d SHELTER_THRESHOLD = Ok true ->
        py_lt d EVACUATE_THRESHOLD = Ok true -> a = "Shelter-in-Place")
    /\ (py_ge d MONITOR_THRESHOLD = Ok true ->
        py_lt d SHELTER_THRESHOLD = Ok true -> a = "Monitor & Advise")
    /\ (py_lt d MONITOR_THRESHOLD = Ok true -> a = "No Immediate Action").
Proof.
  intros Hnum.
  destruct (get_action_numeric d Hnum) as (b1 & b2 & b3 & H1 & H2 & H3).
  unfold get_action. rewrite H1, H2, H3. cbn [rbind].
  pose proof (py_lt_not_ge d EVACUATE_THRESHOLD) as L1.
  pose proof (py_lt_not_ge d SHELTER_THRESHOLD) as L2.
  pose proof (py_lt_not_ge d MONITOR_THRESHOLD) as L3.
  pose proof (py_lt_chain d SHELTER_THRESHOLD EVACUATE_THRESHOLD
                ltac:(tauto)) as L21.
  pose proof (py_lt_chain d MONITOR_THRESHOLD SHELTER_THRESHOLD
                ltac:(tauto)) as L32.
  pose proof (py_lt_chain d MONITOR_THRESHOLD EVACUATE_THRESHOLD
                ltac:(tauto)) as L31.
  rewrite H1 in L1, L21, L31. rewrite H2 in L2, L32. rewrite H3 in L3.
  destruct b1, b2, b3; eexists; (split; [reflexivity|]);
    (split; [unfold actions; cbn; tauto|]);
    repeat split; intros;
    try reflexivity; try discriminate;
    match goal with
    | H : py_lt _ _ = Ok true |- _ =>
        first [ discriminate (L1 H) | discriminate (L2 H)
              | discriminate (L3 H) | discriminate (L21 H)
              | discriminate (L32 H) | discriminate (L31 H) ]
    end.
Qed.

Lemma ladder_by_value (d : pyval) (q : Q) (a : string) :
  valid_number d = true -> number_value d = Some q ->
  get_action d = Ok (VStr a) ->
  ((10 <= q)%Q -> a = "Evacuate")
  /\ ((5 <= q)%Q -> (q < 10)%Q -> a = "Shelter-in-Place")
  /\ ((1 <= q)%Q -> (q < 5)%Q -> a = "Monitor & Advise")
  /\ ((q < 1)%Q -> a = "No Immediate Action").
Proof.
  intros Vd Hq Ha. rewrite (get_action_by_value d q Vd Hq) in Ha.
  destruct (Qle_bool 10 q) eqn:E10; [apply Qle_bool_iff in E10
    | apply not_true_iff_false in E10; rewrite Qle_bool_iff in E10];
  (destruct (Qle_bool 5 q) eqn:E5; [apply Qle_bool_iff in E5
    | apply not_true_iff_false in E5; rewrite Qle_bool_iff in E5]);
  (destruct (Qle_bool 1 q) eqn:E1; [apply Qle_bool_iff in E1
    | apply not_true_iff_false in E1; rewrite Qle_bool_iff in E1]);
  injection Ha as <-; repeat split; intros;
    try reflexivity; exfalso; lra.
Qed.

(** C1. For every numeric dose the action function returns one of the
    four actions, chosen by the first matching rung from the top, the
    thresholds being inclusive lower bounds: at or above 10.0 "Evacuate";
    at or above 5.0 and below 10.0 "Shelter-in-Place"; at or above 1.0
    and below 5.0 "Monitor & Advise"; below 1.0 "No Immediate Action".
    This holds for the comparisons as Python makes them, on every integer
    and float, and it holds for the value of the dose, when the dose is an
    integer or a finite binary64 float.  A dose of exactly 5.0 is
    "Shelter-in-Place".  The severity colour is a one-to-one function of
    the four actions: red, orange, yellow, green. *)
Theorem dose_ladder (d : pyval) :
  numeric d = true ->
  (exists a,
     get_action d = Ok (VStr a) /\ In a actions
     /\ (py_ge d EVACUATE_THRESHOLD = Ok true -> a = "Evacuate")
     /\ (py_ge d SHELTER_THRESHOLD = Ok true ->
         py_lt d EVACUATE_THRESHOLD = Ok true -> a = "Shelter-in-Place")
     /\ (py_ge d MONITOR_THRESHOLD = Ok true ->
         py_lt d SHELTER_THRESHOLD = Ok true -> a = "Monitor & Advise")
     /\ (py_lt d MONITOR_THRESHOLD = Ok true -> a = "No Immediate Action")
     /\ (forall q,
           valid_number d = true -> number_value d = Some q ->
           ((10 <= q)%Q -> a = "Evacuate")
           /\ ((5 <= q)%Q -> (q < 10)%Q -> a = "Shelter-in-Place")
           /\ ((1 <= q)%Q -> (q < 5)%Q -> a = "Monitor & Advise")
           /\ ((q < 1)%Q -> a = "No Immediate Action")))
  /\ get_action (VFloat SHELTER_THRESHOLD) = Ok (VStr "Shelter-in-Place")
  /\ float_value SHELTER_THRESHOLD
     = Some (inject_Z 5629499534213120 * 2 ^ (-50))%Q
  /\ (inject_Z 5629499534213120 * 2 ^ (-50) == 5)%Q
  /\ get_color (VStr "Evacuate") = VStr "red"
  /\ get_color (VStr "Shelter-in-Place") = VStr "orange"
  /\ get_color (VStr "Monitor & Advise") = VStr "yellow"
  /\ get_color (VStr "No Immediate Action") = VStr "green"
  /\ (forall a b, In a actions -> In b actions ->
        get_color (VStr a) = get_color (VStr b) -> a = b).
Proof.
  intros Hnum. split; [|repeat split].
  - destruct (ladder_by_comparisons d Hnum)
      as (a & Ha & Hin & C1 & C2 & C3 & C4).
    exists a. repeat (split; [assumption|]).
    intros q Vd Hq. exact (ladder_by_value d q a Vd Hq Ha).
  - intros a b Ha Hb. unfold actions in Ha, Hb. cbn in Ha, Hb.
    destruct Ha as [<-|[<-|[<-|[<-|[]]]]],
             Hb as [<-|[<-|[<-|[<-|[]]]]];
      cbn; intros H; try reflexivity; discriminate H.
Qed.

Lemma dose_ladder_witness :
  numeric (VFloat dose_12_5) = true
  /\ valid_number (VFloat dose_12_5) = true
  /\ get_action (VFloat dose_12_5) = Ok (VStr "Evacuate")
  /\ (forall a, get_action (VFloat dose_12_5) = Ok (VStr a) -> a = "Evacuate").
Proof.
  split; [reflexivity|]. split; [reflexivity|].
  destruct (dose_ladder (VFloat dose_12_5) eq_refl)
    as [(a & Ha & _ & Hev & _ & _ & _ & Hval) _].
  split.
  - rewrite Ha. rewrite (Hev eq_refl). reflexivity.
  - intros a' Ha'. rewrite Ha in Ha'. injection Ha' as <-.
    destruct (Hval _ eq_refl eq_refl) as [H10 _].
    apply H10. vm_compute. discriminate.
Defined.

(** C9. The colour function is total on arbitrary values: every string
    other than "Evacuate", "Shelter-in-Place" and "Monitor & Advise", and
    every value that is not a string, falls to the last branch and is
    tagged green; nothing is raised. *)
Theorem get_color_default (action : pyval) :
  action <> VStr "Evacuate" ->
  action <> VStr "Shelter-in-Place" ->
  action <> VStr "Monitor & Advise" ->
  get_color action = VStr "green".
Proof.
  intros H1 H2 H3. unfold get_color, py_eq_str.
  destruct action as [|s|z|f]; try reflexivity.
  destruct (String.eqb_spec s "Evacuate") as [->|_]; [congruence|].
  destruct (String.eqb_spec s "Shelter-in-Place") as [->|_]; [congruence|].
  destruct (String.eqb_spec s "Monitor & Advise") as [->|_]; [congruence|].
  reflexivity.
Qed.

Lemma get_color_default_witness :
  get_color (VStr "Relocate") = VStr "green".
Proof.
  apply (get_color_default (VStr "Relocate")); discriminate.
Defined.

(** ** The engine on the store *)

Lemma get_action_ok (d : pyval) :
  numeric d = true -> exists a, get_action d = Ok (VStr a).
Proof.
  intros Hnum.
  destruct (get_action_numeric d Hnum) as (b1 & b2 & b3 & H1 & H2 & H3).
  unfold get_action. rewrite H1, H2, H3. cbn [rbind].
  destruct b1, b2, b3; eauto.
Qed.

Lemma apply_get_action_ok (c : list pyval) :
  Forall (fun v => numeric v = true) c ->
  exists acts, Frame.apply get_action c = Ok acts.
Proof.
  induction 1 as [|v c Hv _ [acts IH]]; cbn.
  - eauto.
  - destruct (get_action_ok v Hv) as [a ->]. rewrite IH. eauto.
Qed.

Lemma engine_run_empty (w : world) (df : loc) (d : DataFrame) :
  heap w !! df = Some d -> Frame.empty d = true ->
  recommend_protective_actions df w = (Ok df, w).
Proof.
  intros Hd He. unfold recommend_protective_actions.
  erewrite bind_ok; [|apply load_ok; exact Hd]. rewrite He. reflexivity.
Qed.

Lemma engine_run (w : world) (df : loc) (d : DataFrame)
    (dose acts : list pyval) :
  heap w !! df = Some d -> Frame.empty d = false ->
  Frame.lookup_column "Dose (mSv)" (df_columns d) = Some dose ->
  Frame.apply get_action dose = Ok acts ->
  recommend_protective_actions df w
  = (Ok df, mkWorld (<[df := engine_frame d acts]> (heap w)) (warnings w)).
Proof.
  intros Hd He Hdose Hacts. unfold recommend_protective_actions.
  erewrite bind_ok; [|apply load_ok; exact Hd]. rewrite He.
  unfold Frame.getitem at 1. rewrite Hdose.
  unfold lift at 1. unfold bind at 1.
  rewrite Hacts. unfold lift at 1. unfold bind at 1.
  erewrite bind_ok; [|apply modify_ok; exact Hd].
  erewrite bind_ok; [|apply load_ok; cbn; apply lookup_insert_eq].
  unfold Frame.getitem, Frame.setitem at 1. cbn [df_columns].
  rewrite lookup_set_column_eq.
  unfold lift at 1. unfold bind at 1.
  rewrite apply_total. unfold lift at 1. unfold bind at 1.
  erewrite bind_ok; [|apply modify_ok; cbn; apply lookup_insert_eq].
  cbn. unfold ret. rewrite insert_insert_eq. reflexivity.
Qed.

(** The frames of the TXT and XML parsers are canonical record sets. *)
Lemma with_headers_canonical (data : list zone_row) (i t : pyval) :
  canonical (with_headers data i t).
Proof.
  destruct data as [|r data].
  - split; [|discriminate]. split; cbn.
    + repeat constructor; cbn; intuition discriminate.
    + repeat constructor.
  - split.
    + split; cbn -[length List.map repeat].
      * repeat (apply List.NoDup_cons_iff; split;
                [cbn; intuition discriminate|]).
        constructor.
      * repeat constructor; cbn [snd];
          rewrite ?length_map, ?repeat_length; reflexivity.
    + intros _. eexists. split; [reflexivity|].
      apply List.Forall_forall. intros v Hv.
      apply in_map_iff in Hv as (r0 & <- & _). reflexivity.
Qed.

(** C2. On a canonical record set, whose doses are well-formed numbers,
    the engine does not raise and returns a well-formed record set with
    exactly as many records as it was given: none is filtered out.  An
    empty record set is returned as it is, and nothing else changes
    either. *)
Theorem engine_keeps_every_record (w : world) (df : loc) (d : DataFrame) :
  heap w !! df = Some d ->
  canonical d ->
  exists w' d',
    recommend_protective_actions df w = (Ok df, w')
    /\ heap w' !! df = Some d'
    /\ df_len d' = df_len d
    /\ Frame.wf d'
    /\ (Frame.empty d = true -> w' = w /\ d' = d).
Proof.
  intros Hd [Hwf Hnum]. destruct (Frame.empty d) eqn:He.
  - exists w, d. rewrite (engine_run_empty w df d Hd He).
    repeat split; auto; apply Hwf.
  - destruct (Hnum eq_refl) as (dose & Hdose & Hall).
    destruct (apply_get_action_ok dose Hall) as [acts Hacts].
    eexists _, (engine_frame d acts).
    rewrite (engine_run w df d dose acts Hd He Hdose Hacts).
    split; [reflexivity|]. split; [cbn; apply lookup_insert_eq|].
    split; [reflexivity|]. split; [|discriminate].
    pose proof (apply_length _ _ _ Hacts) as Hlen.
    pose proof (lookup_column_wf _ _ _ Hwf Hdose) as Hlen'.
    unfold engine_frame. apply set_column_wf.
    + apply set_column_wf; [exact Hwf | congruence].
    + rewrite length_map. cbn. congruence.
Qed.

Lemma engine_keeps_every_record_witness :
  exists w' d',
    recommend_protective_actions 0%nat one_zone_world = (Ok 0%nat, w')
    /\ heap w' !! 0%nat = Some d'
    /\ df_len d' = 1%nat.
Proof.
  destruct (engine_keeps_every_record one_zone_world 0%nat one_zone_frame)
    as (w' & d' & H1 & H2 & H3 & _).
  - reflexivity.
  - split; [split|].
    + repeat (apply List.NoDup_cons_iff; split;
              [cbn; intuition discriminate|]).
      constructor.
    + repeat constructor.
    + intros _. eexists. split; [reflexivity|]. repeat constructor.
  - exists w', d'. auto.
Defined.

(** C3, as stated, fails: after the call the record set that was passed
    in is not what it was; it has gained the two derived columns. *)
Lemma engine_mutates_its_input :
  exists w',
    recommend_protective_actions 0%nat one_zone_world = (Ok 0%nat, w')
    /\ heap one_zone_world !! 0%nat = Some one_zone_frame
    /\ heap w' !! 0%nat <> Some one_zone_frame
    /\ Frame.lookup_column "Recommended Action" (df_columns one_zone_frame)
       = None
    /\ (exists d',
          heap w' !! 0%nat = Some d'
          /\ Frame.lookup_column "Recommended Action" (df_columns d')
             = Some [VStr "Evacuate"]).
Proof.
  eexists. split.
  - eapply (engine_run one_zone_world 0%nat one_zone_frame); reflexivity.
  - cbn [heap]. rewrite lookup_insert_eq.
    split; [reflexivity|]. split; [discriminate|].
    split; [reflexivity|]. eexists. split; reflexivity.
Qed.

(** C3, amended. The engine works in place: it returns the very record
    set it was given, after writing the two derived columns into it.  The
    number of records, every other column of that record set, every other
    object of the store and the warnings are left as they were; an empty
    record set is left entirely as it was. *)
Theorem engine_updates_in_place (w : world) (df : loc) (d : DataFrame) :
  heap w !! df = Some d ->
  canonical d ->
  exists d',
    recommend_protective_actions df w
    = (Ok df, mkWorld (<[df := d']> (heap w)) (warnings w))
    /\ df_len d' = df_len d
    /\ (forall key, key <> "Recommended Action" -> key <> "Action Color" ->
          Frame.lookup_column key (df_columns d')
          = Frame.lookup_column key (df_columns d))
    /\ (Frame.empty d = true -> d' = d)
    /\ (Frame.empty d = false ->
        exists dose acts,
          Frame.lookup_column "Dose (mSv)" (df_columns d) = Some dose
          /\ Frame.apply get_action dose = Ok acts
          /\ Frame.lookup_column "Recommended Action" (df_columns d')
             = Some acts
          /\ Frame.lookup_column "Action Color" (df_columns d')
             = Some (List.map get_color acts)).
Proof.
  intros Hd [_ Hnum]. destruct (Frame.empty d) eqn:He.
  - exists d. rewrite (engine_run_empty w df d Hd He).
    rewrite (insert_id _ _ _ Hd), world_eta.
    repeat split; try reflexivity. discriminate.
  - destruct (Hnum eq_refl) as (dose & Hdose & Hall).
    destruct (apply_get_action_ok dose Hall) as [acts Hacts].
    exists (engine_frame d acts).
    rewrite (engine_run w df d dose acts Hd He Hdose Hacts).
    split; [reflexivity|]. split; [reflexivity|]. split; [|split].
    + intros key K1 K2. unfold engine_frame, Frame.setitem. cbn [df_columns].
      rewrite !lookup_set_column_ne by assumption. reflexivity.
    + discriminate.
    + intros _. exists dose, acts.
      split; [exact Hdose|]. split; [exact Hacts|].
      unfold engine_frame, Frame.setitem. cbn [df_columns]. split.
      * rewrite lookup_set_column_ne by discriminate.
        apply lookup_set_column_eq.
      * apply lookup_set_column_eq.
Qed.

Lemma engine_updates_in_place_witness :
  exists d',
    recommend_protective_actions 0%nat one_zone_world
    = (Ok 0%nat, mkWorld (<[0%nat := d']> (heap one_zone_world)) [])
    /\ Frame.lookup_column "Zone" (df_columns d') = Some [VStr "Zone A"].
Proof.
  destruct (engine_updates_in_place one_zone_world 0%nat one_zone_frame)
    as (d' & H1 & _ & H3 & _).
  - reflexivity.
  - split; [split|].
    + repeat (apply List.NoDup_cons_iff; split;
              [cbn; intuition discriminate|]).
      constructor.
    + repeat constructor.
    + intros _. eexists. split; [reflexivity|]. repeat constructor.
  - exists d'. split; [exact H1|].
    rewrite H3 by discriminate. reflexivity.
Defined.

(** ** Incident and time stamp of a parsed record set *)

Lemma repeat_lookup {A} (v : A) (n k : nat) :
  (k < n)%nat -> repeat v n !! k = Some v.
Proof.
  revert k. induction n as [|n IH]; intros k Hk; [lia|].
  destruct k as [|k]; cbn; [reflexivity|]. apply IH. lia.
Qed.

Lemma with_headers_len (data : list zone_row) (i t : pyval) :
  df_len (with_headers data i t) = length data.
Proof. unfold with_headers. cbn. apply frame_of_rows_len. Qed.

Lemma with_headers_incident (data : list zone_row) (i t : pyval) :
  Frame.lookup_column "Incident" (df_columns (with_headers data i t))
  = Some (repeat i (length data)).
Proof. destruct data; reflexivity. Qed.

Lemma with_headers_timestamp (data : list zone_row) (i t : pyval) :
  Frame.lookup_column "Timestamp" (df_columns (with_headers data i t))
  = Some (repeat t (length data)).
Proof. destruct data; reflexivity. Qed.

Lemma with_headers_one_incident (data : list zone_row) (i t : pyval) :
  one_incident (with_headers data i t).
Proof.
  right. split; [exists i | exists t]; intros k Hk;
    rewrite with_headers_len in Hk; unfold Frame.cell.
  - rewrite with_headers_incident. apply repeat_lookup. exact Hk.
  - rewrite with_headers_timestamp. apply repeat_lookup. exact Hk.
Qed.

Lemma map_lookup_Some {A B} (f : A -> B) (l : list A) (k : nat) (a : A) :
  l !! k = Some a -> List.map f l !! k = Some (f a).
Proof.
  revert k. induction l as [|x l IH]; intros k; [discriminate|].
  destruct k as [|k]; cbn.
  - intros [= ->]. reflexivity.
  - apply IH.
Qed.

Lemma with_headers_rows (data : list zone_row) (i t : pyval) :
  rows_in_order (with_headers data i t) data.
Proof.
  split; [apply with_headers_len|].
  intros k r Hk. destruct data as [|r0 data]; [discriminate Hk|].
  unfold carries, Frame.cell.
  repeat split; cbn -[lookup List.map];
    exact (map_lookup_Some _ _ _ _ Hk).
Qed.

Lemma txt_frame_with_headers (hdr : string * string) (ls : list string) :
  txt_frame hdr ls
  = with_headers (omap txt_line_row ls) (VStr (fst hdr)) (VStr (snd hdr)).
Proof. reflexivity. Qed.

Lemma xml_frame_with_headers (root : element) :
  xml_frame root
  = with_headers (omap xml_elem_row (ET.findall_descendants root "Zone"))
      (xml_incident root) (xml_timestamp root).
Proof. reflexivity. Qed.

Lemma parse_xml_ok (fromstring : string -> result element)
    (file_content : string) (root : element) (w : world) :
  fromstring file_content = Ok root ->
  parse_xml fromstring file_content w = parse_xml_root root w.
Proof. intros H. unfold parse_xml, bind, lift. rewrite H. reflexivity. Qed.

Lemma find_no_child (root : element) (t : string) :
  Forall (fun c => ET.tag c <> t) (ET.children root) ->
  ET.find root t = None.
Proof.
  unfold ET.find. induction 1 as [|c cs Hc _ IH]; cbn; [reflexivity|].
  destruct (String.eqb_spec (ET.tag c) t); [contradiction | exact IH].
Qed.

Lemma header_step_incident (st : string * string) (line : string) :
  PyStr.contains "Incident:" line = true ->
  exists v,
    PyStr.split line "Incident:" !! 1%nat = Some v
    /\ header_step st line = Ok (PyStr.strip v, snd st).
Proof.
  intros Hi. destruct st as [i t]. unfold header_step. rewrite Hi.
  destruct (list_getitem_split "Incident:" line) as (v & Hv & Hg);
    [discriminate | exact Hi |].
  exists v. rewrite Hg. split; [exact Hv | reflexivity].
Qed.

Lemma header_step_timestamp (st : string * string) (line : string) :
  sets_timestamp line = true ->
  exists v,
    PyStr.split line "Timestamp:" !! 1%nat = Some v
    /\ header_step st line = Ok (fst st, PyStr.strip v).
Proof.
  unfold sets_timestamp. intros H. apply andb_true_iff in H as [Hi Ht].
  apply negb_true_iff in Hi.
  destruct st as [i t]. unfold header_step. rewrite Hi, Ht.
  destruct (list_getitem_split "Timestamp:" line) as (v & Hv & Hg);
    [discriminate | exact Ht |].
  exists v. rewrite Hg. split; [exact Hv | reflexivity].
Qed.

(** C6. Missing-header defaults.  The TXT parser always returns and
    attaches to every record the incident name and time stamp of its header
    scan; when no header line contains "Incident:" the incident name is the
    empty string, and when none contains "Timestamp:" the time stamp is the
    empty string.  The XML parser, on a document whose root has no
    [Incident] child, attaches the string "N/A" as incident name and as
    time stamp.  The two defaults are different strings. *)
Theorem missing_header_defaults :
  (forall file_content w,
     let header_lines :=
       List.filter is_header_line (txt_lines file_content) in
     exists df d ws hdr,
       parse_txt file_content w
       = (Ok df, mkWorld (<[df := d]> (heap w)) (warnings w ++ ws))
       /\ scan_headers ("", "") header_lines = Ok hdr
       /\ Frame.lookup_column "Incident" (df_columns d)
          = Some (repeat (VStr (fst hdr)) (df_len d))
       /\ Frame.lookup_column "Timestamp" (df_columns d)
          = Some (repeat (VStr (snd hdr)) (df_len d))
       /\ (Forall (fun l => PyStr.contains "Incident:" l = false)
             header_lines -> fst hdr = "")
       /\ (Forall (fun l => PyStr.contains "Timestamp:" l = false)
             header_lines -> snd hdr = ""))
  /\ (forall (fromstring : string -> result element) file_content root w,
        fromstring file_content = Ok root ->
        Forall (fun c => ET.tag c <> "Incident") (ET.children root) ->
        exists df d ws,
          parse_xml fromstring file_content w
          = (Ok df, mkWorld (<[df := d]> (heap w)) (warnings w ++ ws))
          /\ Frame.lookup_column "Incident" (df_columns d)
             = Some (repeat (VStr "N/A") (df_len d))
          /\ Frame.lookup_column "Timestamp" (df_columns d)
             = Some (repeat (VStr "N/A") (df_len d)))
  /\ VStr "" <> VStr "N/A".
Proof.
  split; [|split; [|discriminate]].
  - intros file_content w header_lines.
    destruct (parse_txt_run file_content w) as (hdr & Hhdr & Hrun).
    eexists _, _, _, hdr. split; [exact Hrun|]. split; [exact Hhdr|].
    rewrite txt_frame_with_headers, with_headers_len.
    split; [apply with_headers_incident|].
    split; [apply with_headers_timestamp|].
    destruct hdr as [i t]. split; intros Hno.
    + exact (scan_headers_keep_incident _ Hno _ _ _ _ Hhdr).
    + refine (scan_headers_keep_timestamp _ _ _ _ _ _ Hhdr).
      eapply Forall_impl; [exact Hno|]. cbn. intros l Hl.
      unfold sets_timestamp. rewrite Hl. apply andb_false_r.
  - intros fromstring file_content root w Hroot Hno.
    rewrite (parse_xml_ok _ _ _ _ Hroot), parse_xml_root_run.
    eexists _, _, _. split; [reflexivity|].
    rewrite xml_frame_with_headers, with_headers_len.
    unfold xml_incident, xml_timestamp.
    rewrite (find_no_child _ _ Hno).
    split; [apply with_headers_incident | apply with_headers_timestamp].
Qed.

Lemma missing_header_defaults_witness :
  (exists df d ws,
     parse_xml (fun _ => Ok doc_without_incident) "" world0
     = (Ok df, mkWorld (<[df := d]> ∅) ([] ++ ws))
     /\ Frame.lookup_column "Incident" (df_columns d)
        = Some (repeat (VStr "N/A") (df_len d))
     /\ Frame.lookup_column "Timestamp" (df_columns d)
        = Some (repeat (VStr "N/A") (df_len d))).
Proof.
  destruct missing_header_defaults as (_ & Hxml & _).
  apply (Hxml (fun _ => Ok doc_without_incident) "" doc_without_incident
           world0).
  - reflexivity.
  - repeat constructor; discriminate.
Defined.

(** C7, as stated, fails for the CSV parser: two rows of one file may
    name different incidents, and the parser returns them as they are. *)
Lemma csv_records_differ_in_incident :
  exists df w d,
    parse_csv Csv.read_csv_plain csv_two_incidents world0 = (Ok df, w)
    /\ heap w !! df = Some d
    /\ Frame.cell d "Incident" 0 = Some (VStr "Alpha")
    /\ Frame.cell d "Incident" 1 = Some (VStr "Beta")
    /\ ~ one_incident d.
Proof.
  eexists _, _, _. split; [vm_compute; reflexivity|].
  split; [vm_compute; reflexivity|].
  split; [reflexivity|]. split; [reflexivity|].
  intros [Hlen | [[v Hv] _]].
  - discriminate Hlen.
  - pose proof (Hv 0%nat ltac:(cbn; lia)) as H0.
    pose proof (Hv 1%nat ltac:(cbn; lia)) as H1.
    cbv in H0, H1. congruence.
Qed.

(** C7, amended. For every input the TXT parser, and for every document
    that could be read the XML parser, returns a record set that is empty
    or whose records share one incident and one time stamp, and whose
    records are the accepted data lines, respectively [Zone] elements, in
    their order in the input.  The CSV parser attaches no incident or time
    stamp: for every text that could be decoded it returns the decoded
    table with its column names trimmed, the rows and their order
    unchanged. *)
Theorem parsers_share_incident_and_keep_order
    (fromstring : string -> result element)
    (read_csv : string -> result DataFrame) :
  (forall file_content w,
     exists df d ws,
       parse_txt file_content w
       = (Ok df, mkWorld (<[df := d]> (heap w)) (warnings w ++ ws))
       /\ one_incident d
       /\ rows_in_order d
            (omap txt_line_row
               (List.filter is_data_line (txt_lines file_content))))
  /\ (forall file_content root w,
        fromstring file_content = Ok root ->
        exists df d ws,
          parse_xml fromstring file_content w
          = (Ok df, mkWorld (<[df := d]> (heap w)) (warnings w ++ ws))
          /\ one_incident d
          /\ rows_in_order d
               (omap xml_elem_row (ET.findall_descendants root "Zone")))
  /\ (forall file_content d0 w,
        read_csv file_content = Ok d0 ->
        exists df d,
          parse_csv read_csv file_content w
          = (Ok df, mkWorld (<[df := d]> (heap w)) (warnings w))
          /\ df_len d = df_len d0
          /\ List.map snd (df_columns d) = List.map snd (df_columns d0)
          /\ List.map fst (df_columns d)
             = List.map PyStr.strip (List.map fst (df_columns d0))).
Proof.
  split; [|split].
  - intros file_content w.
    destruct (parse_txt_run file_content w) as (hdr & _ & Hrun).
    eexists _, _, _. split; [exact Hrun|].
    rewrite txt_frame_with_headers.
    split; [apply with_headers_one_incident | apply with_headers_rows].
  - intros file_content root w Hroot.
    rewrite (parse_xml_ok _ _ _ _ Hroot), parse_xml_root_run.
    eexists _, _, _. split; [reflexivity|].
    rewrite xml_frame_with_headers.
    split; [apply with_headers_one_incident | apply with_headers_rows].
  - intros file_content d0 w Hd0.
    exists (fresh (dom (heap w))), (Frame.rename_columns PyStr.strip d0).
    split.
    + unfold parse_csv. unfold bind at 1. unfold lift. rewrite Hd0.
      unfold bind at 1. unfold alloc.
      erewrite bind_ok; [|apply modify_ok; cbn; apply lookup_insert_eq].
      cbn. unfold ret. rewrite insert_insert_eq. reflexivity.
    + unfold Frame.rename_columns. cbn [df_len df_columns].
      split; [reflexivity|]. rewrite !List.map_map. cbn. split; reflexivity.
Qed.

Lemma parsers_share_incident_and_keep_order_witness :
  (exists df d,
     parse_csv Csv.read_csv_plain csv_two_incidents world0
     = (Ok df, mkWorld (<[df := d]> ∅) [])
     /\ df_len d = 2%nat)
  /\ (exists df d ws,
        parse_xml (fun _ => Ok doc_without_incident) "" world0
        = (Ok df, mkWorld (<[df := d]> ∅) ([] ++ ws))
        /\ one_incident d).
Proof.
  destruct (parsers_share_incident_and_keep_order
              (fun _ => Ok doc_without_incident) Csv.read_csv_plain)
    as (_ & Hxml & Hcsv).
  split.
  - destruct (Hcsv csv_two_incidents _ world0 eq_refl)
      as (df & d & H1 & H2 & _).
    exists df, d. split; [exact H1 | exact H2].
  - destruct (Hxml "" doc_without_incident world0 eq_refl)
      as (df & d & ws & H1 & H2 & _).
    exists df, d, ws. split; [exact H1 | exact H2].
Defined.

(** C8. On the scenario input the TXT parser followed by the engine
    yields exactly one record and no warning; its dose is the float that
    "12.5" denotes, whose value is 25/2, its recommended action is
    "Evacuate" and its colour is "red". *)
Theorem scenario1_evacuate :
  exists df w d,
    bind (parse_txt scenario1_txt) recommend_protective_actions world0
    = (Ok df, w)
    /\ heap w !! df = Some d
    /\ warnings w = []
    /\ df_len d = 1%nat
    /\ Frame.cell d "Dose (mSv)" 0 = Some (VFloat dose_12_5)
    /\ PyFloat.of_string "12.5" = Some dose_12_5
    /\ (exists q, float_value dose_12_5 = Some q /\ (q == 25 # 2)%Q)
    /\ Frame.cell d "Recommended Action" 0 = Some (VStr "Evacuate")
    /\ Frame.cell d "Action Color" 0 = Some (VStr "red")
    /\ Frame.cell d "Zone" 0 = Some (VStr "Zone A")
    /\ Frame.cell d "Incident" 0 = Some (VStr "Test1")
    /\ Frame.cell d "Timestamp" 0 = Some (VStr "2024-01-01 00:00:00").
Proof.
  eexists _, _, _. split; [vm_compute; reflexivity|].
  split; [vm_compute; reflexivity|].
  repeat split. eexists. split; reflexivity.
Qed.

(** C10, as stated, fails for the time stamp: of two header lines that
    contain "Timestamp:", the last does not give the time stamp when it
    also contains "Incident:".  Here the last line with the key holds
    "T2 Incident: X" after it, and the records get the time stamp "T1" of
    the line before, and the incident name "X". *)
Lemma last_timestamp_line_does_not_win :
  txt_lines txt_two_timestamps
  = ["Timestamp: T1"; "Timestamp: T2 Incident: X";
     "Zone A;12.5;I-131;5.0;-33.586;18.402"]
  /\ PyStr.contains "Timestamp:" "Timestamp: T1" = true
  /\ PyStr.contains "Timestamp:" "Timestamp: T2 Incident: X" = true
  /\ list_getitem (PyStr.split "Timestamp: T2 Incident: X" "Timestamp:") 1
     = Ok " T2 Incident: X"
  /\ scan_headers ("", "") ["Timestamp: T1"; "Timestamp: T2 Incident: X"]
     = Ok ("X", "T1")
  /\ exists df w d,
       parse_txt txt_two_timestamps world0 = (Ok df, w)
       /\ heap w !! df = Some d
       /\ df_len d = 1%nat
       /\ Frame.cell d "Timestamp" 0 = Some (VStr "T1")
       /\ Frame.cell d "Timestamp" 0 <> Some (VStr "T2 Incident: X")
       /\ Frame.cell d "Incident" 0 = Some (VStr "X").
Proof.
  repeat (split; [reflexivity|]).
  eexists _, _, _. split; [vm_compute; reflexivity|].
  split; [vm_compute; reflexivity|].
  repeat split. discriminate.
Qed.

(** C10. The header scan tests the two keys with an exclusive if/elif:
    a line that contains both "Incident:" and "Timestamp:" sets the
    incident name only and leaves the time stamp as it was.  When several
    header lines contain "Incident:", the last of them gives the incident
    name; the time stamp comes from the last line that assigns it, a line
    with "Timestamp:" and without "Incident:".  The values so found are
    the ones the parser attaches to the records. *)
Theorem header_scan_exclusive_last_wins :
  (forall st line,
     PyStr.contains "Incident:" line = true ->
     PyStr.contains "Timestamp:" line = true ->
     exists v,
       PyStr.split line "Incident:" !! 1%nat = Some v
       /\ header_step st line = Ok (PyStr.strip v, snd st))
  /\ (forall st before line after,
        PyStr.contains "Incident:" line = true ->
        Forall (fun l => PyStr.contains "Incident:" l = false) after ->
        exists v hdr,
          PyStr.split line "Incident:" !! 1%nat = Some v
          /\ scan_headers st (before ++ line :: after) = Ok hdr
          /\ fst hdr = PyStr.strip v)
  /\ (forall st before line after,
        sets_timestamp line = true ->
        Forall (fun l => sets_timestamp l = false) after ->
        exists v hdr,
          PyStr.split line "Timestamp:" !! 1%nat = Some v
          /\ scan_headers st (before ++ line :: after) = Ok hdr
          /\ snd hdr = PyStr.strip v)
  /\ (forall file_content w,
        exists df d ws hdr,
          parse_txt file_content w
          = (Ok df, mkWorld (<[df := d]> (heap w)) (warnings w ++ ws))
          /\ scan_headers ("", "")
               (List.filter is_header_line (txt_lines file_content))
             = Ok hdr
          /\ Frame.lookup_column "Incident" (df_columns d)
             = Some (repeat (VStr (fst hdr)) (df_len d))
          /\ Frame.lookup_column "Timestamp" (df_columns d)
             = Some (repeat (VStr (snd hdr)) (df_len d))).
Proof.
  split; [|split; [|split]].
  - intros st line Hi _. apply header_step_incident. exact Hi.
  - intros st before line after Hi Hafter.
    destruct (scan_headers_ok before st) as [st1 H1].
    destruct (header_step_incident st1 line Hi) as (v & Hv & Hstep).
    destruct (scan_headers_ok after (PyStr.strip v, snd st1)) as [hdr H2].
    exists v, hdr. split; [exact Hv|].
    rewrite (scan_headers_app _ _ _ _ H1). cbn [scan_headers].
    rewrite Hstep. cbn [rbind]. split; [exact H2|].
    destruct hdr as [i t].
    exact (scan_headers_keep_incident _ Hafter _ _ _ _ H2).
  - intros st before line after Ht Hafter.
    destruct (scan_headers_ok before st) as [st1 H1].
    destruct (header_step_timestamp st1 line Ht) as (v & Hv & Hstep).
    destruct (scan_headers_ok after (fst st1, PyStr.strip v)) as [hdr H2].
    exists v, hdr. split; [exact Hv|].
    rewrite (scan_headers_app _ _ _ _ H1). cbn [scan_headers].
    rewrite Hstep. cbn [rbind]. split; [exact H2|].
    destruct hdr as [i t].
    exact (scan_headers_keep_timestamp _ Hafter _ _ _ _ H2).
  - intros file_content w.
    destruct (parse_txt_run file_content w) as (hdr & Hhdr & Hrun).
    eexists _, _, _, hdr. split; [exact Hrun|]. split; [exact Hhdr|].
    rewrite txt_frame_with_headers, with_headers_len.
    split; [apply with_headers_incident | apply with_headers_timestamp].
Qed.

Lemma header_scan_exclusive_last_wins_witness :
  header_step ("", "old") "Incident: A Timestamp: now"
  = Ok ("A Timestamp: now", "old")
  /\ (exists hdr,
        scan_headers ("", "")
          (["Incident: first"] ++ "Incident: second" :: ["Timestamp: t"])
        = Ok hdr
        /\ fst hdr = "second").
Proof.
  destruct header_scan_exclusive_last_wins as (Hboth & Hlast & _).
  split.
  - destruct (Hboth ("", "old") "Incident: A Timestamp: now" eq_refl eq_refl)
      as (v & Hv & Hstep).
    injection Hv as <-. exact Hstep.
  - destruct (Hlast ("", "") ["Incident: first"] "Incident: second"
                ["Timestamp: t"] eq_refl)
      as (v & hdr & Hv & Hscan & Hfst).
    + repeat constructor.
    + exists hdr. split; [exact Hscan|].
      injection Hv as <-. exact Hfst.
Defined.

Lemma txt_line_one_record_or_one_warning_witness :
  (exists r,
     txt_data_step [] "Zone A;12.5;I-131;5.0;-33.586;18.402" world0
     = (Ok ([] ++ [r]), world0))
  /\ (exists m,
        txt_data_step [] "Zone B;high;I-131;5.0;-33.586;18.402" world0
        = (Ok [], mkWorld (heap world0) (warnings world0 ++ [m]))).
Proof.
  split.
  - destruct (txt_line_one_record_or_one_warning
                "Zone A;12.5;I-131;5.0;-33.586;18.402" eq_refl) as [H _].
    exact (H [] world0).
  - destruct (txt_line_one_record_or_one_warning
                "Zone B;high;I-131;5.0;-33.586;18.402" eq_refl) as [H _].
    exact (H [] world0).
Defined.

(** * Further properties of the engine *)

Lemma set_column_same (key : string) (c : list pyval)
    (cols : list (string * list pyval)) :
  Frame.lookup_column key cols = Some c -> Frame.set_column key c cols = cols.
Proof.
  induction cols as [|[k c0] cols IH]; cbn; [discriminate|].
  destruct (String.eqb k key) eqn:E.
  - intros [= ->]. reflexivity.
  - intros H. now rewrite IH.
Qed.

Lemma set_column_not_nil (key : string) (c : list pyval)
    (cols : list (string * list pyval)) :
  Frame.set_column key c cols <> [].
Proof.
  destruct cols as [|[k c0] cols]; cbn; [discriminate|].
  destruct (String.eqb k key); discriminate.
Qed.

Lemma setitem_not_empty (d : DataFrame) (key : string) (c : list pyval) :
  Frame.empty d = false -> Frame.empty (Frame.setitem d key c) = false.
Proof.
  unfold Frame.empty, Frame.setitem. cbn.
  intros H. apply orb_false_iff in H as [H1 _]. rewrite H1. cbn.
  destruct (Frame.set_column key c (df_columns d)) eqn:E; [|reflexivity].
  now apply set_column_not_nil in E.
Qed.

Lemma engine_frame_fixed (d : DataFrame) (acts : list pyval) :
  engine_frame (engine_frame d acts) acts = engine_frame d acts.
Proof.
  unfold engine_frame at 1.
  assert (H1 : Frame.setitem (engine_frame d acts) "Recommended Action" acts
               = engine_frame d acts).
  { unfold Frame.setitem. destruct (engine_frame d acts) as [n cols] eqn:E.
    cbn. f_equal. apply set_column_same.
    change cols with (df_columns (mkDataFrame n cols)). rewrite <- E.
    unfold engine_frame, Frame.setitem. cbn.
    rewrite lookup_set_column_ne by discriminate.
    apply lookup_set_column_eq. }
  rewrite H1.
  unfold Frame.setitem. destruct (engine_frame d acts) as [n cols] eqn:E.
  cbn. f_equal. apply set_column_same.
  change cols with (df_columns (mkDataFrame n cols)). rewrite <- E.
  unfold engine_frame, Frame.setitem. cbn.
  apply lookup_set_column_eq.
Qed.

Lemma get_action_raises (v : pyval) (e : exn) :
  get_action v = Raise e -> e = TypeError /\ numeric v = false.
Proof.
  destruct v; cbn; try (intros [= <-]; auto).
  - unfold get_action. cbn.
    repeat match goal with
    | |- context [if ?b then _ else _] => destruct b; cbn
    end; discriminate.
  - unfold get_action. cbn.
    repeat match goal with
    | |- context [if ?b then _ else _] => destruct b; cbn
    end; discriminate.
Qed.

Lemma apply_get_action_raises (c : list pyval) (e : exn) :
  Frame.apply get_action c = Raise e ->
  e = TypeError /\ Exists (fun v => numeric v = false) c.
Proof.
  induction c as [|v c IH]; cbn; [discriminate|].
  destruct (get_action v) eqn:Ev.
  - destruct (Frame.apply get_action c); [discriminate|].
    intros [= <-]. destruct (IH eq_refl) as [-> H]. auto.
  - intros [= <-]. apply get_action_raises in Ev as [-> Hv]. auto.
Qed.

Lemma apply_get_action_not_numeric (c : list pyval) :
  Exists (fun v => numeric v = false) c ->
  Frame.apply get_action c = Raise TypeError.
Proof.
  induction c as [|v c IH]; intros H.
  - inversion H.
  - cbn. destruct (numeric v) eqn:Ev.
    + destruct (get_action_ok v Ev) as [a ->].
      inversion H as [? ? Hv|? ? Hc]; subst; [congruence|].
      now rewrite IH.
    + destruct v; try discriminate; reflexivity.
Qed.

(** What a run of the engine can be. *)
Lemma engine_run_cases (w : world) (df : loc) (d : DataFrame) :
  heap w !! df = Some d ->
  (Frame.empty d = true /\ recommend_protective_actions df w = (Ok df, w))
  \/ (Frame.empty d = false
      /\ Frame.lookup_column "Dose (mSv)" (df_columns d) = None
      /\ recommend_protective_actions df w
         = (Raise (KeyError "Dose (mSv)"), w))
  \/ (Frame.empty d = false
      /\ exists dose,
           Frame.lookup_column "Dose (mSv)" (df_columns d) = Some dose
           /\ ((Exists (fun v => numeric v = false) dose
                /\ recommend_protective_actions df w = (Raise TypeError, w))
               \/ (exists acts,
                     Frame.apply get_action dose = Ok acts
                     /\ recommend_protective_actions df w
                        = (Ok df,
                           mkWorld (<[df := engine_frame d acts]> (heap w))
                             (warnings w))))).
Proof.
  intros Hd.
  destruct (Frame.empty d) eqn:Ee.
  { left. split; [reflexivity|]. now apply engine_run_empty with d. }
  right.
  destruct (Frame.lookup_column "Dose (mSv)" (df_columns d)) as [dose|] eqn:El.
  - right. split; [reflexivity|]. exists dose. split; [reflexivity|].
    destruct (Frame.apply get_action dose) as [acts|e] eqn:Ea.
    + right. exists acts. split; [reflexivity|].
      now apply engine_run with dose.
    + left. apply apply_get_action_raises in Ea as Hx.
      destruct Hx as [-> Hx]. split; [exact Hx|].
      unfold recommend_protective_actions.
      rewrite (bind_ok _ _ _ _ _ (load_ok _ _ _ Hd)). rewrite Ee.
      unfold bind, lift, Frame.getitem. rewrite El. now rewrite Ea.
  - left. split; [reflexivity|]. split; [reflexivity|].
    unfold recommend_protective_actions.
    rewrite (bind_ok _ _ _ _ _ (load_ok _ _ _ Hd)). rewrite Ee.
    unfold bind, lift, Frame.getitem. now rewrite El.
Qed.

(** X1. Running the engine on a record set it has already processed
    changes nothing.  For a record set whose labels are distinct and whose
    columns have one value per row: whenever a run of the engine returns,
    it returns the object it was given, the record set is still of that
    kind, and a second run on that object returns it again and leaves the
    whole store as the first run left it. *)
Theorem engine_twice_is_once (w w1 : world) (df r : loc) (d : DataFrame) :
  heap w !! df = Some d ->
  Frame.wf d ->
  recommend_protective_actions df w = (Ok r, w1) ->
  r = df
  /\ (exists d1, heap w1 !! df = Some d1 /\ Frame.wf d1)
  /\ recommend_protective_actions df w1 = (Ok df, w1).
Proof.
  intros Hd Hwf Hrun.
  destruct (engine_run_cases w df d Hd)
    as [[Ee H]|[(Ee & El & H)|(Ee & dose & El & [[Hx H]|(acts & Ea & H)])]];
    rewrite H in Hrun; try discriminate.
  - injection Hrun as <- <-. split; [reflexivity|].
    split; [now exists d|]. exact H.
  - injection Hrun as <- <-. split; [reflexivity|].
    split.
    { exists (engine_frame d acts). split; [cbn; apply lookup_insert_eq|].
      unfold engine_frame.
      assert (Hl : length acts = df_len d).
      { rewrite (apply_length _ _ _ Ea).
        now apply lookup_column_wf with "Dose (mSv)". }
      apply set_column_wf; [now apply set_column_wf|].
      cbn. now rewrite length_map. }
    rewrite (engine_run _ df (engine_frame d acts) dose acts).
    + cbn. rewrite insert_insert_eq. now rewrite engine_frame_fixed.
    + cbn. apply lookup_insert_eq.
    + unfold engine_frame. now do 2 apply setitem_not_empty.
    + unfold engine_frame, Frame.setitem. cbn.
      now rewrite !lookup_set_column_ne by discriminate.
    + exact Ea.
Qed.

Lemma engine_twice_is_once_witness :
  exists w1,
    recommend_protective_actions 0%nat one_zone_world = (Ok 0%nat, w1)
    /\ recommend_protective_actions 0%nat w1 = (Ok 0%nat, w1).
Proof.
  exists (snd (recommend_protective_actions 0%nat one_zone_world)).
  assert (H : recommend_protective_actions 0%nat one_zone_world
              = (Ok 0%nat,
                 snd (recommend_protective_actions 0%nat one_zone_world)))
    by reflexivity.
  split; [exact H|].
  refine (proj2 (proj2 (engine_twice_is_once one_zone_world _ 0%nat _
                          one_zone_frame eq_refl _ H))).
  split.
  - repeat (apply List.NoDup_cons_iff; split;
              [cbn; intuition discriminate|]).
      constructor.
  - repeat constructor.
Defined.

(** X2. The engine fails before it writes.  On a record set whose labels
    are distinct and whose columns have one value per row, a run that
    raises leaves the store exactly as it was, and it raises in two cases
    only, both on a record set that is not empty: [KeyError] when the
    record set has no dose column, and [TypeError] when some dose is not a
    number.  In both cases it does raise. *)
Theorem engine_fails_before_it_writes (w : world) (df : loc)
    (d : DataFrame) :
  heap w !! df = Some d ->
  Frame.wf d ->
  (forall e w',
     recommend_protective_actions df w = (Raise e, w') ->
     w' = w /\ Frame.empty d = false
     /\ ((e = KeyError "Dose (mSv)"
          /\ Frame.lookup_column "Dose (mSv)" (df_columns d) = None)
         \/ (e = TypeError
             /\ exists dose,
                  Frame.lookup_column "Dose (mSv)" (df_columns d) = Some dose
                  /\ Exists (fun v => numeric v = false) dose)))
  /\ (Frame.empty d = false ->
      Frame.lookup_column "Dose (mSv)" (df_columns d) = None ->
      recommend_protective_actions df w = (Raise (KeyError "Dose (mSv)"), w))
  /\ (forall dose,
        Frame.empty d = false ->
        Frame.lookup_column "Dose (mSv)" (df_columns d) = Some dose ->
        Exists (fun v => numeric v = false) dose ->
        recommend_protective_actions df w = (Raise TypeError, w)).
Proof.
  intros Hd _.
  destruct (engine_run_cases w df d Hd)
    as [[Ee H]|[(Ee & El & H)|(Ee & dose & El & [[Hx H]|(acts & Ea & H)])]].
  - split; [|split]; congruence.
  - split; [|split].
    + intros e w' Hr. rewrite H in Hr. injection Hr as <- <-.
      repeat split; auto.
    + intros _ _. exact H.
    + intros dose _ El'. congruence.
  - split; [|split].
    + intros e w' Hr. rewrite H in Hr. injection Hr as <- <-.
      split; [reflexivity|]. split; [exact Ee|]. right.
      split; [reflexivity|]. now exists dose.
    + congruence.
    + intros dose' _ El' _. exact H.
  - split; [|split].
    + intros e w' Hr. rewrite H in Hr. discriminate.
    + congruence.
    + intros dose' _ El' Hx. rewrite El in El'. injection El' as <-.
      apply apply_get_action_not_numeric in Hx. congruence.
Qed.

Lemma engine_fails_before_it_writes_witness :
  recommend_protective_actions 0%nat world_without_dose
  = (Raise (KeyError "Dose (mSv)"), world_without_dose).
Proof.
  refine (proj1 (proj2 (engine_fails_before_it_writes world_without_dose
                          0%nat frame_without_dose eq_refl _))
            eq_refl eq_refl).
  split.
  - repeat (apply List.NoDup_cons_iff; split;
            [cbn; intuition discriminate|]).
    constructor.
  - repeat constructor.
Defined.

(** X3. The ladder is monotone: of two numeric doses, the one with the
    larger value never gets the less severe action.  Severity ranks
    Evacuate above Shelter-in-Place above Monitor & Advise above No
    Immediate Action. *)
Theorem severity_monotone (d1 d2 : pyval) (q1 q2 : Q) :
  valid_number d1 = true -> valid_number d2 = true ->
  number_value d1 = Some q1 -> number_value d2 = Some q2 ->
  (q1 <= q2)%Q ->
  exists a1 a2,
    get_action d1 = Ok a1 /\ get_action d2 = Ok a2
    /\ (severity a1 <= severity a2)%nat.
Proof.
  intros V1 V2 N1 N2 Hq.
  rewrite (get_action_by_value d1 q1 V1 N1).
  rewrite (get_action_by_value d2 q2 V2 N2).
  do 2 eexists. split; [reflexivity|]. split; [reflexivity|].
  destruct (Qle_bool 10 q1) eqn:A1; destruct (Qle_bool 5 q1) eqn:B1;
    destruct (Qle_bool 1 q1) eqn:C1;
    destruct (Qle_bool 10 q2) eqn:A2; destruct (Qle_bool 5 q2) eqn:B2;
    destruct (Qle_bool 1 q2) eqn:C2; cbn; try lia;
    repeat match goal with
    | H : Qle_bool _ _ = true |- _ => apply Qle_bool_iff in H
    | H : Qle_bool _ _ = false |- _ =>
        apply not_true_iff_false in H; rewrite Qle_bool_iff in H
    end; exfalso; lra.
Qed.

Lemma severity_monotone_witness :
  exists a1 a2,
    get_action (VInt 3) = Ok a1 /\ get_action (VFloat dose_12_5) = Ok a2
    /\ (severity a1 <= severity a2)%nat.
Proof.
  apply (severity_monotone (VInt 3) (VFloat dose_12_5)
           (inject_Z 3) (inject_Z 7036874417766400 * 2 ^ (-49))%Q);
    try reflexivity.
  vm_compute. discriminate.
Defined.

(** * From an upload to the recommended actions *)

Lemma apply_lookup (f : pyval -> result pyval) (c : list pyval) :
  forall r k v,
    Frame.apply f c = Ok r -> c !! k = Some v ->
    exists a, f v = Ok a /\ r !! k = Some a.
Proof.
  induction c as [|x c IH]; intros r k v; cbn; [intros _ H; inversion H|].
  destruct (f x) as [a|] eqn:Ex; [|discriminate].
  destruct (Frame.apply f c) as [r'|] eqn:Er; [|discriminate].
  intros [= <-]. destruct k as [|k]; cbn.
  - intros [= <-]. now exists a.
  - intros Hk. exact (IH r' k v eq_refl Hk).
Qed.

Lemma cell_engine_frame_ne (d : DataFrame) (acts : list pyval)
    (key : string) (k : nat) :
  key <> "Recommended Action" -> key <> "Action Color" ->
  Frame.cell (engine_frame d acts) key k = Frame.cell d key k.
Proof.
  intros H1 H2. unfold Frame.cell, engine_frame, Frame.setitem. cbn.
  now rewrite !lookup_set_column_ne by assumption.
Qed.

Lemma carries_engine_frame (d : DataFrame) (acts : list pyval) (k : nat)
    (r : zone_row) :
  carries d k r -> carries (engine_frame d acts) k r.
Proof.
  unfold carries.
  rewrite !cell_engine_frame_ne by discriminate. trivial.
Qed.

Lemma with_headers_dose (data : list zone_row) (i t : pyval) :
  data <> [] ->
  Frame.empty (with_headers data i t) = false
  /\ Frame.lookup_column "Dose (mSv)" (df_columns (with_headers data i t))
     = Some (List.map (fun r => VFloat (zr_dose r)) data).
Proof.
  destruct data as [|r data]; [congruence|]. intros _.
  split; reflexivity.
Qed.

(** The engine on a frame of the TXT or the XML parser. *)
Lemma engine_on_with_headers (data : list zone_row) (i t : pyval)
    (w : world) (l : loc) :
  heap w !! l = Some (with_headers data i t) ->
  exists d,
    recommend_protective_actions l w
    = (Ok l, mkWorld (<[l := d]> (heap w)) (warnings w))
    /\ rows_in_order d data
    /\ forall k r,
         data !! k = Some r ->
         exists a,
           get_action (VFloat (zr_dose r)) = Ok a
           /\ Frame.cell d "Recommended Action" k = Some a
           /\ Frame.cell d "Action Color" k = Some (get_color a).
Proof.
  intros Hl.
  destruct data as [|r0 data0] eqn:Ed.
  - exists (with_headers [] i t). split; [|split].
    + rewrite (engine_run_empty w l _ Hl eq_refl).
      rewrite insert_id by exact Hl. now rewrite world_eta.
    + apply with_headers_rows.
    + intros k r H. inversion H.
  - rewrite <- Ed in *. assert (Hne : data <> []) by (rewrite Ed; discriminate).
    clear Ed. destruct (with_headers_dose data i t Hne) as [He Hdose].
    destruct (apply_get_action_ok
                (List.map (fun r => VFloat (zr_dose r)) data)) as [acts Ha].
    { apply List.Forall_forall. intros v Hv. apply in_map_iff in Hv.
      destruct Hv as (r & <- & _). reflexivity. }
    exists (engine_frame (with_headers data i t) acts).
    split; [|split].
    + now apply engine_run with (List.map (fun r => VFloat (zr_dose r)) data).
    + destruct (with_headers_rows data i t) as [Hn Hr]. split.
      * exact Hn.
      * intros k r Hk. apply carries_engine_frame. now apply Hr.
    + intros k r Hk.
      destruct (apply_lookup get_action _ acts k (VFloat (zr_dose r)) Ha)
        as (a & Ea & Hak).
      { now apply (map_lookup_Some (fun r => VFloat (zr_dose r))). }
      exists a. split; [exact Ea|]. split.
      * unfold Frame.cell, engine_frame, Frame.setitem. cbn.
        rewrite lookup_set_column_ne by discriminate.
        now rewrite lookup_set_column_eq.
      * unfold Frame.cell, engine_frame, Frame.setitem. cbn.
        rewrite lookup_set_column_eq.
        now apply map_lookup_Some.
Qed.

(** X4. From a TXT upload to the actions.  For every text, parsing it
    and running the engine on the result returns without an exception; the
    result is a new object that holds the records of the accepted data
    lines in file order, and each record carries the action the ladder
    gives its dose and the colour of that action.  For a finite dose of
    value q the action is read off q: Evacuate from 10, Shelter-in-Place
    from 5, Monitor & Advise from 1, otherwise No Immediate Action. *)
Theorem txt_upload_to_actions (file_content : string) (w : world) :
  let rows :=
    omap txt_line_row (List.filter is_data_line (txt_lines file_content)) in
  exists df w' d,
    bind (parse_txt file_content) recommend_protective_actions w
    = (Ok df, w')
    /\ heap w !! df = None
    /\ heap w' !! df = Some d
    /\ rows_in_order d rows
    /\ forall k r,
         rows !! k = Some r ->
         exists a,
           get_action (VFloat (zr_dose r)) = Ok a
           /\ Frame.cell d "Recommended Action" k = Some a
           /\ Frame.cell d "Action Color" k = Some (get_color a)
           /\ forall q,
                float_value (zr_dose r) = Some q ->
                a = VStr (if Qle_bool 10 q then "Evacuate"
                          else if Qle_bool 5 q then "Shelter-in-Place"
                          else if Qle_bool 1 q then "Monitor & Advise"
                          else "No Immediate Action").
Proof.
  intros rows.
  destruct (parse_txt_run file_content w) as (hdr & _ & Hp).
  set (l := fresh (dom (heap w))) in *.
  rewrite txt_frame_with_headers in Hp. fold rows in Hp.
  match type of Hp with _ = (_, ?x) => set (w1 := x) in * end.
  destruct (engine_on_with_headers rows (VStr (fst hdr)) (VStr (snd hdr))
              w1 l) as (d & Hrun & Hrows & Hacts).
  { cbn. apply lookup_insert_eq. }
  exists l, (mkWorld (<[l := d]> (heap w1)) (warnings w1)), d.
  split; [|split; [|split; [|split]]].
  - rewrite (bind_ok _ _ _ _ _ Hp). exact Hrun.
  - apply alloc_fresh.
  - cbn. apply lookup_insert_eq.
  - exact Hrows.
  - intros k r Hk. destruct (Hacts k r Hk) as (a & Ea & H1 & H2).
    exists a. repeat split; try assumption.
    intros q Hq.
    assert (Hin : r ∈ rows) by (eapply list_elem_of_lookup_2; exact Hk).
    apply list_elem_of_omap in Hin as (line & _ & Hline).
    rewrite (txt_line_action_by_value line r q Hline Hq) in Ea.
    now injection Ea as <-.
Qed.

(** X5. From an XML document to the actions.  For every document tree,
    [parse_xml] from the parsed tree on and then the engine return without
    an exception; the result is a new object that holds one record for
    each [Zone] element whose four numbers can be read, in document order,
    and each record carries the action the ladder gives its dose and the
    colour of that action. *)
Theorem xml_upload_to_actions (root : element) (w : world) :
  let rows := omap xml_elem_row (ET.findall_descendants root "Zone") in
  exists df w' d,
    bind (parse_xml_root root) recommend_protective_actions w = (Ok df, w')
    /\ heap w !! df = None
    /\ heap w' !! df = Some d
    /\ rows_in_order d rows
    /\ forall k r,
         rows !! k = Some r ->
         exists a,
           get_action (VFloat (zr_dose r)) = Ok a
           /\ Frame.cell d "Recommended Action" k = Some a
           /\ Frame.cell d "Action Color" k = Some (get_color a)
           /\ forall q,
                float_value (zr_dose r) = Some q ->
                a = VStr (if Qle_bool 10 q then "Evacuate"
                          else if Qle_bool 5 q then "Shelter-in-Place"
                          else if Qle_bool 1 q then "Monitor & Advise"
                          else "No Immediate Action").
Proof.
  intros rows.
  pose proof (parse_xml_root_run root w) as Hp.
  set (l := fresh (dom (heap w))) in *.
  rewrite xml_frame_with_headers in Hp. fold rows in Hp.
  match type of Hp with _ = (_, ?x) => set (w1 := x) in * end.
  destruct (engine_on_with_headers rows (xml_incident root)
              (xml_timestamp root) w1 l) as (d & Hrun & Hrows & Hacts).
  { cbn. apply lookup_insert_eq. }
  exists l, (mkWorld (<[l := d]> (heap w1)) (warnings w1)), d.
  split; [|split; [|split; [|split]]].
  - rewrite (bind_ok _ _ _ _ _ Hp). exact Hrun.
  - apply alloc_fresh.
  - cbn. apply lookup_insert_eq.
  - exact Hrows.
  - intros k r Hk. destruct (Hacts k r Hk) as (a & Ea & H1 & H2).
    exists a. repeat split; try assumption.
    intros q Hq.
    assert (Hin : r ∈ rows) by (eapply list_elem_of_lookup_2; exact Hk).
    apply list_elem_of_omap in Hin as (z & _ & Hz).
    rewrite (get_action_by_value (VFloat (zr_dose r)) q) in Ea.
    + now injection Ea as <-.
    + now apply xml_elem_row_valid with z.
    + exact Hq.
Qed.

(** * Further properties of the parsers *)

Lemma header_step_other (st : string * string) (line : string) :
  PyStr.contains "Incident:" line = false ->
  PyStr.contains "Timestamp:" line = false ->
  header_step st line = Ok st.
Proof.
  intros H1 H2. unfold header_step. destruct st. now rewrite H1, H2.
Qed.

Lemma scan_headers_skip (before after : list string) (line : string)
    (st : string * string) :
  PyStr.contains "Incident:" line = false ->
  PyStr.contains "Timestamp:" line = false ->
  scan_headers st (before ++ line :: after)
  = scan_headers st (before ++ after).
Proof.
  intros H1 H2.
  destruct (scan_headers_ok before st) as [st1 Hb].
  rewrite (scan_headers_app before _ st st1 Hb).
  rewrite (scan_headers_app before _ st st1 Hb).
  cbn. now rewrite (header_step_other st1 line H1 H2).
Qed.

(** X6. Lines that are neither data nor a header key have no effect on
    the TXT parser.  A line that is not a data line (it has no semicolon,
    or it starts with "Zone;" as the column header does) and that names
    neither "Incident:" nor "Timestamp:" can be taken out of the file
    without changing the result: same records, same incident and time
    stamp, same warnings.  In particular such a line is never reported. *)
Theorem txt_other_lines_ignored (c1 c2 : string)
    (before after : list string) (line : string) (w : world) :
  txt_lines c1 = before ++ line :: after ->
  txt_lines c2 = before ++ after ->
  is_data_line line = false ->
  PyStr.contains "Incident:" line = false ->
  PyStr.contains "Timestamp:" line = false ->
  parse_txt c1 w = parse_txt c2 w.
Proof.
  intros H1 H2 Hd Hi Ht. unfold parse_txt. rewrite H1, H2.
  rewrite !List.filter_app. cbn [List.filter]. rewrite Hd.
  destruct (is_header_line line).
  - unfold bind at 1 3, lift. rewrite scan_headers_skip by assumption.
    reflexivity.
  - reflexivity.
Qed.

Lemma txt_other_lines_ignored_witness :
  parse_txt txt_with_comment world0 = parse_txt txt_without_comment world0.
Proof.
  apply (txt_other_lines_ignored txt_with_comment txt_without_comment
           ["Incident: Test1"] ["Zone A;12.5;I-131;5.0;-33.586;18.402"]
           "operator note" world0); reflexivity.
Defined.

Lemma omap_none {A B} (f : A -> option B) (l : list A) :
  Forall (fun x => f x = None) l -> omap f l = [].
Proof.
  induction 1 as [|x l Hx _ IH]; cbn; [reflexivity|].
  now rewrite Hx, IH.
Qed.

(** X7. A TXT upload without any accepted data line.  When no data line
    of the text is well formed (the text is empty, has headers only, or
    every data line is rejected), [parse_txt] still returns: the result has
    no records and exactly the two columns Incident and Timestamp, it
    counts as empty, one warning is reported for each data line, and the
    engine returns it as it is, without adding its two columns. *)
Theorem txt_without_records (file_content : string) (w : world) :
  let data_lines := List.filter is_data_line (txt_lines file_content) in
  Forall (fun l => txt_well_formed l = false) data_lines ->
  exists df ws,
    let d := mkDataFrame 0 [("Incident", []); ("Timestamp", [])] in
    let w' := mkWorld (<[df := d]> (heap w)) (warnings w ++ ws) in
    parse_txt file_content w = (Ok df, w')
    /\ heap w !! df = None
    /\ Frame.empty d = true
    /\ length ws = length data_lines
    /\ recommend_protective_actions df w' = (Ok df, w').
Proof.
  intros data_lines Hall.
  destruct (parse_txt_run file_content w) as (hdr & _ & Hp).
  fold data_lines in Hp.
  exists (fresh (dom (heap w))), (omap txt_line_warning data_lines).
  cbn zeta.
  assert (Hrows : omap txt_line_row data_lines = []).
  { apply omap_none. eapply List.Forall_impl; [|exact Hall].
    intros l Hl. now apply txt_line_ill_formed. }
  assert (Hf : txt_frame hdr data_lines
               = mkDataFrame 0 [("Incident", []); ("Timestamp", [])]).
  { unfold txt_frame. now rewrite Hrows. }
  rewrite Hf in Hp.
  split; [exact Hp|]. split; [apply alloc_fresh|].
  split; [reflexivity|]. split.
  - rewrite txt_warnings_count.
    f_equal. clear -Hall. induction Hall as [|l ls Hl _ IH]; cbn.
    + reflexivity.
    + rewrite Hl. cbn. now f_equal.
  - apply engine_run_empty
      with (mkDataFrame 0 [("Incident", []); ("Timestamp", [])]);
      [|reflexivity].
    cbn. apply lookup_insert_eq.
Qed.

Lemma txt_without_records_witness :
  exists df ws,
    parse_txt txt_no_record world0
    = (Ok df,
       mkWorld
         (<[df := mkDataFrame 0 [("Incident", []); ("Timestamp", [])]]> ∅)
         ([] ++ ws))
    /\ length ws = 1%nat.
Proof.
  destruct (txt_without_records txt_no_record world0)
    as (df & ws & H1 & _ & _ & H2 & _).
  - change (Forall (fun l => txt_well_formed l = false)
              ["Zone A;high;I-131;5.0;-33.586;18.402"]).
    constructor; [reflexivity|constructor].
  - exists df, ws. split; [exact H1|exact H2].
Defined.

Lemma find_first_child (root : element) (t : string)
    (before after : list element) (i : element) :
  ET.children root = before ++ i :: after ->
  Forall (fun c => ET.tag c <> t) before ->
  ET.tag i = t ->
  ET.find root t = Some i.
Proof.
  intros Hc Hb Hi. unfold ET.find. rewrite Hc. clear Hc.
  induction Hb as [|c cs Hc _ IH]; cbn.
  - rewrite Hi. now rewrite String.eqb_refl.
  - apply String.eqb_neq in Hc. now rewrite Hc.
Qed.

(** X8. The incident of an XML document is read from the first
    [Incident] child of the root, and from it alone.  Whatever follows it,
    every record gets the [name] and [timestamp] attributes of that first
    element; an attribute the element does not have gives the value None,
    not the placeholder "N/A", which is used only when the root has no
    [Incident] child at all. *)
Theorem xml_first_incident_wins (root i : element)
    (before after : list element) (w : world) :
  ET.children root = before ++ i :: after ->
  Forall (fun c => ET.tag c <> "Incident") before ->
  ET.tag i = "Incident" ->
  exists df d ws,
    parse_xml_root root w
    = (Ok df, mkWorld (<[df := d]> (heap w)) (warnings w ++ ws))
    /\ Frame.lookup_column "Incident" (df_columns d)
       = Some (repeat (ET.get i "name") (df_len d))
    /\ Frame.lookup_column "Timestamp" (df_columns d)
       = Some (repeat (ET.get i "timestamp") (df_len d))
    /\ (forall t a cs key,
          i = Element t a cs -> a !! key = None -> ET.get i key = VNone).
Proof.
  intros Hc Hb Hi.
  pose proof (find_first_child root "Incident" before after i Hc Hb Hi) as Hf.
  do 3 eexists. split; [apply parse_xml_root_run|].
  rewrite xml_frame_with_headers, with_headers_len.
  unfold xml_incident, xml_timestamp. rewrite Hf.
  split; [apply with_headers_incident|].
  split; [apply with_headers_timestamp|].
  intros t a cs key -> Ha. cbn. now rewrite Ha.
Qed.

Lemma xml_first_incident_wins_witness :
  exists df d ws,
    parse_xml_root doc_two_incidents world0
    = (Ok df, mkWorld (<[df := d]> ∅) ([] ++ ws))
    /\ Frame.lookup_column "Incident" (df_columns d)
       = Some (repeat (VStr "First") (df_len d))
    /\ Frame.lookup_column "Timestamp" (df_columns d)
       = Some (repeat VNone (df_len d)).
Proof.
  destruct (xml_first_incident_wins doc_two_incidents
              (Element "Incident" (list_to_map [("name", "First")]) [])
              []
              [Element "Incident"
                 (list_to_map
                    [("name", "Second"); ("timestamp", "2024-01-01")]) []]
              world0 eq_refl (List.Forall_nil _) eq_refl)
    as (df & d & ws & H1 & H2 & H3 & _).
  exists df, d, ws. repeat split; assumption.
Defined.

(** ** Column names of a CSV upload *)

Section StripTwice.
Variable sp : ascii -> bool.

Lemma rstrip_by_twice (s : string) :
  PyStr.rstrip_by sp (PyStr.rstrip_by sp s) = PyStr.rstrip_by sp s.
Proof.
  induction s as [|c s IH]; [reflexivity|].
  cbn. destruct (PyStr.rstrip_by sp s) as [|c' r] eqn:E.
  - destruct (sp c) eqn:Ec; cbn; [reflexivity|]. now rewrite Ec.
  - cbn [PyStr.rstrip_by]. cbn [PyStr.rstrip_by] in IH. now rewrite IH.
Qed.

Lemma lstrip_by_head (s : string) :
  match PyStr.lstrip_by sp s with
  | EmptyString => True
  | String c _ => sp c = false
  end.
Proof.
  induction s as [|c s IH]; cbn; [exact I|].
  destruct (sp c) eqn:Ec; [exact IH|exact Ec].
Qed.

Lemma rstrip_by_head (c : ascii) (s : string) :
  sp c = false ->
  exists r, PyStr.rstrip_by sp (String c s) = String c r.
Proof.
  intros Hc. cbn. destruct (PyStr.rstrip_by sp s).
  - rewrite Hc. now exists EmptyString.
  - eauto.
Qed.

Lemma strip_by_twice (s : string) :
  PyStr.strip_by sp (PyStr.strip_by sp s) = PyStr.strip_by sp s.
Proof.
  unfold PyStr.strip_by.
  pose proof (lstrip_by_head s) as Hh.
  destruct (PyStr.lstrip_by sp s) as [|c t] eqn:E; [reflexivity|].
  destruct (rstrip_by_head c t Hh) as [r Hr]. rewrite Hr.
  cbn [PyStr.lstrip_by]. rewrite Hh. rewrite <- Hr.
  apply rstrip_by_twice.
Qed.

End StripTwice.

Lemma lookup_rename_strip (cols : list (string * list pyval))
    (k : string) (c : list pyval) :
  List.NoDup (List.map (fun kc => PyStr.strip (fst kc)) cols) ->
  Frame.lookup_column k cols = Some c ->
  Frame.lookup_column (PyStr.strip k)
    (List.map (fun kc => (PyStr.strip (fst kc), snd kc)) cols) = Some c.
Proof.
  induction cols as [|[k0 c0] cols IH]; cbn; [discriminate|].
  intros Hnd Hl. apply List.NoDup_cons_iff in Hnd as [Hnin Hnd].
  destruct (String.eqb k0 k) eqn:E.
  - apply String.eqb_eq in E as ->. now rewrite String.eqb_refl.
  - destruct (String.eqb (PyStr.strip k0) (PyStr.strip k)) eqn:E'.
    + exfalso. apply Hnin. apply String.eqb_eq in E'. rewrite E'.
      clear -Hl. induction cols as [|[k1 c1] cols IH]; cbn in *;
        [discriminate|].
      destruct (String.eqb k1 k) eqn:E1.
      * left. apply String.eqb_eq in E1. now rewrite E1.
      * right. now apply IH.
    + now apply IH.
Qed.

(** X9. What [parse_csv] does to the decoded table.  When the decoder
    fails, its exception is passed on and the store is left as it was.
    When it returns a table, the result is a new object whose column names
    carry no white space at either end; and if the trimmed names are
    pairwise distinct, a column that the file names with white space
    around it is found under its trimmed name, with its values
    unchanged. *)
Theorem parse_csv_trims_names (read_csv : string -> result DataFrame)
    (file_content : string) (w : world) :
  match read_csv file_content with
  | Raise e => parse_csv read_csv file_content w = (Raise e, w)
  | Ok d0 =>
      exists df d,
        parse_csv read_csv file_content w
        = (Ok df, mkWorld (<[df := d]> (heap w)) (warnings w))
        /\ heap w !! df = None
        /\ Forall (fun k => PyStr.strip k = k) (Frame.labels d)
        /\ (List.NoDup (List.map PyStr.strip (Frame.labels d0)) ->
            forall k c,
              Frame.lookup_column k (df_columns d0) = Some c ->
              Frame.lookup_column (PyStr.strip k) (df_columns d) = Some c)
  end.
Proof.
  destruct (read_csv file_content) as [d0|e] eqn:Er.
  - exists (fresh (dom (heap w))), (Frame.rename_columns PyStr.strip d0).
    split; [|split; [|split]].
    + unfold parse_csv. rewrite Er.
      unfold bind, lift, alloc, modify, ret. cbn.
      rewrite lookup_insert_eq. cbn. now rewrite insert_insert_eq.
    + apply alloc_fresh.
    + unfold Frame.labels, Frame.rename_columns. cbn.
      rewrite List.map_map. cbn.
      apply List.Forall_forall. intros k Hk. apply in_map_iff in Hk.
      destruct Hk as (kc & <- & _). apply strip_by_twice.
    + intros Hnd k c Hl. unfold Frame.rename_columns. cbn.
      apply lookup_rename_strip; [|exact Hl].
      unfold Frame.labels in Hnd. now rewrite List.map_map in Hnd.
  - unfold parse_csv. now rewrite Er.
Qed.

Lemma parse_csv_trims_names_witness :
  exists df d,
    parse_csv Csv.read_csv_plain csv_padded_names world0
    = (Ok df, mkWorld (<[df := d]> ∅) [])
    /\ Frame.lookup_column "Dose (mSv)" (df_columns d)
       = Some [VFloat dose_12_5].
Proof.
  pose proof (parse_csv_trims_names Csv.read_csv_plain csv_padded_names
                world0) as H.
  change (Csv.read_csv_plain csv_padded_names)
    with (Ok (mkDataFrame 1 [(" Zone ", [VStr "Zone A"]);
                             (" Dose (mSv) ", [VFloat dose_12_5])])) in H.
  destruct H as (df & d & H1 & _ & _ & H2).
  exists df, d. split; [exact H1|].
  apply (H2 ltac:(vm_compute; repeat constructor; cbn; intuition discriminate)
            " Dose (mSv) " [VFloat dose_12_5] eq_refl).
Defined.

(** X10. What a record holds.  A TXT data line with six fields and four
    readable numbers adds the record made of its first and third field
    with the white space at both ends removed, and of the floats read from
    its second, fourth, fifth and sixth field.  A [Zone] element whose four
    numeric attributes can be read adds the record made of its [name] and
    [radionuclide] attributes exactly as written (None when absent) and of
    the floats read from [dose_mSv], [radius_km], [latitude] and
    [longitude].  Every float stored is a binary64 value. *)
Theorem record_fields :
  (forall line data w,
     txt_well_formed line = true ->
     exists p0 p1 p2 p3 p4 p5 dose radius latitude longitude,
       PyStr.split line ";" = [p0; p1; p2; p3; p4; p5]
       /\ PyFloat.of_string (PyStr.strip p1) = Some dose
       /\ PyFloat.of_string (PyStr.strip p3) = Some radius
       /\ PyFloat.of_string (PyStr.strip p4) = Some latitude
       /\ PyFloat.of_string (PyStr.strip p5) = Some longitude
       /\ txt_data_step data line w
          = (Ok (data ++ [mkZoneRow (VStr (PyStr.strip p0)) dose
                            (VStr (PyStr.strip p2)) radius latitude
                            longitude]), w)
       /\ Forall (fun f => valid_number (VFloat f) = true)
            [dose; radius; latitude; longitude])
  /\ (forall z data w,
        xml_numbers_read z = true ->
        exists dose radius latitude longitude,
          py_float (ET.get z "dose_mSv") = Ok dose
          /\ py_float (ET.get z "radius_km") = Ok radius
          /\ py_float (ET.get z "latitude") = Ok latitude
          /\ py_float (ET.get z "longitude") = Ok longitude
          /\ xml_zone_step data z w
             = (Ok (data ++ [mkZoneRow (ET.get z "name") dose
                               (ET.get z "radionuclide") radius latitude
                               longitude]), w)).
Proof.
  split.
  - intros line data w Hwf.
    destruct (txt_line_well_formed line Hwf) as [[r Hr] Hw].
    destruct (txt_line_row_fields line r Hr)
      as (p0 & p1 & p2 & p3 & p4 & p5 & Hs & Hz & H1 & Hn & H3 & H4 & H5).
    exists p0, p1, p2, p3, p4, p5.
    exists (zr_dose r), (zr_radius r), (zr_latitude r), (zr_longitude r).
    repeat (split; [assumption|]). split.
    + rewrite txt_data_step_run, Hr, Hw. cbn. rewrite app_nil_r, world_eta.
      destruct r; cbn in *. now rewrite Hz, Hn.
    + repeat constructor; cbn; eapply of_string_valid; eassumption.
  - intros z data w Hn. unfold xml_numbers_read in Hn.
    destruct (py_float (ET.get z "dose_mSv")) as [dose|] eqn:E1;
      [|discriminate].
    destruct (py_float (ET.get z "radius_km")) as [radius|] eqn:E2;
      [|discriminate].
    destruct (py_float (ET.get z "latitude")) as [latitude|] eqn:E3;
      [|discriminate].
    destruct (py_float (ET.get z "longitude")) as [longitude|] eqn:E4;
      [|discriminate].
    exists dose, radius, latitude, longitude.
    repeat (split; [reflexivity|]).
    unfold xml_zone_step, xml_row. rewrite E1, E2, E3, E4. reflexivity.
Qed.

Lemma record_fields_witness :
  exists dose radius latitude longitude,
    txt_data_step [] " Zone A ; 12.5;I-131 ;5.0;-33.586;18.402" world0
    = (Ok ([] ++ [mkZoneRow (VStr "Zone A") dose (VStr "I-131") radius
                    latitude longitude]), world0)
    /\ dose = dose_12_5.
Proof.
  destruct (proj1 record_fields
              " Zone A ; 12.5;I-131 ;5.0;-33.586;18.402" [] world0 eq_refl)
    as (p0 & p1 & p2 & p3 & p4 & p5 & dose & radius & latitude & longitude
        & Hs & H1 & _ & _ & _ & Hstep & _).
  vm_compute in Hs. injection Hs as <- <- <- <- <- <-.
  exists dose, radius, latitude, longitude. split; [exact Hstep|].
  vm_compute in H1. now injection H1.
Defined.

(** ** A character added at the end of a line *)

Local Open Scope string_scope.

Section Snoc.
Variable c : ascii.

Lemma prefix_snoc (s : string) :
  forall p, ~ In c (list_ascii_of_string p) ->
  String.prefix p (s ++ String c "") = String.prefix p s.
Proof.
  induction s as [|b s IH]; intros [|a p] Hp; try reflexivity.
  - rewrite append_nil. cbn.
    destruct (ascii_dec a c) as [->|]; [|reflexivity].
    exfalso. apply Hp. now left.
  - rewrite append_cons. cbn.
    destruct (ascii_dec a b); [|reflexivity].
    apply IH. intros H. apply Hp. now right.
Qed.

Lemma contains_snoc (sub s : string) :
  sub <> "" -> ~ In c (list_ascii_of_string sub) ->
  PyStr.contains sub (s ++ String c "") = PyStr.contains sub s.
Proof.
  intros Hne Hc. induction s as [|b s IH].
  - rewrite append_nil. destruct sub as [|a sub']; [congruence|]. cbn.
    destruct (ascii_dec a c) as [->|]; [|reflexivity].
    exfalso. apply Hc. now left.
  - rewrite append_cons. cbn [PyStr.contains].
    rewrite <- append_cons. rewrite prefix_snoc by exact Hc.
    now rewrite IH.
Qed.

Lemma prefix_length (p s : string) :
  String.prefix p s = true -> (String.length p <= String.length s)%nat.
Proof.
  revert p. induction s as [|b s IH]; intros [|a p]; cbn; try lia;
    try discriminate.
  destruct (ascii_dec a b); [|discriminate].
  intros H. apply IH in H. lia.
Qed.

(** The pieces of the longer string are those of the shorter one, the
    last of them with the character added. *)
Lemma split_from_snoc (sep : string) :
  sep <> "" -> ~ In c (list_ascii_of_string sep) ->
  forall s skip,
    (skip <= String.length s)%nat ->
    Forall2 (fun a b => b = a \/ b = a ++ String c "")
      (fst (PyStr.split_from sep skip s) :: snd (PyStr.split_from sep skip s))
      (fst (PyStr.split_from sep skip (s ++ String c ""))
       :: snd (PyStr.split_from sep skip (s ++ String c ""))).
Proof.
  intros Hne Hc. induction s as [|b s IH]; intros skip Hskip.
  - cbn in Hskip. assert (skip = 0)%nat as -> by lia.
    rewrite append_nil.
    assert (Hp : String.prefix sep (String c "") = false).
    { rewrite <- (append_nil (String c "")). rewrite prefix_snoc by exact Hc.
      now apply prefix_nonempty_nil. }
    cbn [PyStr.split_from]. rewrite Hp. cbn.
    constructor; [|constructor]. right. now rewrite append_nil.
  - rewrite append_cons. destruct skip as [|k].
    + cbn [PyStr.split_from]. rewrite <- append_cons.
      rewrite prefix_snoc by exact Hc.
      destruct (String.prefix sep (String b s)) eqn:Ep.
      * apply prefix_length in Ep. cbn in Ep.
        specialize (IH (String.length sep - 1)%nat ltac:(lia)).
        destruct (PyStr.split_from sep (String.length sep - 1) s)
          as [p ps].
        destruct (PyStr.split_from sep (String.length sep - 1)
                    (s ++ String c "")) as [p' ps'].
        cbn in *. constructor; [now left|exact IH].
      * specialize (IH 0%nat ltac:(lia)).
        destruct (PyStr.split_from sep 0 s) as [p ps].
        destruct (PyStr.split_from sep 0 (s ++ String c "")) as [p' ps'].
        cbn in *. inversion IH as [|? ? ? ? Hh Ht]; subst.
        constructor; [|exact Ht].
        destruct Hh as [->| ->]; [now left|right].
        now rewrite append_cons.
    + cbn [PyStr.split_from]. apply IH. cbn in Hskip. lia.
Qed.

Lemma split_snoc (sep s : string) :
  sep <> "" -> ~ In c (list_ascii_of_string sep) ->
  Forall2 (fun a b => b = a \/ b = a ++ String c "")
    (PyStr.split s sep) (PyStr.split (s ++ String c "") sep).
Proof.
  intros Hne Hc. unfold PyStr.split.
  pose proof (split_from_snoc sep Hne Hc s 0%nat ltac:(lia)) as H.
  destruct (PyStr.split_from sep 0 s).
  destruct (PyStr.split_from sep 0 (s ++ String c "")).
  exact H.
Qed.

Variable sp : ascii -> bool.
Hypothesis sp_c : sp c = true.

Lemma rstrip_by_snoc (s : string) :
  PyStr.rstrip_by sp (s ++ String c "") = PyStr.rstrip_by sp s.
Proof.
  induction s as [|b s IH].
  - rewrite append_nil. cbn. now rewrite sp_c.
  - rewrite append_cons. cbn. now rewrite IH.
Qed.

Lemma lstrip_by_snoc (s : string) :
  (PyStr.lstrip_by sp (s ++ String c "") = ""
   /\ PyStr.lstrip_by sp s = "")
  \/ PyStr.lstrip_by sp (s ++ String c "")
     = PyStr.lstrip_by sp s ++ String c "".
Proof.
  induction s as [|b s IH].
  - left. rewrite append_nil. cbn. now rewrite sp_c.
  - rewrite append_cons. cbn. destruct (sp b); [exact IH|].
    right. now rewrite append_cons.
Qed.

Lemma strip_by_snoc (s : string) :
  PyStr.strip_by sp (s ++ String c "") = PyStr.strip_by sp s.
Proof.
  unfold PyStr.strip_by.
  destruct (lstrip_by_snoc s) as [[-> ->]| ->]; [reflexivity|].
  apply rstrip_by_snoc.
Qed.

End Snoc.

Local Open Scope list_scope.

(** ** Carriage returns at the end of the lines *)

Lemma strip_with_cr (s : string) : PyStr.strip (with_cr s) = PyStr.strip s.
Proof. apply strip_by_snoc. reflexivity. Qed.

Lemma same_up_to_cr_strip (a b : string) :
  same_up_to_cr a b -> PyStr.strip b = PyStr.strip a.
Proof. intros [->| ->]; [reflexivity|apply strip_with_cr]. Qed.

Lemma contains_cr (sub l l' : string) :
  sub <> EmptyString -> ~ In Csv.cr (list_ascii_of_string sub) ->
  same_up_to_cr l l' -> PyStr.contains sub l' = PyStr.contains sub l.
Proof.
  intros Hne Hc [->| ->]; [reflexivity|]. now apply contains_snoc.
Qed.

Lemma split_cr (sep l l' : string) :
  sep <> EmptyString -> ~ In Csv.cr (list_ascii_of_string sep) ->
  same_up_to_cr l l' ->
  Forall2 same_up_to_cr (PyStr.split l sep) (PyStr.split l' sep).
Proof.
  intros Hne Hc [->| ->].
  - induction (PyStr.split l sep); constructor; [now left|assumption].
  - now apply split_snoc.
Qed.

Ltac no_cr := cbn; intuition discriminate.

Lemma is_header_line_cr (l l' : string) :
  same_up_to_cr l l' -> is_header_line l' = is_header_line l.
Proof. apply contains_cr; [discriminate|no_cr]. Qed.

Lemma is_data_line_cr (l l' : string) :
  same_up_to_cr l l' -> is_data_line l' = is_data_line l.
Proof.
  intros H. unfold is_data_line, PyStr.startswith.
  rewrite (contains_cr ";" l l') by (try discriminate; try no_cr; exact H).
  f_equal. f_equal. destruct H as [->| ->]; [reflexivity|].
  apply prefix_snoc. no_cr.
Qed.

Lemma getitem_cr (parts parts' : list string) (i : nat) :
  Forall2 same_up_to_cr parts parts' ->
  (list_getitem parts i = Raise IndexError
   /\ list_getitem parts' i = Raise IndexError)
  \/ exists a b,
       list_getitem parts i = Ok a /\ list_getitem parts' i = Ok b
       /\ PyStr.strip b = PyStr.strip a.
Proof.
  intros H. unfold list_getitem.
  destruct (parts !! i) as [a|] eqn:Ea.
  - destruct (Forall2_lookup_l _ _ _ _ _ H Ea) as (b & Eb & Hab).
    right. exists a, b. rewrite Eb. repeat split.
    now apply same_up_to_cr_strip.
  - left. split; [reflexivity|].
    destruct (parts' !! i) as [b|] eqn:Eb; [|reflexivity].
    destruct (Forall2_lookup_r _ _ _ _ _ H Eb) as (a & Ea' & _). congruence.
Qed.

Lemma header_step_cr (st : string * string) (l l' : string) :
  same_up_to_cr l l' -> header_step st l' = header_step st l.
Proof.
  intros H. unfold header_step. destruct st as [i t].
  rewrite (contains_cr "Incident:" l l') by (try discriminate; try no_cr; exact H).
  rewrite (contains_cr "Timestamp:" l l') by (try discriminate; try no_cr; exact H).
  destruct (PyStr.contains "Incident:" l).
  - destruct (getitem_cr _ _ 1 (split_cr "Incident:" l l'
                ltac:(discriminate) ltac:(no_cr) H))
      as [[-> ->]|(a & b & -> & -> & Hs)]; [reflexivity|].
    cbn. now rewrite Hs.
  - destruct (PyStr.contains "Timestamp:" l); [|reflexivity].
    destruct (getitem_cr _ _ 1 (split_cr "Timestamp:" l l'
                ltac:(discriminate) ltac:(no_cr) H))
      as [[-> ->]|(a & b & -> & -> & Hs)]; [reflexivity|].
    cbn. now rewrite Hs.
Qed.

Lemma txt_row_cr (parts parts' : list string) :
  Forall2 same_up_to_cr parts parts' -> txt_row parts' = txt_row parts.
Proof.
  intros H. unfold txt_row.
  destruct (getitem_cr _ _ 0 H) as [[-> ->]|(a0 & b0 & -> & -> & H0)];
    [reflexivity|].
  destruct (getitem_cr _ _ 1 H) as [[-> ->]|(a1 & b1 & -> & -> & H1)];
    [reflexivity|].
  destruct (getitem_cr _ _ 2 H) as [[-> ->]|(a2 & b2 & -> & -> & H2)];
    [cbn; rewrite H1; reflexivity|].
  destruct (getitem_cr _ _ 3 H) as [[-> ->]|(a3 & b3 & -> & -> & H3)];
    [cbn; rewrite H1; reflexivity|].
  destruct (getitem_cr _ _ 4 H) as [[-> ->]|(a4 & b4 & -> & -> & H4)];
    [cbn; rewrite H1, H3; reflexivity|].
  destruct (getitem_cr _ _ 5 H) as [[-> ->]|(a5 & b5 & -> & -> & H5)];
    [cbn; rewrite H1, H3, H4; reflexivity|].
  cbn. now rewrite H0, H1, H2, H3, H4, H5.
Qed.

Lemma txt_line_cr (l l' : string) :
  same_up_to_cr l l' ->
  txt_line_row l' = txt_line_row l
  /\ length (option_list (txt_line_warning l'))
     = length (option_list (txt_line_warning l)).
Proof.
  intros H.
  pose proof (split_cr ";" l l' ltac:(discriminate) ltac:(no_cr) H) as Hs.
  unfold txt_line_row, txt_line_warning.
  rewrite <- (Forall2_length _ _ _ Hs), (txt_row_cr _ _ Hs).
  destruct (length (PyStr.split l ";") =? 6)%nat; [|auto].
  destruct (txt_row (PyStr.split l ";")); auto.
Qed.

Lemma filter_cr (f : string -> bool) (ls ls' : list string) :
  (forall l l', same_up_to_cr l l' -> f l' = f l) ->
  Forall2 same_up_to_cr ls ls' ->
  Forall2 same_up_to_cr (List.filter f ls) (List.filter f ls').
Proof.
  intros Hf. induction 1 as [|l l' ls ls' Hl _ IH]; cbn; [constructor|].
  rewrite (Hf l l' Hl). destruct (f l); [constructor|]; assumption.
Qed.

Lemma scan_headers_cr (ls ls' : list string) :
  Forall2 same_up_to_cr ls ls' ->
  forall st, scan_headers st ls' = scan_headers st ls.
Proof.
  induction 1 as [|l l' ls ls' Hl _ IH]; intros st; cbn; [reflexivity|].
  rewrite (header_step_cr st l l' Hl).
  destruct (header_step st l); cbn; [apply IH|reflexivity].
Qed.

Lemma data_lines_cr (ls ls' : list string) :
  Forall2 same_up_to_cr ls ls' ->
  omap txt_line_row ls' = omap txt_line_row ls
  /\ length (omap txt_line_warning ls') = length (omap txt_line_warning ls).
Proof.
  induction 1 as [|l l' ls ls' Hl _ [IH1 IH2]]; cbn; [auto|].
  destruct (txt_line_cr l l' Hl) as [-> Hw].
  split.
  - destruct (txt_line_row l); now rewrite IH1.
  - destruct (txt_line_warning l'), (txt_line_warning l); cbn in *;
      try discriminate; now rewrite IH2.
Qed.

(** X11. Windows line endings do not change what the TXT parser reads.
    If the lines of two texts are the same except that some lines of the
    second end with a carriage return, both texts give the same result:
    the same records with the same values, the same incident and time
    stamp, and as many warnings. *)
Theorem txt_carriage_returns_ignored (c1 c2 : string) (w : world) :
  Forall2 same_up_to_cr (txt_lines c1) (txt_lines c2) ->
  exists df d ws1 ws2,
    parse_txt c1 w
    = (Ok df, mkWorld (<[df := d]> (heap w)) (warnings w ++ ws1))
    /\ parse_txt c2 w
       = (Ok df, mkWorld (<[df := d]> (heap w)) (warnings w ++ ws2))
    /\ length ws1 = length ws2.
Proof.
  intros H.
  destruct (parse_txt_run c1 w) as (hdr1 & Hh1 & Hp1).
  destruct (parse_txt_run c2 w) as (hdr2 & Hh2 & Hp2).
  pose proof (filter_cr is_header_line _ _ is_header_line_cr H) as Hhl.
  pose proof (filter_cr is_data_line _ _ is_data_line_cr H) as Hdl.
  rewrite (scan_headers_cr _ _ Hhl) in Hh2.
  assert (hdr2 = hdr1) as -> by congruence.
  destruct (data_lines_cr _ _ Hdl) as [Hrows Hws].
  unfold txt_frame in Hp2. rewrite Hrows in Hp2.
  do 4 eexists. split; [exact Hp1|]. split; [exact Hp2|].
  now symmetry.
Qed.

Lemma txt_carriage_returns_ignored_witness :
  exists df d ws1 ws2,
    parse_txt txt_unix world0
    = (Ok df, mkWorld (<[df := d]> ∅) ([] ++ ws1))
    /\ parse_txt txt_windows world0
       = (Ok df, mkWorld (<[df := d]> ∅) ([] ++ ws2))
    /\ length ws1 = length ws2.
Proof.
  apply (txt_carriage_returns_ignored txt_unix txt_windows world0).
  change (Forall2 same_up_to_cr
            ["Incident: Test1"; "Zone A;12.5;I-131;5.0;-33.586;18.402";
             "Zone B;3.0;Cs-137;2.0;-33.59;18.41"]
            [with_cr "Incident: Test1";
             with_cr "Zone A;12.5;I-131;5.0;-33.586;18.402";
             "Zone B;3.0;Cs-137;2.0;-33.59;18.41"]).
  constructor; [right; reflexivity|].
  constructor; [right; reflexivity|].
  constructor; [left; reflexivity|]. constructor.
Defined.

(** * The generator of simulated data *)

Lemma frame_of_sim_rows_carries (data : list sim_row) (k : nat)
    (r : sim_row) :
  data !! k = Some r -> carries_sim (frame_of_sim_rows data) k r.
Proof.
  intros Hk. destruct data as [|r0 data0] eqn:Ed; [inversion Hk|].
  rewrite <- Ed in *. clear Ed.
  assert (Hf : frame_of_sim_rows data
               = mkDataFrame (length data)
                   [ ("Zone", List.map (fun r => VStr (sr_zone r)) data);
                     ("Dose (mSv)",
                      List.map (fun r => VFloat (sr_dose r)) data);
                     ("Radionuclide",
                      List.map (fun r => VStr (sr_radionuclide r)) data);
                     ("Radius (km)",
                      List.map (fun r => VFloat (sr_radius r)) data);
                     ("Incident",
                      List.map (fun r => VStr (sr_incident r)) data);
                     ("Timestamp",
                      List.map (fun r => VStr (sr_timestamp r)) data);
                     ("Latitude",
                      List.map (fun r => VFloat (sr_latitude r)) data);
                     ("Longitude",
                      List.map (fun r => VFloat (sr_longitude r)) data) ]).
  { destruct data; [inversion Hk|reflexivity]. }
  rewrite Hf. unfold carries_sim, Frame.cell. cbn.
  repeat split;
    match goal with
    | |- List.map ?f _ !! _ = _ => exact (map_lookup_Some f data k r Hk)
    end.
Qed.

Lemma frame_of_sim_rows_len (data : list sim_row) :
  df_len (frame_of_sim_rows data) = length data.
Proof. now destruct data. Qed.

Lemma frame_of_sim_rows_canonical (data : list sim_row) :
  canonical (frame_of_sim_rows data).
Proof.
  destruct data as [|r data].
  - split; [|discriminate]. split; cbn; constructor.
  - split.
    + split; cbn -[length List.map].
      * repeat (apply List.NoDup_cons_iff; split;
                [cbn; intuition discriminate|]).
        constructor.
      * repeat constructor; cbn [snd]; rewrite ?length_map; reflexivity.
    + intros _. eexists. split; [reflexivity|].
      apply List.Forall_forall. intros v Hv.
      apply in_map_iff in Hv as (r0 & <- & _). reflexivity.
Qed.

(** The float constants of the generator are the floats its literals
    denote. *)
Lemma generator_literals :
  PyFloat.of_string "0.5" = Some DOSE_LOW
  /\ PyFloat.of_string "25.0" = Some DOSE_HIGH
  /\ PyFloat.of_string "1.0" = Some RADIUS_LOW
  /\ PyFloat.of_string "20.0" = Some RADIUS_HIGH
  /\ PyFloat.of_string "0.02" = Some OFFSET
  /\ PyFloat.of_string "-0.02" = Some (SFopp OFFSET)
  /\ PyFloat.of_string "-33.586" = Some base_lat
  /\ PyFloat.of_string "18.402" = Some base_lon.
Proof. repeat split; vm_compute; reflexivity. Qed.

Lemma zone_name_inj (j k : nat) :
  (j <= 190)%nat -> (k <= 190)%nat -> zone_name j = zone_name k -> j = k.
Proof.
  intros Hj Hk H. unfold zone_name in H.
  rewrite !append_cons, !append_nil in H.
  injection H as H.
  apply (f_equal nat_of_ascii) in H.
  rewrite !nat_ascii_embedding in H by lia. lia.
Qed.

Section GeneratorProperties.

Variable rng : Type.
Variable randint : Z -> Z -> rng -> Z * rng.
Variable uniform : spec_float -> spec_float -> rng -> spec_float * rng.
Variable choice : list string -> rng -> string * rng.
Variable py_round : spec_float -> Z -> spec_float.
Variable minutes_ago : Z -> string.

Lemma generate_zones_rows (incident_name timestamp : string) (n : nat) :
  forall i g,
    let rows :=
      fst (generate_zones rng uniform choice py_round incident_name
             timestamp i n g) in
    length rows = n
    /\ forall k r,
         rows !! k = Some r ->
         sr_zone r = zone_name (i + k)
         /\ sr_incident r = incident_name
         /\ sr_timestamp r = timestamp
         /\ ((forall l g', l <> [] -> In (fst (choice l g')) l) ->
             In (sr_radionuclide r) radionuclides).
Proof.
  induction n as [|n IH]; intros i g; cbn [generate_zones].
  - split; [reflexivity|]. intros k r H. inversion H.
  - destruct (uniform DOSE_LOW DOSE_HIGH g) as [dose g1].
    destruct (choice radionuclides g1) as [nuc g2] eqn:Ec.
    destruct (uniform RADIUS_LOW RADIUS_HIGH g2) as [radius g3].
    destruct (uniform (SFopp OFFSET) OFFSET g3) as [lat g4].
    destruct (uniform (SFopp OFFSET) OFFSET g4) as [lon g5].
    specialize (IH (S i) g5). cbn zeta in IH.
    destruct (generate_zones rng uniform choice py_round incident_name
                timestamp (S i) n g5) as [rest g'].
    cbn [fst length] in *. destruct IH as [IHn IHr].
    split; [now f_equal|].
    intros [|k] r.
    + intros [= <-]. cbn [sr_zone sr_incident sr_timestamp sr_radionuclide].
      rewrite Nat.add_0_r.
      repeat split. intros Hch.
      specialize (Hch radionuclides g1 ltac:(discriminate)).
      now rewrite Ec in Hch.
    + intros Hk. replace (i + S k)%nat with (S i + k)%nat by lia.
      now apply IHr.
Qed.

End GeneratorProperties.

(** X12. What the generator returns, whatever the random source draws.
    For a number of zones up to 191 (the zone letters are code points
    below 256), [generate_random_rascal_data] returns a new record set
    with exactly that many records; record k is named "Zone " followed by
    the k-th character from A on, and these names are pairwise distinct;
    all records carry the same incident name, "Random Incident " followed
    by the integer drawn first, and the same time stamp; a request for no
    zones gives the frame without rows and columns.  If [random.choice]
    returns a member of its list, every radionuclide is one of the five of
    the catalogue. *)
Theorem generator_records (rng : Type)
    (randint : Z -> Z -> rng -> Z * rng)
    (uniform : spec_float -> spec_float -> rng -> spec_float * rng)
    (choice : list string -> rng -> string * rng)
    (py_round : spec_float -> Z -> spec_float)
    (minutes_ago : Z -> string)
    (num_zones : nat) (g : rng) (w : world) :
  (num_zones <= 191)%nat ->
  let drawn := randint 100%Z 999%Z g in
  let incident_name :=
    String.append "Random Incident " (str_of_int (fst drawn)) in
  let timestamp := minutes_ago (fst (randint 1%Z 60%Z (snd drawn))) in
  exists df d,
    fst (generate_random_rascal_data rng randint uniform choice py_round
           minutes_ago num_zones g) w
    = (Ok df, mkWorld (<[df := d]> (heap w)) (warnings w))
    /\ heap w !! df = None
    /\ df_len d = num_zones
    /\ (forall k,
          (k < num_zones)%nat ->
          Frame.cell d "Zone" k = Some (VStr (zone_name k))
          /\ Frame.cell d "Incident" k = Some (VStr incident_name)
          /\ Frame.cell d "Timestamp" k = Some (VStr timestamp))
    /\ (forall j k,
          (j < num_zones)%nat -> (k < num_zones)%nat ->
          zone_name j = zone_name k -> j = k)
    /\ (num_zones = 0%nat -> d = mkDataFrame 0 [])
    /\ ((forall l g', l <> [] -> In (fst (choice l g')) l) ->
        forall k,
          (k < num_zones)%nat ->
          exists x,
            Frame.cell d "Radionuclide" k = Some (VStr x)
            /\ In x radionuclides).
Proof.
  intros Hn drawn incident_name timestamp.
  unfold generate_random_rascal_data. fold drawn.
  destruct drawn as [k0 g1] eqn:Ed. cbn [fst snd] in *.
  destruct (randint 1%Z 60%Z g1) as [m g2] eqn:Em. cbn [fst] in *.
  fold incident_name. fold timestamp.
  pose proof (generate_zones_rows rng uniform choice py_round incident_name
                timestamp num_zones 0%nat g2) as Hrows.
  cbn zeta in Hrows.
  destruct (generate_zones rng uniform choice py_round incident_name
              timestamp 0 num_zones g2) as [data g3].
  cbn [fst] in *. destruct Hrows as [Hlen Hrows].
  exists (fresh (dom (heap w))), (frame_of_sim_rows data).
  split; [reflexivity|]. split; [apply alloc_fresh|].
  split; [now rewrite frame_of_sim_rows_len|].
  assert (Hget : forall k, (k < num_zones)%nat -> exists r, data !! k = Some r).
  { intros k Hk. apply lookup_lt_is_Some_2. lia. }
  split; [|split; [|split]].
  - intros k Hk. destruct (Hget k Hk) as [r Hr].
    destruct (Hrows k r Hr) as (Hz & Hi & Ht & _).
    destruct (frame_of_sim_rows_carries data k r Hr)
      as (C1 & _ & _ & _ & C5 & C6 & _).
    now rewrite C1, C5, C6, Hz, Hi, Ht.
  - intros j k Hj Hk. apply zone_name_inj; lia.
  - intros ->. destruct data; [reflexivity|discriminate].
  - intros Hch k Hk. destruct (Hget k Hk) as [r Hr].
    destruct (Hrows k r Hr) as (_ & _ & _ & Hc).
    destruct (frame_of_sim_rows_carries data k r Hr) as (_ & _ & C3 & _).
    exists (sr_radionuclide r). split; [exact C3|now apply Hc].
Qed.

Lemma generator_records_witness :
  exists df d,
    fst (generate_random_rascal_data unit low_randint low_uniform
           first_choice no_round fixed_clock default_num_zones tt) world0
    = (Ok df, mkWorld (<[df := d]> ∅) [])
    /\ df_len d = 3%nat
    /\ Frame.cell d "Zone" 2 = Some (VStr "Zone C")
    /\ Frame.cell d "Incident" 2 = Some (VStr "Random Incident 100").
Proof.
  destruct (generator_records unit low_randint low_uniform first_choice
              no_round fixed_clock default_num_zones tt world0)
    as (df & d & H1 & _ & H3 & H4 & _).
  - unfold default_num_zones. lia.
  - exists df, d. split; [exact H1|]. split; [exact H3|].
    destruct (H4 2%nat) as (Hz & Hi & _).
    + unfold default_num_zones. lia.
    + split; [exact Hz|exact Hi].
Defined.

(** * The panels that show the record set *)

Lemma df_copy_run (w : world) (l : loc) (d : DataFrame) :
  heap w !! l = Some d ->
  df_copy l w
  = (Ok (fresh (dom (heap w))),
     mkWorld (<[fresh (dom (heap w)) := d]> (heap w)) (warnings w)).
Proof.
  intros H. unfold df_copy. now rewrite (bind_ok _ _ _ _ _ (load_ok _ _ _ H)).
Qed.

(** X13. The panels work on a copy.  The call
    [recommend_protective_actions(parsed_data.copy())] of the map and of
    the decision panel never changes the record set of the session nor any
    other object that existed before, whether the engine returns or
    raises; what it returns is a new object.  On a canonical record set it
    returns, with as many records, and unless the record set is empty the
    new object is the record set with the two columns of the engine. *)
Theorem view_leaves_session_data (w : world) (parsed_data : loc)
    (d : DataFrame) :
  heap w !! parsed_data = Some d ->
  exists c r w',
    recommended_view parsed_data w = (r, w')
    /\ heap w !! c = None
    /\ c <> parsed_data
    /\ (forall l d0, heap w !! l = Some d0 -> heap w' !! l = Some d0)
    /\ warnings w' = warnings w
    /\ (forall c', r = Ok c' -> c' = c)
    /\ (canonical d ->
        exists d',
          r = Ok c /\ heap w' !! c = Some d' /\ df_len d' = df_len d
          /\ (Frame.empty d = true -> d' = d)
          /\ (Frame.empty d = false ->
              exists dose acts,
                Frame.lookup_column "Dose (mSv)" (df_columns d) = Some dose
                /\ Frame.apply get_action dose = Ok acts
                /\ d' = engine_frame d acts)).
Proof.
  intros Hd.
  set (c := fresh (dom (heap w))).
  assert (Hc : heap w !! c = None) by apply alloc_fresh.
  assert (Hne : c <> parsed_data) by congruence.
  set (w1 := mkWorld (<[c := d]> (heap w)) (warnings w)).
  assert (Hrun : recommended_view parsed_data w
                 = recommend_protective_actions c w1).
  { unfold recommended_view.
    now rewrite (bind_ok _ _ _ _ _ (df_copy_run w parsed_data d Hd)). }
  assert (Hc1 : heap w1 !! c = Some d) by (cbn; apply lookup_insert_eq).
  assert (Hkeep1 : forall l d0, heap w !! l = Some d0 ->
                                heap w1 !! l = Some d0).
  { intros l d0 Hl. cbn. rewrite lookup_insert_ne; [exact Hl|congruence]. }
  assert (Hkeep2 : forall d' l d0, heap w !! l = Some d0 ->
                     <[c := d']> (heap w1) !! l = Some d0).
  { intros d' l d0 Hl. rewrite lookup_insert_ne; [now apply Hkeep1|].
    congruence. }
  exists c. rewrite Hrun.
  destruct (engine_run_cases w1 c d Hc1)
    as [[Ee H]|[(Ee & El & H)|(Ee & dose & El & [[Hx H]|(acts & Ea & H)])]];
    rewrite H; do 2 eexists; (split; [reflexivity|]);
    (split; [exact Hc|]); (split; [exact Hne|]).
  - split; [exact Hkeep1|]. split; [reflexivity|].
    split; [now intros c' [= <-]|].
    intros _. exists d. repeat split; try assumption. congruence.
  - split; [exact Hkeep1|]. split; [reflexivity|].
    split; [discriminate|].
    intros [_ Hnum]. destruct (Hnum Ee) as (dose & Hl & _). congruence.
  - split; [exact Hkeep1|]. split; [reflexivity|].
    split; [discriminate|].
    intros [_ Hnum]. destruct (Hnum Ee) as (dose' & Hl & Hall).
    rewrite El in Hl. injection Hl as <-.
    exfalso. apply List.Exists_exists in Hx as (v & Hv & Hf).
    rewrite List.Forall_forall in Hall. specialize (Hall v Hv). congruence.
  - cbn [heap warnings]. split; [apply Hkeep2|]. split; [reflexivity|].
    split; [now intros c' [= <-]|].
    intros _. exists (engine_frame d acts).
    split; [reflexivity|]. split; [apply lookup_insert_eq|].
    split; [reflexivity|]. split; [congruence|].
    intros _. now exists dose, acts.
Qed.

Lemma view_leaves_session_data_witness :
  exists c r w',
    recommended_view 0%nat one_zone_world = (r, w')
    /\ c <> 0%nat
    /\ heap w' !! 0%nat = Some one_zone_frame
    /\ r = Ok c.
Proof.
  destruct (view_leaves_session_data one_zone_world 0%nat one_zone_frame
              eq_refl) as (c & r & w' & H1 & _ & H3 & H4 & _ & _ & H7).
  exists c, r, w'. split; [exact H1|]. split; [exact H3|].
  split; [exact (H4 0%nat one_zone_frame eq_refl)|].
  destruct H7 as (d' & Hr & _); [|exact Hr].
  split; [split|].
  - repeat (apply List.NoDup_cons_iff; split;
            [cbn; intuition discriminate|]).
    constructor.
  - repeat constructor.
  - intros _. eexists. split; [reflexivity|]. repeat constructor.
Defined.

Lemma select_columns_ok (cols : list (string * list pyval))
    (keys : list string) :
  Forall (fun k => is_Some (Frame.lookup_column k cols)) keys ->
  exists r,
    select_columns keys cols = Ok r
    /\ List.map fst r = keys
    /\ forall k, In k keys ->
         Frame.lookup_column k r = Frame.lookup_column k cols.
Proof.
  induction 1 as [|k keys [c Hc] _ (r & Hr & Hl & Hk)]; cbn.
  - exists []. repeat split. intros k [].
  - rewrite Hc, Hr. cbn. exists ((k, c) :: r).
    split; [reflexivity|]. split; [cbn; now f_equal|].
    intros k' Hin. cbn. destruct (String.eqb k k') eqn:E.
    + apply String.eqb_eq in E as <-. now rewrite Hc.
    + destruct Hin as [->|Hin]; [now rewrite String.eqb_refl in E|].
      now apply Hk.
Qed.

Lemma select_columns_missing (cols : list (string * list pyval))
    (keys : list string) :
  Exists (fun k => Frame.lookup_column k cols = None) keys ->
  exists k,
    select_columns keys cols = Raise (KeyError k)
    /\ In k keys /\ Frame.lookup_column k cols = None.
Proof.
  induction keys as [|k keys IH]; intros H; [inversion H|].
  cbn. destruct (Frame.lookup_column k cols) as [c|] eqn:Ec.
  - inversion H as [? ? Hk|? ? Hks]; subst; [congruence|].
    destruct (IH Hks) as (k' & -> & Hin & Hn).
    exists k'. cbn. auto.
  - exists k. auto.
Qed.

(** X14. The data table shows the same eight columns in the same order
    whichever source the record set came from.  The record set of the
    session is taken to have distinct labels and one value per row in each
    column.  When it has the eight columns, the table holds exactly these,
    in the order Zone, Dose (mSv), Radionuclide, Radius (km), Latitude,
    Longitude, Incident, Timestamp, each with the values the record set
    has, and no column of the engine.  This is the case for every record
    set of the TXT and of the XML parser that has a record, and for every
    non-empty record set of the generator, whose own column order is
    different.  When one of the eight columns is missing, as it can be
    after a CSV upload, the selection raises [KeyError] on a missing
    column.  The session and the store are not changed. *)
Theorem table_view_columns (w : world) (parsed_data : loc) (d : DataFrame) :
  heap w !! parsed_data = Some d ->
  Frame.wf d ->
  (Forall (fun k => is_Some (Frame.lookup_column k (df_columns d)))
     TABLE_COLUMNS ->
   exists t,
     table_view parsed_data w = (Ok t, w)
     /\ Frame.labels t = TABLE_COLUMNS
     /\ df_len t = df_len d
     /\ forall k, In k TABLE_COLUMNS ->
          Frame.lookup_column k (df_columns t)
          = Frame.lookup_column k (df_columns d))
  /\ (Exists (fun k => Frame.lookup_column k (df_columns d) = None)
        TABLE_COLUMNS ->
      exists k,
        table_view parsed_data w = (Raise (KeyError k), w)
        /\ In k TABLE_COLUMNS
        /\ Frame.lookup_column k (df_columns d) = None)
  /\ (forall data i t,
        data <> [] -> d = with_headers data i t ->
        Forall (fun k => is_Some (Frame.lookup_column k (df_columns d)))
          TABLE_COLUMNS
        /\ Frame.labels d = TABLE_COLUMNS)
  /\ (forall data,
        data <> [] -> d = frame_of_sim_rows data ->
        Forall (fun k => is_Some (Frame.lookup_column k (df_columns d)))
          TABLE_COLUMNS
        /\ Frame.labels d <> TABLE_COLUMNS).
Proof.
  intros Hd _. split; [|split; [|split]].
  - intros Hall.
    destruct (select_columns_ok (df_columns d) TABLE_COLUMNS Hall)
      as (r & Hr & Hl & Hk).
    exists (mkDataFrame (df_len d) r).
    split; [|split; [exact Hl|split; [reflexivity|exact Hk]]].
    unfold table_view. rewrite (bind_ok _ _ _ _ _ (load_ok _ _ _ Hd)).
    unfold lift, df_select. now rewrite Hr.
  - intros Hex.
    destruct (select_columns_missing (df_columns d) TABLE_COLUMNS Hex)
      as (k & Hr & Hin & Hn).
    exists k. split; [|auto].
    unfold table_view. rewrite (bind_ok _ _ _ _ _ (load_ok _ _ _ Hd)).
    unfold lift, df_select. now rewrite Hr.
  - intros data i t Hne ->. destruct data as [|r data]; [congruence|].
    split; [|reflexivity].
    unfold TABLE_COLUMNS. repeat (constructor; [eexists; reflexivity|]).
    constructor.
  - intros data Hne ->. destruct data as [|r data]; [congruence|].
    split; [|discriminate].
    unfold TABLE_COLUMNS. repeat (constructor; [eexists; reflexivity|]).
    constructor.
Qed.

Lemma table_view_columns_witness :
  exists k,
    table_view 0%nat one_zone_world = (Raise (KeyError k), one_zone_world)
    /\ In k ["Incident"; "Timestamp"].
Proof.
  destruct (fun Hwf =>
              proj1 (proj2 (table_view_columns one_zone_world 0%nat
                              one_zone_frame eq_refl Hwf)))
    as (k & Hr & Hin & Hn).
  - split.
    + repeat (apply List.NoDup_cons_iff; split;
              [cbn; intuition discriminate|]).
      constructor.
    + repeat constructor.
  - do 6 apply Exists_cons_tl. apply Exists_cons_hd. reflexivity.
  - exists k. split; [exact Hr|].
    cbn in Hin.
    destruct Hin as [<-|[<-|[<-|[<-|[<-|[<-|[<-|[<-|[]]]]]]]]];
      try discriminate; cbn; auto.
Defined.

(** * The upload panel *)

Lemma endswith_drop (s suffix : string) :
  endswith s suffix = true ->
  string_drop (String.length s - String.length suffix) s = suffix.
Proof.
  unfold endswith. intros H. apply andb_true_iff in H as [_ H].
  now apply String.eqb_eq.
Qed.

Lemma endswith_exclusive (s a b : string) :
  String.length a = String.length b -> a <> b ->
  endswith s a = true -> endswith s b = false.
Proof.
  intros Hl Hne Ha. destruct (endswith s b) eqn:Hb; [|reflexivity].
  apply endswith_drop in Ha, Hb. rewrite Hl in Ha. congruence.
Qed.

Section UploadProperties.

Variable fromstring : string -> result element.
Variable read_csv : string -> result DataFrame.
Variable equals : DataFrame -> DataFrame -> bool.

(** What the choice of the parser comes to: an exception of a decoder, a
    new frame that depends on the file alone, or no parser at all. *)
Lemma upload_dispatch_cases (name file_content : string) :
  (exists e,
     (endswith name ".txt" = false)
     /\ ((endswith name ".csv" = true /\ read_csv file_content = Raise e)
         \/ (endswith name ".csv" = false /\ endswith name ".xml" = true
             /\ fromstring file_content = Raise e))
     /\ forall c w,
          upload_dispatch fromstring read_csv name file_content c w
          = (Raise e, w))
  \/ (exists d ws,
        (endswith name ".txt" = true \/ endswith name ".csv" = true
         \/ endswith name ".xml" = true)
        /\ forall c w,
             upload_dispatch fromstring read_csv name file_content c w
             = (Ok (fresh (dom (heap w)), []),
                mkWorld (<[fresh (dom (heap w)) := d]> (heap w))
                  (warnings w ++ ws)))
  \/ (endswith name ".txt" = false /\ endswith name ".csv" = false
      /\ endswith name ".xml" = false
      /\ forall c w,
           upload_dispatch fromstring read_csv name file_content c w
           = (Ok (c, [ErrUnsupportedFileType]), w)).
Proof.
  unfold upload_dispatch.
  destruct (endswith name ".txt") eqn:Et.
  { right. left.
    pose proof (parse_txt_run file_content) as Hp.
    destruct (scan_headers_ok
                (List.filter is_header_line (txt_lines file_content))
                ("", "")) as [hdr Hh].
    exists (txt_frame hdr (List.filter is_data_line (txt_lines file_content))),
      (omap txt_line_warning
         (List.filter is_data_line (txt_lines file_content))).
    split; [auto|]. intros c w.
    destruct (Hp w) as (hdr' & Hh' & Hrun).
    assert (hdr' = hdr) as -> by congruence.
    now rewrite (bind_ok _ _ _ _ _ Hrun). }
  destruct (endswith name ".csv") eqn:Ec.
  { destruct (read_csv file_content) as [d0|e] eqn:Er.
    - right. left. exists (Frame.rename_columns PyStr.strip d0), [].
      split; [auto|]. intros c w.
      unfold parse_csv. rewrite Er.
      unfold bind, lift, alloc, modify, ret. cbn.
      rewrite lookup_insert_eq. cbn.
      now rewrite insert_insert_eq, app_nil_r.
    - left. exists e. split; [reflexivity|]. split; [auto|].
      intros c w. unfold parse_csv. now rewrite Er. }
  destruct (endswith name ".xml") eqn:Ex.
  { destruct (fromstring file_content) as [root|e] eqn:Er.
    - right. left. exists (xml_frame root),
        (omap xml_elem_warning (ET.findall_descendants root "Zone")).
      split; [auto|]. intros c w.
      unfold parse_xml. rewrite Er.
      change (bind (lift (Ok root)) parse_xml_root w)
        with (parse_xml_root root w).
      now rewrite (bind_ok _ _ _ _ _ (parse_xml_root_run root w)).
    - left. exists e. split; [reflexivity|]. split; [auto|].
      intros c w. unfold parse_xml. now rewrite Er. }
  right. right. auto.
Qed.

(** The three ways the panel can go. *)
Lemma process_upload_failure (name file_content : string) (e : exn)
    (parsed_data : loc) (w : world) :
  (forall c w,
     upload_dispatch fromstring read_csv name file_content c w
     = (Raise e, w)) ->
  let c0 := fresh (dom (heap w)) in
  let h0 := <[c0 := mkDataFrame 0 []]> (heap w) in
  let c1 := fresh (dom h0) in
  process_upload fromstring read_csv equals name file_content parsed_data w
  = (Ok (mkUploadOutcome c1 [ErrProcessingFile e] true),
     mkWorld (<[c1 := mkDataFrame 0 []]> h0) (warnings w)).
Proof.
  intros Hd c0 h0 c1. unfold process_upload.
  unfold bind at 1. unfold alloc at 1. cbn [fst snd].
  unfold try_except. unfold bind at 1. rewrite Hd. reflexivity.
Qed.

Lemma process_upload_parsed (name file_content : string) (d : DataFrame)
    (ws : list warning) (parsed_data : loc) (stored : DataFrame)
    (w : world) :
  (forall c w,
     upload_dispatch fromstring read_csv name file_content c w
     = (Ok (fresh (dom (heap w)), []),
        mkWorld (<[fresh (dom (heap w)) := d]> (heap w))
          (warnings w ++ ws))) ->
  heap w !! parsed_data = Some stored ->
  let c0 := fresh (dom (heap w)) in
  let h0 := <[c0 := mkDataFrame 0 []]> (heap w) in
  let df := fresh (dom h0) in
  process_upload fromstring read_csv equals name file_content parsed_data w
  = (Ok (if negb (Frame.empty d) && negb (equals d stored)
         then mkUploadOutcome df [] true
         else mkUploadOutcome parsed_data [] false),
     mkWorld (<[df := d]> h0) (warnings w ++ ws)).
Proof.
  intros Hd Hs c0 h0 df. unfold process_upload.
  unfold bind at 1. unfold alloc at 1. cbn [fst snd].
  unfold try_except. unfold bind at 1. rewrite Hd. cbn [heap warnings].
  fold c0. fold h0. fold df.
  unfold bind at 1, load at 1. cbn [heap fst snd].
  rewrite lookup_insert_eq.
  destruct (Frame.empty d); cbn [negb andb]; [reflexivity|].
  unfold bind, load. cbn [heap].
  assert (H0 : h0 !! parsed_data = Some stored).
  { unfold h0. rewrite lookup_insert_ne; [exact Hs|].
    intros E. pose proof (alloc_fresh w) as Hf. fold c0 in Hf. congruence. }
  assert (H1 : <[df := d]> h0 !! parsed_data = Some stored).
  { rewrite lookup_insert_ne; [exact H0|].
    intros E.
    pose proof (alloc_fresh (mkWorld h0 [])) as Hf. cbn in Hf. fold df in Hf.
    congruence. }
  rewrite H1. now destruct (equals d stored).
Qed.

Lemma process_upload_unsupported (name file_content : string)
    (parsed_data : loc) (w : world) :
  (forall c w,
     upload_dispatch fromstring read_csv name file_content c w
     = (Ok (c, [ErrUnsupportedFileType]), w)) ->
  process_upload fromstring read_csv equals name file_content parsed_data w
  = (Ok (mkUploadOutcome parsed_data [ErrUnsupportedFileType] false),
     mkWorld (<[fresh (dom (heap w)) := mkDataFrame 0 []]> (heap w))
       (warnings w)).
Proof.
  intros Hd. unfold process_upload.
  unfold bind at 1. unfold alloc at 1. cbn [fst snd].
  unfold try_except. unfold bind at 1. rewrite Hd. cbn [fst snd].
  unfold bind at 1, load at 1. cbn [heap].
  rewrite lookup_insert_eq. reflexivity.
Qed.

Lemma upload_dispatch_txt (name file_content : string) :
  endswith name ".txt" = true ->
  exists hdr,
    forall c w,
      upload_dispatch fromstring read_csv name file_content c w
      = (Ok (fresh (dom (heap w)), []),
         mkWorld
           (<[fresh (dom (heap w)) :=
                txt_frame hdr
                  (List.filter is_data_line (txt_lines file_content))]>
              (heap w))
           (warnings w
            ++ omap txt_line_warning
                 (List.filter is_data_line (txt_lines file_content)))).
Proof.
  intros Et.
  destruct (scan_headers_ok
              (List.filter is_header_line (txt_lines file_content))
              ("", "")) as [hdr Hh].
  exists hdr. intros c w. unfold upload_dispatch. rewrite Et.
  destruct (parse_txt_run file_content w) as (hdr' & Hh' & Hrun).
  assert (hdr' = hdr) as -> by congruence.
  now rewrite (bind_ok _ _ _ _ _ Hrun).
Qed.

Lemma upload_dispatch_raises (name file_content : string) (e : exn) :
  (endswith name ".csv" = true /\ read_csv file_content = Raise e)
  \/ (endswith name ".xml" = true /\ fromstring file_content = Raise e) ->
  forall c w,
    upload_dispatch fromstring read_csv name file_content c w = (Raise e, w).
Proof.
  intros H c w. unfold upload_dispatch.
  destruct H as [[Ec Er]|[Ex Er]].
  - rewrite (endswith_exclusive name ".csv" ".txt" eq_refl
               ltac:(discriminate) Ec), Ec.
    unfold parse_csv. now rewrite Er.
  - rewrite (endswith_exclusive name ".xml" ".txt" eq_refl
               ltac:(discriminate) Ex),
      (endswith_exclusive name ".xml" ".csv" eq_refl
         ltac:(discriminate) Ex), Ex.
    unfold parse_xml. now rewrite Er.
Qed.

End UploadProperties.

Lemma fresh_insert_ne (h : gmap loc DataFrame) (l : loc) (d0 : DataFrame) :
  h !! l = Some d0 -> fresh (dom h) <> l.
Proof.
  intros H E. pose proof (alloc_fresh (mkWorld h [])) as Hf. cbn in Hf.
  congruence.
Qed.

Lemma two_allocs_keep (h : gmap loc DataFrame) (d1 d2 d0 : DataFrame)
    (l : loc) :
  h !! l = Some d0 ->
  <[fresh (dom (<[fresh (dom h) := d1]> h)) := d2]>
    (<[fresh (dom h) := d1]> h) !! l = Some d0.
Proof.
  intros H.
  assert (H1 : <[fresh (dom h) := d1]> h !! l = Some d0).
  { rewrite lookup_insert_ne; [exact H|]. now apply fresh_insert_ne with d0. }
  rewrite lookup_insert_ne; [exact H1|]. now apply fresh_insert_ne with d0.
Qed.

Lemma second_alloc_fresh (h : gmap loc DataFrame) (d1 : DataFrame) :
  h !! fresh (dom (<[fresh (dom h) := d1]> h)) = None.
Proof.
  pose proof (alloc_fresh (mkWorld (<[fresh (dom h) := d1]> h) [])) as Hf.
  cbn in Hf.
  destruct (decide (fresh (dom (<[fresh (dom h) := d1]> h)) = fresh (dom h)))
    as [E|E].
  - rewrite E. apply (alloc_fresh (mkWorld h [])).
  - now rewrite lookup_insert_ne in Hf by congruence.
Qed.

Lemma upload_panel_decoded (fromstring : string -> result element)
    (read_csv : string -> result DataFrame)
    (equals : DataFrame -> DataFrame -> bool)
    (decode_utf8 : list Byte.byte -> option string)
    (name : string) (raw : list Byte.byte) (file_content : string)
    (parsed_data : loc) :
  decode_utf8 raw = Some file_content ->
  upload_panel fromstring read_csv equals decode_utf8 name raw parsed_data
  = process_upload fromstring read_csv equals name file_content parsed_data.
Proof. intros H. unfold upload_panel. now rewrite H. Qed.

Lemma upload_panel_undecodable (fromstring : string -> result element)
    (read_csv : string -> result DataFrame)
    (equals : DataFrame -> DataFrame -> bool)
    (decode_utf8 : list Byte.byte -> option string)
    (name : string) (raw : list Byte.byte) (parsed_data : loc) (w : world) :
  decode_utf8 raw = None ->
  upload_panel fromstring read_csv equals decode_utf8 name raw parsed_data w
  = (Raise ValueError, w).
Proof. intros H. unfold upload_panel. now rewrite H. Qed.



(** X15. A file that cannot be decoded clears the data.  When the name
    ends in ".csv" and the CSV decoder raises, or ends in ".xml" and the
    XML decoder raises, the panel does not raise: it shows the error,
    makes the session name a new frame without rows and columns, and asks
    for a rerun.  This is so whatever the session named before, also when
    it was empty already; the objects that existed are left as they were
    and no warning is added. *)
Theorem upload_failure_clears_data
    (fromstring : string -> result element)
    (read_csv : string -> result DataFrame)
    (equals : DataFrame -> DataFrame -> bool)
    (name file_content : string) (e : exn) (parsed_data : loc) (w : world) :
  (endswith name ".csv" = true /\ read_csv file_content = Raise e)
  \/ (endswith name ".xml" = true /\ fromstring file_content = Raise e) ->
  exists cleared w',
    process_upload fromstring read_csv equals name file_content parsed_data w
    = (Ok (mkUploadOutcome cleared [ErrProcessingFile e] true), w')
    /\ heap w !! cleared = None
    /\ heap w' !! cleared = Some (mkDataFrame 0 [])
    /\ (forall l d, heap w !! l = Some d -> heap w' !! l = Some d)
    /\ warnings w' = warnings w.
Proof.
  intros H.
  pose proof (upload_dispatch_raises fromstring read_csv name file_content
                e H) as Hd.
  do 2 eexists.
  split; [exact (process_upload_failure fromstring read_csv equals name
                   file_content e parsed_data w Hd)|].
  cbn [heap warnings].
  split; [apply second_alloc_fresh|].
  split; [apply lookup_insert_eq|].
  split; [|reflexivity].
  intros l d Hl. now apply two_allocs_keep.
Qed.

Lemma upload_failure_clears_data_witness :
  exists cleared w',
    process_upload failing_fromstring Csv.read_csv_plain frame_eqb
      "zones.xml" "<RascalData" 0%nat one_zone_world
    = (Ok (mkUploadOutcome cleared [ErrProcessingFile ParseError] true), w')
    /\ heap w' !! cleared = Some (mkDataFrame 0 [])
    /\ heap w' !! 0%nat = Some one_zone_frame.
Proof.
  destruct (upload_failure_clears_data failing_fromstring Csv.read_csv_plain
              frame_eqb "zones.xml" "<RascalData" ParseError 0%nat
              one_zone_world)
    as (cleared & w' & H1 & _ & H3 & H4 & _).
  - right. split; reflexivity.
  - exists cleared, w'. split; [exact H1|]. split; [exact H3|].
    exact (H4 0%nat one_zone_frame eq_refl).
Defined.

(** X16. What the upload panel can do to the session.  For every file
    name and every content: when the bytes are not valid UTF-8 the
    decoding, which comes before the [try], raises its
    [UnicodeDecodeError] (a [ValueError]) out of the panel and the store
    is left as it was.  When the bytes decode, the panel returns without
    an exception and leaves every object that existed as it was; either
    the session keeps naming the record set it named and no rerun is asked
    for; or a rerun is asked for and the session names a new object, which
    is either the parsed record set, not empty and different from the one
    named before, with no error shown, or the frame without rows and
    columns, with the error of the decoder shown. *)
Theorem upload_outcomes
    (fromstring : string -> result element)
    (read_csv : string -> result DataFrame)
    (equals : DataFrame -> DataFrame -> bool)
    (decode_utf8 : list Byte.byte -> option string)
    (name : string) (raw : list Byte.byte) (parsed_data : loc)
    (stored : DataFrame) (w : world) :
  heap w !! parsed_data = Some stored ->
  match decode_utf8 raw with
  | None =>
      upload_panel fromstring read_csv equals decode_utf8 name raw
        parsed_data w = (Raise ValueError, w)
  | Some _ =>
      exists o w',
        upload_panel fromstring read_csv equals decode_utf8 name raw
          parsed_data w = (Ok o, w')
        /\ (forall l d0, heap w !! l = Some d0 -> heap w' !! l = Some d0)
        /\ ((uo_rerun o = false /\ uo_parsed_data o = parsed_data)
            \/ (uo_rerun o = true
                /\ heap w !! uo_parsed_data o = None
                /\ exists d,
                     heap w' !! uo_parsed_data o = Some d
                     /\ ((uo_errors o = [] /\ Frame.empty d = false
                          /\ equals d stored = false)
                         \/ (exists e,
                               uo_errors o = [ErrProcessingFile e]
                               /\ d = mkDataFrame 0 []))))
  end.
Proof.
  intros Hs.
  destruct (decode_utf8 raw) as [file_content|] eqn:Edec;
    [|now apply upload_panel_undecodable].
  rewrite (upload_panel_decoded fromstring read_csv equals decode_utf8 name
             raw file_content parsed_data Edec).
  destruct (upload_dispatch_cases fromstring read_csv name file_content)
    as [(e & _ & _ & Hd)|[(d & ws & _ & Hd)|(_ & _ & _ & Hd)]].
  - do 2 eexists.
    split; [exact (process_upload_failure fromstring read_csv equals name
                     file_content e parsed_data w Hd)|].
    cbn [heap uo_rerun uo_parsed_data uo_errors].
    split; [intros l d0 Hl; now apply two_allocs_keep|].
    right. split; [reflexivity|]. split; [apply second_alloc_fresh|].
    exists (mkDataFrame 0 []). split; [apply lookup_insert_eq|].
    right. now exists e.
  - do 2 eexists.
    split; [exact (process_upload_parsed fromstring read_csv equals name
                     file_content d ws parsed_data stored w Hd Hs)|].
    cbn [heap].
    split; [intros l d0 Hl; now apply two_allocs_keep|].
    destruct (Frame.empty d) eqn:Ee; cbn [negb andb].
    + left. split; reflexivity.
    + destruct (equals d stored) eqn:Eq; cbn [negb].
      * left. split; reflexivity.
      * right. cbn [uo_rerun uo_parsed_data uo_errors].
        split; [reflexivity|]. split; [apply second_alloc_fresh|].
        exists d. split; [apply lookup_insert_eq|]. left. auto.
  - do 2 eexists.
    split; [exact (process_upload_unsupported fromstring read_csv equals
                     name file_content parsed_data w Hd)|].
    cbn [heap uo_rerun uo_parsed_data].
    split.
    + intros l d0 Hl. rewrite lookup_insert_ne; [exact Hl|].
      now apply fresh_insert_ne with d0.
    + left. split; reflexivity.
Qed.

Lemma upload_outcomes_witness :
  (exists o w',
     upload_panel failing_fromstring Csv.read_csv_plain frame_eqb
       decode_ascii "zones.txt" (list_byte_of_string scenario1_txt) 0%nat
       empty_session_world = (Ok o, w')
     /\ heap w' !! 0%nat = Some (mkDataFrame 0 []))
  /\ upload_panel failing_fromstring Csv.read_csv_plain frame_eqb
       decode_ascii "zones.txt" [Byte.xff] 0%nat empty_session_world
     = (Raise ValueError, empty_session_world).
Proof.
  split.
  - pose proof (upload_outcomes failing_fromstring Csv.read_csv_plain
                  frame_eqb decode_ascii "zones.txt"
                  (list_byte_of_string scenario1_txt) 0%nat
                  (mkDataFrame 0 []) empty_session_world eq_refl) as H.
    change (decode_ascii (list_byte_of_string scenario1_txt))
      with (Some scenario1_txt) in H.
    destruct H as (o & w' & H1 & H2 & _).
    exists o, w'. split; [exact H1|].
    exact (H2 0%nat (mkDataFrame 0 []) eq_refl).
  - exact (upload_outcomes failing_fromstring Csv.read_csv_plain frame_eqb
             decode_ascii "zones.txt" [Byte.xff] 0%nat (mkDataFrame 0 [])
             empty_session_world eq_refl).
Defined.

(** X17. A TXT upload fails in the decoding only, and an upload without
    records keeps the data of the session.  When the name ends in ".txt":
    if the bytes are not valid UTF-8 the panel raises the
    [UnicodeDecodeError] of the decoding and leaves the store as it was;
    if they decode, then whatever the text and the two decoders, the panel
    returns, shows no error, and the parsed record set holds the records
    of the accepted data lines in file order.  If no data line is accepted
    the session keeps naming the record set it named and no rerun is asked
    for, although warnings may have been shown; if there is a record and
    the parsed record set differs from the one of the session, the session
    names the parsed one and a rerun is asked for. *)
Theorem upload_txt_fails_only_in_decoding
    (fromstring : string -> result element)
    (read_csv : string -> result DataFrame)
    (equals : DataFrame -> DataFrame -> bool)
    (decode_utf8 : list Byte.byte -> option string)
    (name : string) (raw : list Byte.byte) (parsed_data : loc)
    (stored : DataFrame) (w : world) :
  endswith name ".txt" = true ->
  heap w !! parsed_data = Some stored ->
  match decode_utf8 raw with
  | None =>
      upload_panel fromstring read_csv equals decode_utf8 name raw
        parsed_data w = (Raise ValueError, w)
  | Some file_content =>
      let rows :=
        omap txt_line_row
          (List.filter is_data_line (txt_lines file_content)) in
      exists df d o w',
        upload_panel fromstring read_csv equals decode_utf8 name raw
          parsed_data w = (Ok o, w')
        /\ uo_errors o = []
        /\ heap w !! df = None
        /\ heap w' !! df = Some d
        /\ rows_in_order d rows
        /\ (rows = [] -> o = mkUploadOutcome parsed_data [] false)
        /\ (equals d stored = true ->
            o = mkUploadOutcome parsed_data [] false)
        /\ (rows <> [] -> equals d stored = false ->
            o = mkUploadOutcome df [] true)
  end.
Proof.
  intros Et Hs.
  destruct (decode_utf8 raw) as [file_content|] eqn:Edec;
    [|now apply upload_panel_undecodable].
  intros rows.
  rewrite (upload_panel_decoded fromstring read_csv equals decode_utf8 name
             raw file_content parsed_data Edec).
  destruct (upload_dispatch_txt fromstring read_csv name file_content Et)
    as [hdr Hd].
  pose proof (process_upload_parsed fromstring read_csv equals name
                file_content _ _ parsed_data stored w Hd Hs) as Hrun.
  cbn zeta in Hrun.
  do 4 eexists. split; [exact Hrun|]. cbn [heap].
  split; [now destruct (negb _ && negb _)|].
  split; [apply second_alloc_fresh|].
  split; [apply lookup_insert_eq|].
  rewrite txt_frame_with_headers. fold rows.
  split; [apply with_headers_rows|].
  split; [|split].
  - intros ->. reflexivity.
  - intros ->. now rewrite andb_false_r.
  - intros Hne ->.
    now rewrite (proj1 (with_headers_dose rows _ _ Hne)).
Qed.

Lemma upload_txt_fails_only_in_decoding_witness :
  (exists df d o w',
     upload_panel failing_fromstring Csv.read_csv_plain frame_eqb
       decode_ascii "zones.txt" (list_byte_of_string txt_no_record) 0%nat
       one_zone_world = (Ok o, w')
     /\ heap w' !! df = Some d
     /\ df_len d = 0%nat
     /\ o = mkUploadOutcome 0%nat [] false)
  /\ upload_panel failing_fromstring Csv.read_csv_plain frame_eqb
       decode_ascii "zones.txt" [Byte.xff] 0%nat one_zone_world
     = (Raise ValueError, one_zone_world).
Proof.
  split.
  - pose proof (upload_txt_fails_only_in_decoding failing_fromstring
                  Csv.read_csv_plain frame_eqb decode_ascii "zones.txt"
                  (list_byte_of_string txt_no_record) 0%nat one_zone_frame
                  one_zone_world eq_refl eq_refl) as H.
    change (decode_ascii (list_byte_of_string txt_no_record))
      with (Some txt_no_record) in H.
    destruct H as (df & d & o & w' & H1 & _ & _ & H4 & [H5 _] & H6 & _).
    exists df, d, o, w'. split; [exact H1|]. split; [exact H4|].
    split; [exact H5|]. exact (H6 eq_refl).
  - exact (upload_txt_fails_only_in_decoding failing_fromstring
             Csv.read_csv_plain frame_eqb decode_ascii "zones.txt"
             [Byte.xff] 0%nat one_zone_frame one_zone_world eq_refl
             eq_refl).
Defined.

(** X18. A name with none of the three suffixes runs no parser.  The
    suffix test is exact, so a name such as "ZONES.TXT" counts as
    unsupported: the panel shows the unsupported-type error, the session
    keeps naming the record set it named, no rerun is asked for, no warning
    is added, and the only new object is the empty frame of the local
    variable. *)
Theorem upload_unsupported_name
    (fromstring : string -> result element)
    (read_csv : string -> result DataFrame)
    (equals : DataFrame -> DataFrame -> bool)
    (name file_content : string) (parsed_data : loc) (w : world) :
  endswith name ".txt" = false ->
  endswith name ".csv" = false ->
  endswith name ".xml" = false ->
  process_upload fromstring read_csv equals name file_content parsed_data w
  = (Ok (mkUploadOutcome parsed_data [ErrUnsupportedFileType] false),
     mkWorld (<[fresh (dom (heap w)) := mkDataFrame 0 []]> (heap w))
       (warnings w)).
Proof.
  intros Et Ec Ex. apply process_upload_unsupported.
  intros c w0. unfold upload_dispatch. now rewrite Et, Ec, Ex.
Qed.

Lemma upload_unsupported_name_witness :
  exists w',
    process_upload failing_fromstring Csv.read_csv_plain frame_eqb
      "ZONES.TXT" scenario1_txt 0%nat one_zone_world
    = (Ok (mkUploadOutcome 0%nat [ErrUnsupportedFileType] false), w')
    /\ warnings w' = [].
Proof.
  eexists. split.
  - apply (upload_unsupported_name failing_fromstring Csv.read_csv_plain
             frame_eqb "ZONES.TXT" scenario1_txt 0%nat one_zone_world);
      reflexivity.
  - reflexivity.
Defined.

Lemma SFeqb_refl (x : spec_float) : is_nan x = false -> SFeqb x x = true.
Proof.
  destruct x as [s|s| |s m e]; cbn; try discriminate; intros _.
  - now destruct s.
  - now destruct s.
  - unfold SFeqb. cbn.
    destruct s; rewrite Z.compare_refl, Pos.compare_cont_refl; reflexivity.
Qed.

Lemma pyval_eqb_refl (v : pyval) : pyval_eqb v v = true.
Proof.
  destruct v as [|s|z|f]; cbn.
  - reflexivity.
  - apply String.eqb_refl.
  - apply Z.eqb_refl.
  - destruct (is_nan f) eqn:E; [now rewrite orb_true_r|].
    now rewrite SFeqb_refl.
Qed.

Lemma frame_eqb_refl (d : DataFrame) : frame_eqb d d = true.
Proof.
  unfold frame_eqb. rewrite Nat.eqb_refl. cbn.
  induction (df_columns d) as [|[k c] cols IH]; cbn; [reflexivity|].
  rewrite String.eqb_refl, IH, andb_true_r. cbn.
  induction c as [|v c IHc]; cbn; [reflexivity|].
  now rewrite pyval_eqb_refl, IHc.
Qed.

(** X19. The panel settles after one rerun.  Given that
    [DataFrame.equals] holds between a frame and itself: when a run of the
    panel has stored a parsed record set and asked for a rerun, the next
    run on the same uploaded file parses it again, finds it equal to what
    the session now names, keeps that object and asks for no further
    rerun; the objects in the store stay as they were. *)
Theorem upload_settles_after_one_rerun
    (fromstring : string -> result element)
    (read_csv : string -> result DataFrame)
    (equals : DataFrame -> DataFrame -> bool)
    (name file_content : string) (parsed_data : loc) (stored : DataFrame)
    (w w1 : world) (o : upload_outcome) :
  (forall d, equals d d = true) ->
  heap w !! parsed_data = Some stored ->
  process_upload fromstring read_csv equals name file_content parsed_data w
  = (Ok o, w1) ->
  uo_rerun o = true ->
  uo_errors o = [] ->
  exists w2,
    process_upload fromstring read_csv equals name file_content
      (uo_parsed_data o) w1
    = (Ok (mkUploadOutcome (uo_parsed_data o) [] false), w2)
    /\ (forall l d0, heap w1 !! l = Some d0 -> heap w2 !! l = Some d0).
Proof.
  intros Hrefl Hs Hrun Hre Herr.
  destruct (upload_dispatch_cases fromstring read_csv name file_content)
    as [(e & _ & _ & Hd)|[(d & ws & _ & Hd)|(_ & _ & _ & Hd)]].
  - rewrite (process_upload_failure fromstring read_csv equals name
               file_content e parsed_data w Hd) in Hrun.
    injection Hrun as <- <-. discriminate.
  - rewrite (process_upload_parsed fromstring read_csv equals name
               file_content d ws parsed_data stored w Hd Hs) in Hrun.
    injection Hrun as <- <-.
    destruct (negb (Frame.empty d) && negb (equals d stored)) eqn:Ec;
      [|discriminate].
    cbn [uo_parsed_data].
    match goal with
    | |- context [process_upload _ _ _ _ _ ?l ?w1] =>
        pose proof (process_upload_parsed fromstring read_csv equals name
                      file_content d ws l d w1 Hd) as H2
    end.
    cbn [heap] in H2. rewrite lookup_insert_eq in H2.
    specialize (H2 eq_refl). cbn zeta in H2.
    rewrite Hrefl, andb_false_r in H2.
    eexists. split; [exact H2|].
    cbn [heap]. intros l d0 Hl. now apply two_allocs_keep.
  - rewrite (process_upload_unsupported fromstring read_csv equals name
               file_content parsed_data w Hd) in Hrun.
    injection Hrun as <- <-. discriminate.
Qed.

Lemma upload_settles_after_one_rerun_witness :
  exists w1 w2,
    process_upload failing_fromstring Csv.read_csv_plain frame_eqb
      "zones.txt" scenario1_txt 0%nat empty_session_world
    = (Ok (mkUploadOutcome 2%nat [] true), w1)
    /\ process_upload failing_fromstring Csv.read_csv_plain frame_eqb
         "zones.txt" scenario1_txt 2%nat w1
       = (Ok (mkUploadOutcome 2%nat [] false), w2).
Proof.
  set (r := process_upload failing_fromstring Csv.read_csv_plain frame_eqb
              "zones.txt" scenario1_txt 0%nat empty_session_world).
  assert (H1 : r = (Ok (mkUploadOutcome 2%nat [] true), snd r))
    by (vm_compute; reflexivity).
  destruct (upload_settles_after_one_rerun failing_fromstring
              Csv.read_csv_plain frame_eqb "zones.txt" scenario1_txt 0%nat
              (mkDataFrame 0 []) empty_session_world (snd r)
              (mkUploadOutcome 2%nat [] true) frame_eqb_refl eq_refl H1
              eq_refl eq_refl) as (w2 & H2 & _).
  exists (snd r), w2. split; [exact H1|exact H2].
Defined.

(** * Simulated data on the page *)

Lemma recommended_view_run (w : world) (l : loc) (d : DataFrame)
    (dose acts : list pyval) :
  heap w !! l = Some d -> Frame.empty d = false ->
  Frame.lookup_column "Dose (mSv)" (df_columns d) = Some dose ->
  Frame.apply get_action dose = Ok acts ->
  recommended_view l w
  = (Ok (fresh (dom (heap w))),
     mkWorld (<[fresh (dom (heap w)) := engine_frame d acts]> (heap w))
       (warnings w)).
Proof.
  intros Hl He Hd Ha. unfold recommended_view.
  rewrite (bind_ok _ _ _ _ _ (df_copy_run w l d Hl)).
  rewrite (engine_run _ (fresh (dom (heap w))) d dose acts);
    try assumption.
  - cbn. now rewrite insert_insert_eq.
  - cbn. apply lookup_insert_eq.
Qed.

(** X20. Simulated data always gets through the page.  For one to 191
    zones and whatever the random source draws, the record set of the
    generator passes the engine and the table without an exception: the
    copy handed to the engine comes back with as many records, each with
    the action the ladder gives its dose and the colour of that action;
    the record set of the session itself is left without the two columns
    of the engine; and the table shows its eight columns in the table's
    order. *)
Theorem generated_data_on_the_page (rng : Type)
    (randint : Z -> Z -> rng -> Z * rng)
    (uniform : spec_float -> spec_float -> rng -> spec_float * rng)
    (choice : list string -> rng -> string * rng)
    (py_round : spec_float -> Z -> spec_float)
    (minutes_ago : Z -> string)
    (num_zones : nat) (g : rng) (w : world) :
  (1 <= num_zones <= 191)%nat ->
  exists df w0 d c w1 d1 t,
    fst (generate_random_rascal_data rng randint uniform choice py_round
           minutes_ago num_zones g) w = (Ok df, w0)
    /\ heap w0 !! df = Some d
    /\ recommended_view df w0 = (Ok c, w1)
    /\ c <> df
    /\ heap w1 !! c = Some d1
    /\ df_len d1 = num_zones
    /\ (forall k,
          (k < num_zones)%nat ->
          exists dose a,
            Frame.cell d1 "Dose (mSv)" k = Some dose
            /\ Frame.cell d "Dose (mSv)" k = Some dose
            /\ get_action dose = Ok a
            /\ Frame.cell d1 "Recommended Action" k = Some a
            /\ Frame.cell d1 "Action Color" k = Some (get_color a))
    /\ heap w1 !! df = Some d
    /\ Frame.lookup_column "Recommended Action" (df_columns d) = None
    /\ table_view df w1 = (Ok t, w1)
    /\ Frame.labels t = TABLE_COLUMNS
    /\ df_len t = num_zones.
Proof.
  intros Hn. unfold generate_random_rascal_data.
  destruct (randint 100%Z 999%Z g) as [k0 g1].
  destruct (randint 1%Z 60%Z g1) as [m g2].
  pose proof (generate_zones_rows rng uniform choice py_round
                (String.append "Random Incident " (str_of_int k0))
                (minutes_ago m) num_zones 0%nat g2) as Hrows.
  cbn zeta in Hrows.
  destruct (generate_zones rng uniform choice py_round
              (String.append "Random Incident " (str_of_int k0))
              (minutes_ago m) 0 num_zones g2) as [data g3].
  cbn [fst] in *. destruct Hrows as [Hlen _].
  destruct data as [|r0 data0] eqn:Ed; [cbn in Hlen; lia|].
  rewrite <- Ed in *. assert (Hne : data <> []) by (rewrite Ed; discriminate).
  clear Ed r0 data0.
  set (d := frame_of_sim_rows data).
  set (df := fresh (dom (heap w))).
  set (w0 := mkWorld (<[df := d]> (heap w)) (warnings w)).
  assert (Hdf : heap w0 !! df = Some d) by (cbn; apply lookup_insert_eq).
  assert (He : Frame.empty d = false /\
               Frame.lookup_column "Dose (mSv)" (df_columns d)
               = Some (List.map (fun r => VFloat (sr_dose r)) data)
               /\ Frame.lookup_column "Recommended Action" (df_columns d)
                  = None
               /\ Forall (fun k => is_Some (Frame.lookup_column k
                                              (df_columns d)))
                    TABLE_COLUMNS).
  { unfold d. destruct data as [|r data']; [congruence|].
    repeat split. unfold TABLE_COLUMNS.
    repeat (constructor; [eexists; reflexivity|]). constructor. }
  destruct He as (He & Hdose & Hra & Hcols).
  destruct (apply_get_action_ok
              (List.map (fun r => VFloat (sr_dose r)) data)) as [acts Ha].
  { apply List.Forall_forall. intros v Hv. apply in_map_iff in Hv.
    destruct Hv as (r & <- & _). reflexivity. }
  set (c := fresh (dom (heap w0))).
  set (w1 := mkWorld (<[c := engine_frame d acts]> (heap w0)) (warnings w0)).
  assert (Hc : c <> df).
  { intros E. pose proof (alloc_fresh w0) as Hf. fold c in Hf. congruence. }
  assert (Hdf1 : heap w1 !! df = Some d).
  { cbn. rewrite lookup_insert_ne by exact Hc. apply lookup_insert_eq. }
  destruct (select_columns_ok (df_columns d) TABLE_COLUMNS Hcols)
    as (cols & Hsel & Hlab & _).
  exists df, w0, d, c, w1, (engine_frame d acts),
    (mkDataFrame (df_len d) cols).
  split; [reflexivity|]. split; [exact Hdf|].
  split; [exact (recommended_view_run w0 df d _ acts Hdf He Hdose Ha)|].
  split; [exact Hc|]. split; [cbn; apply lookup_insert_eq|].
  split; [cbn; unfold d; now rewrite frame_of_sim_rows_len|].
  split; [|split; [exact Hdf1|split; [exact Hra|split; [|split]]]].
  - intros k Hk.
    destruct (lookup_lt_is_Some_2 data k ltac:(lia)) as [r Hr].
    destruct (apply_lookup get_action _ acts k (VFloat (sr_dose r)) Ha)
      as (a & Ea & Hak).
    { now apply (map_lookup_Some (fun r => VFloat (sr_dose r))). }
    destruct (frame_of_sim_rows_carries data k r Hr) as (_ & C2 & _).
    exists (VFloat (sr_dose r)), a.
    split; [rewrite cell_engine_frame_ne by discriminate; exact C2|].
    split; [exact C2|]. split; [exact Ea|]. split.
    + unfold Frame.cell, engine_frame, Frame.setitem. cbn.
      rewrite lookup_set_column_ne by discriminate.
      now rewrite lookup_set_column_eq.
    + unfold Frame.cell, engine_frame, Frame.setitem. cbn.
      rewrite lookup_set_column_eq. now apply map_lookup_Some.
  - unfold table_view. rewrite (bind_ok _ _ _ _ _ (load_ok _ _ _ Hdf1)).
    unfold lift, df_select. now rewrite Hsel.
  - exact Hlab.
  - cbn. unfold d. now rewrite frame_of_sim_rows_len.
Qed.

Lemma generated_data_on_the_page_witness :
  exists df w0 c w1 t,
    fst (generate_random_rascal_data unit low_randint low_uniform
           first_choice no_round fixed_clock default_num_zones tt) world0
    = (Ok df, w0)
    /\ recommended_view df w0 = (Ok c, w1)
    /\ table_view df w1 = (Ok t, w1)
    /\ df_len t = 3%nat.
Proof.
  destruct (generated_data_on_the_page unit low_randint low_uniform
              first_choice no_round fixed_clock default_num_zones tt world0)
    as (df & w0 & d & c & w1 & d1 & t & H1 & _ & H3 & _ & _ & _ & _ & _ & _
        & H10 & _ & H12).
  - unfold default_num_zones. lia.
  - exists df, w0, c, w1, t. repeat split; assumption.
Defined.

(** * The session across the runs of the script *)

Section PageProperties.

Variable fromstring : string -> result element.
Variable read_csv : string -> result DataFrame.
Variable equals : DataFrame -> DataFrame -> bool.
Variable decode_utf8 : list Byte.byte -> option string.
Variable rng : Type.
Variable randint : Z -> Z -> rng -> Z * rng.
Variable uniform : spec_float -> spec_float -> rng -> spec_float * rng.
Variable choice : list string -> rng -> string * rng.
Variable py_round : spec_float -> Z -> spec_float.
Variable minutes_ago : Z -> string.







End PageProperties.



(** * The value of a header line *)

Local Open Scope string_scope.

Lemma split_from_no_occurrence (sep : string) :
  forall s, PyStr.contains sep s = false ->
  PyStr.split_from sep 0 s = (s, []).
Proof.
  induction s as [|c s IH]; [reflexivity|].
  cbn [PyStr.contains PyStr.split_from]. intros H.
  apply orb_false_iff in H as [Hp Hc].
  rewrite Hp, (IH Hc). reflexivity.
Qed.

Lemma split_from_skip (sep v : string) :
  forall t, PyStr.split_from sep (String.length t) (t ++ v)
            = PyStr.split_from sep 0 v.
Proof.
  induction t as [|c t IH]; [now rewrite append_nil|].
  rewrite append_cons. cbn [String.length PyStr.split_from]. exact IH.
Qed.

Lemma split_key_value (sep v : string) :
  sep <> "" -> PyStr.contains sep v = false ->
  PyStr.split (sep ++ v) sep = [""; v].
Proof.
  intros Hne Hv. unfold PyStr.split.
  destruct sep as [|c sep']; [congruence|].
  pose proof (prefix_app (String c sep') v) as Hp.
  rewrite append_cons in *. cbn [PyStr.split_from]. rewrite Hp.
  replace (String.length (String c sep') - 1)%nat
    with (String.length sep') by (cbn; lia).
  rewrite split_from_skip, (split_from_no_occurrence _ _ Hv). reflexivity.
Qed.

Lemma contains_key (sep v : string) :
  PyStr.contains sep (sep ++ v) = true.
Proof.
  destruct sep as [|c sep'].
  - rewrite append_nil. now destruct v.
  - rewrite append_cons. cbn [PyStr.contains]. rewrite <- append_cons.
    now rewrite prefix_app.
Qed.

Local Open Scope list_scope.

(** X22. The value of a header line.  A line that starts with
    "Incident:" sets the incident name to the rest of the line with the
    white space at both ends removed, and a line that starts with
    "Timestamp:" sets the time stamp in the same way, provided the rest
    does not contain the key again (and, for the time stamp, not the key
    "Incident:").  The rest may contain colons, as a time of day does; the
    other header value is kept. *)
Theorem header_line_value (st : string * string) (v : string) :
  (PyStr.contains "Incident:" v = false ->
   is_header_line (String.append "Incident:" v) = true
   /\ header_step st (String.append "Incident:" v)
      = Ok (PyStr.strip v, snd st))
  /\ (PyStr.contains "Incident:" v = false ->
      PyStr.contains "Timestamp:" v = false ->
      is_header_line (String.append "Timestamp:" v) = true
      /\ header_step st (String.append "Timestamp:" v)
         = Ok (fst st, PyStr.strip v)).
Proof.
  split.
  - intros Hi. split.
    + unfold is_header_line. apply contains_spec.
      now exists "Incident", v.
    + unfold header_step. destruct st as [i t].
      rewrite contains_key.
      rewrite (split_key_value "Incident:" v ltac:(discriminate) Hi).
      reflexivity.
  - intros Hi Ht. split.
    + unfold is_header_line. apply contains_spec.
      now exists "Timestamp", v.
    + unfold header_step. destruct st as [i t].
      assert (Hn : PyStr.contains "Incident:" (String.append "Timestamp:" v)
                   = false).
      { rewrite !append_cons, append_nil. cbn. exact Hi. }
      rewrite Hn, contains_key.
      rewrite (split_key_value "Timestamp:" v ltac:(discriminate) Ht).
      reflexivity.
Qed.

Lemma header_line_value_witness :
  header_step ("Test1", "") "Timestamp: 2024-01-01 00:00:00"
  = Ok ("Test1", "2024-01-01 00:00:00").
Proof.
  exact (proj2 (proj2 (header_line_value ("Test1", "")
                         " 2024-01-01 00:00:00") eq_refl eq_refl)).
Defined.

(** * Zone elements at any depth *)

Lemma element_children_ind (P : element -> Prop) :
  (forall t a cs, Forall P cs -> P (Element t a cs)) ->
  forall e, P e.
Proof.
  intros H.
  refine (fix go (e : element) : P e :=
            match e with
            | Element t a cs =>
                H t a cs
                  ((fix all (l : list element) : Forall P l :=
                      match l with
                      | [] => @List.Forall_nil _ P
                      | c :: l' =>
                          @List.Forall_cons _ P c l' (go c) (all l')
                      end) cs)
            end).
Qed.

Lemma descendant_iter (e x : element) :
  descendant x e -> In x (List.flat_map ET.iter (ET.children e)).
Proof.
  induction 1 as [e c Hc|e c x Hc Hd IHd].
  - apply in_flat_map. exists c. split; [exact Hc|].
    destruct c. cbn. now left.
  - apply in_flat_map. exists c. split; [exact Hc|].
    destruct c as [t' a' cs']. cbn [ET.iter]. right. exact IHd.
Qed.

Lemma iter_descendants (e : element) :
  forall x,
    In x (List.flat_map ET.iter (ET.children e)) <-> descendant x e.
Proof.
  induction e as [t a cs IH] using element_children_ind.
  intros x. split; [|apply descendant_iter].
  cbn [ET.children].
  intros Hin. apply in_flat_map in Hin as (c & Hc & Hx).
  rewrite List.Forall_forall in IH. specialize (IH c Hc x).
  destruct c as [t' a' cs']. cbn [ET.iter] in Hx.
  destruct Hx as [<-|Hx].
  - now apply descendant_child.
  - apply descendant_deeper with (Element t' a' cs'); [exact Hc|].
    now apply IH.
Qed.

(** X23. Zone elements are read at any depth, the root never.  In the
    result of [parse_xml], from the parsed tree on, every element tagged
    [Zone] that lies anywhere below the root and whose four numbers can be
    read has its record; every record comes from such an element; and a
    root without children gives no record, also when the root itself is
    tagged [Zone]. *)
Theorem xml_zones_at_any_depth (root : element) (w : world) :
  let rows := omap xml_elem_row (ET.findall_descendants root "Zone") in
  exists df d ws,
    parse_xml_root root w
    = (Ok df, mkWorld (<[df := d]> (heap w)) (warnings w ++ ws))
    /\ rows_in_order d rows
    /\ (forall z,
          descendant z root -> ET.tag z = "Zone" ->
          xml_numbers_read z = true ->
          exists k r,
            xml_elem_row z = Some r /\ rows !! k = Some r
            /\ zr_zone r = ET.get z "name" /\ carries d k r)
    /\ (forall k r,
          rows !! k = Some r ->
          exists z,
            descendant z root /\ ET.tag z = "Zone"
            /\ xml_elem_row z = Some r)
    /\ (ET.children root = [] -> df_len d = 0%nat).
Proof.
  intros rows.
  do 3 eexists. split; [apply parse_xml_root_run|].
  rewrite xml_frame_with_headers. fold rows.
  pose proof (with_headers_rows rows (xml_incident root)
                (xml_timestamp root)) as Hrows.
  split; [exact Hrows|]. split; [|split].
  - intros z Hz Ht Hn.
    destruct (xml_elem_kept z Hn) as [(r & Hr & Hname & _) _].
    assert (Hin : r ∈ rows).
    { apply list_elem_of_omap. exists z. split; [|exact Hr].
      apply list_elem_of_In. unfold ET.findall_descendants.
      apply filter_In. split; [now apply iter_descendants|].
      now apply String.eqb_eq. }
    apply list_elem_of_lookup_1 in Hin as [k Hk].
    exists k, r.
    split; [exact Hr|]. split; [exact Hk|]. split; [exact Hname|].
    now apply (proj2 Hrows).
  - intros k r Hk.
    assert (Hin : r ∈ rows) by (eapply list_elem_of_lookup_2; exact Hk).
    apply list_elem_of_omap in Hin as (z & Hz & Hr).
    apply list_elem_of_In in Hz. unfold ET.findall_descendants in Hz.
    apply filter_In in Hz as [Hz Ht].
    exists z. split; [now apply iter_descendants|].
    split; [now apply String.eqb_eq|exact Hr].
  - intros Hc. rewrite with_headers_len. unfold rows.
    unfold ET.findall_descendants. now rewrite Hc.
Qed.

Lemma xml_zones_at_any_depth_witness :
  exists df d ws k,
    parse_xml_root doc_nested_zone world0
    = (Ok df, mkWorld (<[df := d]> ∅) ([] ++ ws))
    /\ Frame.cell d "Zone" k = Some (VStr "Zone A").
Proof.
  destruct (xml_zones_at_any_depth doc_nested_zone world0)
    as (df & d & ws & H1 & _ & H3 & _).
  destruct (H3 (Element "Zone"
                  (list_to_map
                     [("name", "Zone A"); ("dose_mSv", "12.5");
                      ("radionuclide", "I-131"); ("radius_km", "5.0");
                      ("latitude", "-33.586"); ("longitude", "18.402")])
                  []))
    as (k & r & _ & _ & Hname & Hcell & _).
  - apply descendant_deeper
      with (Element "Zones" ∅
              [Element "Zone"
                 (list_to_map
                    [("name", "Zone A"); ("dose_mSv", "12.5");
                     ("radionuclide", "I-131"); ("radius_km", "5.0");
                     ("latitude", "-33.586"); ("longitude", "18.402")])
                 []]).
    + cbn. now left.
    + apply descendant_child. cbn. now left.
  - reflexivity.
  - reflexivity.
  - exists df, d, ws, k. split; [exact H1|].
    rewrite Hcell, Hname. reflexivity.
Defined.
